(* ===== verification/_CoqProject ===== *)
-Q . S2P
Prelude.v
Html.v
Json.v
Web.v
Faq.v
Policy.v
Hero.v
Email.v
Contact.v
PyDict.v
Social.v
About.v
Catalog.v
Store.v
Api.v
Session.v
