(* ===== verification/Prelude.v ===== *)
(** * A verification of the Shopify storefront scraper

    The program ([src/app]) extracts brand data from a Shopify storefront:
    [scraper.py] defines [ShopifyScraper], whose only state is the base
    URL, with one resolver per kind of data (product feed, hero products,
    privacy and refund policies, FAQs, social handles, contact details,
    about text, important links); each resolver fetches pages with
    [requests], parses them with BeautifulSoup and, for FAQs, contacts and
    the about text, falls back on an OpenAI chat call.  [main.py] exposes
    them through FastAPI ([/fetch-insights], [/fetch-competitors],
    [/brands], [/brands/{id}/insights]) and stores the result with
    SQLAlchemy ([schemas.py]); [models.py] holds the Pydantic records.
    The resolvers do not call each other: they share the base URL and the
    helpers [fetch_homepage_html] and the inline href resolution.
    [fetch_insights] calls them in a fixed order, the first exception
    leaving the request, and upserts the result; [fetch_competitors] runs
    the same pipeline on every URL the model names, skipping failures.

    ** Layout (files in dependency order)

    - [Prelude.v] (this file): Python's string operations on ASCII
      ([py_lower], [py_strip], [py_contains], [py_endswith], [py_join],
      [str.replace(old, '')], [split]), Python exceptions as values
      ([pyexc], the result type [pyres] with stdpp's monad notation,
      [py_try] for [try/except]), the generic [seen]-set deduplication
      [dedup] with its laws and its reference [dedup_ref] (keep the head,
      filter its key out of the rest), and the searches [first_some] / [upto_first]
      that model loops leaving on their first hit; the stripped strings
      (what [strip()] leaves unchanged) and the lemmas that [strip()] and
      [join] produce them.
    - [Html.v]: the bs4 document tree and the navigation the code uses
      ([find_all], [find], [find_next_sibling], [get_text] with and
      without [strip=True], [decompose], the main-content region).
    - [Json.v]: decoded JSON values with Python's truthiness, [.get],
      indexing and slicing, each raising what Python raises.
    - [Web.v]: the interface [Platform] of the collaborators that are not
      modelled ([requests.get], the HTML parser, [json.loads], the phone
      matcher, the OpenAI client and call, set iteration order); the
      writer monad [Fetch] that records every URL requested, with a
      [Proper] instance of its bind so [setoid_rewrite] goes under the
      continuations of a pipeline; the scraper
      object ([mk_scraper] = [__init__]), [fetch_homepage_html] and
      [resolve_href].  Every resolver is a [Fetch] computation over an
      arbitrary [Platform]; witnesses run them on [table_platform] sites.
    - [Faq.v]: [get_faqs] and [extract_faqs_with_llm].
    - [Policy.v]: [get_policy_text] and its two wrappers.
    - [Hero.v]: [get_hero_products].
    - [Email.v]: the email pattern as [re.findall] runs it, and
      [is_real_email].
    - [Contact.v]: [get_contact_details] and [extract_contact_with_llm].
    - [PyDict.v]: Python's [dict] as an insertion-ordered association
      list ([d[k] = v] replaces in place, [d.get], [k in d]), its
      invariant (distinct keys) and its refinement to stdpp's [gmap]:
      assignment is [insert], lookup is [!!].
    - [Social.v]: [get_social_handles] and [get_important_links], the two
      single-pass anchor loops that fill such dicts.
    - [About.v]: [get_about] and [extract_about_with_llm].
    - [Catalog.v]: [get_product_catalog], the interface [Builtins] of
      [float] and [str], the interface [Pydantic] of the field validators
      of [models.py] with the constructor [Product] that raises
      [ValidationError], and the record-to-[Product] loop of [main.py].
    - [Store.v]: the two tables of [schemas.py] and the upsert of
      [fetch_insights], run alone ([save_insights], each commit's outcome
      a parameter) and as atomic steps of interleaved requests
      ([sys_step]); [list_brands] and the lookups of [get_brand_insights].
    - [Api.v]: the competitor URL pattern, the pipeline of
      [fetch_insights] and [fetch_competitors] (a [Fetch (pyres _)] bind
      [?←] from [Web.v]), the constructor [BrandInsights] with its
      validation, the interface [Serializer] of [json.dumps] and
      [json.loads] with its round-trip law, and [get_brand_insights].
    - [Session.v]: the SQLAlchemy session of [fetch_insights] (lines
      66-88) and the [get_db] generator (149-154) in a state and
      exception monad [sess] of its own: a session holds the committed
      database and its own view, [db.commit()] publishes the view or
      raises [SQLAlchemyError], [except] and [finally] are the
      combinators [sess_except] and [sess_finally].  [fetch_insights_db]
      composes the scrape of [Api.v] with this session.

    ** What is proved

    - FAQ: every returned entry has a truthy question and answer on every
      path; the dedup keeps exactly one copy of each non-empty pair, in
      order, and is idempotent; the [seen] loop equals the reference
      deduplication [dedup_ref] (an equivalence proof); the locate loops are the searches "first
      FAQ-like link, else first FAQ-like path", with the exact request
      list, so the request count grows with the homepage's links; a
      malformed model entry discards the whole model answer; concrete
      pages show the homepage's own link shadowing a real FAQ page, the
      [<details>] answer losing every copy of the summary text, and a
      heading paired with a non-adjacent paragraph.
    - Policies: the three tiers are the nested search [get_policy_text_result];
      what is returned is longer than 50 (100 outside the refund snippet
      scan) characters; [None] exactly when every tier fails; the spec's
      first-path scenario makes one request; the snippet scan can return
      a whole wrapper [div].
    - Hero products: distinct URLs, non-empty titles, URLs containing
      [/products/], completeness of the dedup, the spec's duplicated
      anchor scenario, and the image lost when an untitled image link
      comes first.
    - Emails and contacts: [findall] terminates within the text's length;
      every match has the pattern's shape; [is_real_email] never raises
      on a match and its suffix list never changes the outcome; contact
      lists have at most five entries on every path; what is returned is
      typed: JSON lists of distinct strings, one of them non-empty, every
      email one the pattern extracted and [is_real_email] accepted, or
      else the model's values cut with [[:5]]; the only exceptions
      that leave [get_contact_details] are [OpenAIError] and
      [TypeError], and concrete stores raise both.
    - Social handles and important links: both dicts keep distinct keys;
      as finite maps, a platform holds the last homepage [href] containing
      its domain (later matches overwrite) and a category the resolved URL
      of the first anchor matching one of its keywords (the [not in]
      guard); every handle is a known platform whose domain its [href]
      contains; concrete pages show an about.me page filed as Telegram and
      a [mailto:] link joined to the base as a path.
    - About text: the locate phase is the search "first accepted path,
      else first about/story link", with its request list; the result is
      absent or a non-empty stripped string; a located page with more
      than 100 characters of main text is returned as is; the only
      exception is the [OpenAIError] of a missing key, which a concrete
      store raises; at most eleven requests.
    - Product feed and API: [get_product_catalog] never raises and makes
      one request; N well-formed feed records give exactly N products with
      URL [{base}/products/{handle}] (the spec's property); one record
      whose price [float] rejects raises out of the loop; an empty feed
      gives the 401 after one request; the exceptions that can leave
      [/fetch-insights] are listed; [/fetch-competitors] returns the
      competitors that succeed, in order, and answers 500, never 404,
      otherwise; the spec's competitor-URL scenario.
    - Store: the upsert run alone keeps URLs and ids unique and at most one
      insight row per brand, whatever its commits do; a request run alone
      step by step is exactly that upsert; interleaved requests keep the
      unique URLs and ids (rule induction over [sys_step]) but two of them
      can give a brand two insight rows, the older one winning; every
      interleaving terminates (liveness: [sys_step] is strongly
      normalising by a rank that every step lowers), every stuck state has
      all requests done or failed, and such a state is reachable; after a
      successful [fetch_insights], [get_brand_insights] returns what was
      stored; a URL with a trailing slash and the URL without it run the
      same scrape ([rstrip('/')] is idempotent) but are stored under two
      brands with different ids.
    - Sessions: [/fetch-insights] with its session refines the upsert
      model: for every behaviour of the commits it answers and commits
      what [fetch_insights] does for some outcomes of its two commits,
      and every pair of outcomes is reachable; the upsert never lets an
      exception out; [get_db] closes the session of every handler,
      raising or not, and the read endpoints leave the database as it
      was; a failed insight commit leaves the brand without insights.
    - Validation: a [ValidationError] leaves [/fetch-insights] only from
      a feed record whose title or first image [src] Pydantic rejects;
      the hero products and the [BrandInsights] object always validate.

    ** Bounds and fuel

    [findall_fuel] (the scan of [re.findall]) is the only definition with
    fuel: [find_emails] and [find_urls] give it the text's length, and
    [findall_fuel_enough] proves that any fuel at least that large gives
    the same result, as each step consumes a character
    ([findall_emails_enough_fuel], [findall_urls_enough_fuel]).  All other
    loops are structural over finite lists.

    ** Not modelled, and why

    The bodies of [requests], BeautifulSoup's parser, [json], [phonenumbers]
    and [openai] are libraries: they are the fields of [Platform], and the
    theorems hold for every implementation.  Strings are ASCII: Python's
    Unicode case folding and whitespace beyond ASCII are not represented;
    strings that bs4 keeps out of [get_text] (comments, script bodies) are
    not in the tree.  FastAPI's routing, the request classes
    [FetchInsightsRequest] and [CompetitorInsightsRequest] (lines 19-23,
    one [website_url: str] field each, validated by FastAPI before the
    handler runs, so the handlers take the URL), the [print] calls and
    [created_at] are not modelled.  Pydantic 1 and 2 differ on numbers
    and booleans given to a [str] field; the [Pydantic] interface leaves
    that open and its laws cover the values the code meets.  A session's
    queries are taken to succeed; its commits succeed or raise, as the
    outcomes it carries say.  [float], [str], [json.dumps] and the
    validators are interfaces ([Builtins], [Serializer], [Pydantic]);
    their witnesses are small instances.

    ** Plan for the next sittings

    Every component of the sources is modelled.  What is left: a theorem
    on the order of the dict keys of [Social.v]; the competitor
    pipeline's request list; the interleaving model [sys_step] of
    [Store.v] derived from the session monad rather than written
    directly. *)

From Stdlib Require Import String ZArith.
From Stdlib Require Export Ascii.
From stdpp Require Export base list strings sets.

Declare Scope py_scope.
Delimit Scope py_scope with py.
Open Scope py_scope.


Create HintDb pyhints discriminated.
Create Rewrite HintDb pystr.

(** * Characters, as Python's [str] methods see them (ASCII range) *)

(** [str.isspace] on the ASCII range: \t \n \x0b \x0c \r, the four
    separator controls \x1c..\x1f, and the space. *)
Definition is_py_space (c : ascii) : bool :=
  match nat_of_ascii c with
  | 9 | 10 | 11 | 12 | 13 | 28 | 29 | 30 | 31 | 32 => true
  | _ => false
  end.

(** [str.isdigit] on the ASCII range. *)
Definition is_py_digit (c : ascii) : bool :=
  let n := nat_of_ascii c in (48 <=? n) && (n <=? 57).

(** [str.lower] on one character. *)
Definition lower_char (c : ascii) : ascii :=
  let n := nat_of_ascii c in
  if (65 <=? n) && (n <=? 90) then ascii_of_nat (n + 32) else c.

(** * Python string operations *)

Fixpoint py_lower (s : string) : string :=
  match s with
  | EmptyString => EmptyString
  | String c r => String (lower_char c) (py_lower r)
  end.

(** [pat in s]. *)
Fixpoint py_contains (pat s : string) : bool :=
  String.prefix pat s ||
  match s with
  | EmptyString => false
  | String _ r => py_contains pat r
  end.

(** [s.startswith(p)]. *)
Definition py_startswith (p s : string) : bool := String.prefix p s.

(** [s.endswith(suf)]. *)
Fixpoint py_endswith (suf s : string) : bool :=
  String.eqb suf s ||
  match s with
  | EmptyString => false
  | String _ r => py_endswith suf r
  end.

Fixpoint py_lstrip (s : string) : string :=
  match s with
  | EmptyString => EmptyString
  | String c r => if is_py_space c then py_lstrip r else s
  end.

Fixpoint py_rstrip (s : string) : string :=
  match s with
  | EmptyString => EmptyString
  | String c r =>
      let r' := py_rstrip r in
      if is_py_space c && String.eqb r' EmptyString then EmptyString else String c r'
  end.

(** [s.strip()]. *)
Definition py_strip (s : string) : string := py_rstrip (py_lstrip s).

(** [sep.join(l)]. *)
Fixpoint py_join (sep : string) (l : list string) : string :=
  match l with
  | [] => EmptyString
  | [x] => x
  | x :: r => x +:+ sep +:+ py_join sep r
  end.

(** [s.replace(old, '')]: occurrences of [old] are removed left to right,
    without overlap; [skip] counts the characters of the occurrence being
    removed that are still to be dropped. *)
Fixpoint remove_occ (old s : string) (skip : nat) : string :=
  match s with
  | EmptyString => EmptyString
  | String c r =>
      match skip with
      | S k => remove_occ old r k
      | O => if String.prefix old s then remove_occ old r (String.length old - 1)
             else String c (remove_occ old r 0)
      end
  end.

(** Python: ["abc".replace("", "") == "abc"]. *)
Definition py_replace_empty (s old : string) : string :=
  match old with
  | EmptyString => s
  | _ => remove_occ old s 0
  end.

(** [s.split(c)] for a one-character separator: every piece, empty ones
    included, so the result is never empty. *)
Fixpoint py_split_char (sep : ascii) (s : string) : list string :=
  match s with
  | EmptyString => [EmptyString]
  | String c r =>
      let pieces := py_split_char sep r in
      if Ascii.eqb c sep then EmptyString :: pieces
      else match pieces with
           | p :: ps => String c p :: ps
           | [] => [String c EmptyString]
           end
  end.

(** [s.split()] with no argument: the maximal runs of non-space
    characters (bs4 splits the multi-valued [class] attribute this way). *)
Fixpoint split_ws_go (s : list ascii) (cur : list ascii) : list (list ascii) :=
  match s with
  | [] => match cur with [] => [] | _ => [rev cur] end
  | c :: r =>
      if is_py_space c
      then match cur with [] => split_ws_go r [] | _ => rev cur :: split_ws_go r [] end
      else split_ws_go r (c :: cur)
  end.

Definition py_split_ws (s : string) : list string :=
  map string_of_list_ascii (split_ws_go (list_ascii_of_string s) []).

(** Truthiness of a Python string. *)
Definition py_truthy (s : string) : bool := negb (String.eqb s EmptyString).

(** [any(c.isdigit() for c in s)]. *)
Fixpoint has_digit (s : string) : bool :=
  match s with
  | EmptyString => false
  | String c r => is_py_digit c || has_digit r
  end.

(** [l[:n]] on a list. *)
Definition py_take {A} (n : nat) (l : list A) : list A := firstn n l.

(** * Python exceptions as values *)

(** The exceptions the modelled code can raise and where they surface. *)
Inductive pyexc : Type :=
| AttributeError      (** [.get] on a value that is not a dict *)
| TypeError           (** slicing or indexing a value that does not support it *)
| IndexError          (** [l[i]] out of range *)
| KeyError            (** [d[k]] with [k] absent *)
| ValueError          (** [float(s)] on a string that is not a number *)
| OverflowError       (** [float(n)] on an integer too large for a float *)
| OpenAIError         (** [openai.OpenAI(...)] without an API key *)
| SQLAlchemyError     (** a failed [db.commit()] *)
| ValidationError     (** Pydantic rejecting a field value *)
| HTTPError (status : Z) (detail : string).  (** FastAPI's [HTTPException] *)

(** A computation that returns a value or raises. *)
Inductive pyres (A : Type) : Type :=
| Ok (a : A)
| Raise (e : pyexc).
Arguments Ok {A} a.
Arguments Raise {A} e.

#[export] Instance pyres_ret : MRet pyres := fun A a => Ok a.
#[export] Instance pyres_bind : MBind pyres :=
  fun A B f m => match m with Ok a => f a | Raise e => Raise e end.
#[export] Instance pyres_fmap : FMap pyres :=
  fun A B f m => match m with Ok a => Ok (f a) | Raise e => Raise e end.

(** [try: m except Exception: handler]. *)
Definition py_try {A} (m : pyres A) (handler : A) : A :=
  match m with Ok a => a | Raise _ => handler end.

Lemma pyres_bind_Ok {A B} (a : A) (f : A -> pyres B) : (Ok a ≫= f) = f a.
Proof. done. Qed.

Lemma pyres_bind_Raise {A B} e (f : A -> pyres B) : (Raise e ≫= f) = Raise e.
Proof. done. Qed.

Lemma py_try_Forall {A} (P : A -> Prop) (m : pyres (list A)) :
  (forall r, m = Ok r -> Forall P r) -> Forall P (py_try m []).
Proof. destruct m; simpl; [auto|constructor]. Qed.

(** A Python [for] loop that builds a list and stops at the first
    exception is stdpp's [mapM] in [pyres]: it succeeds exactly when every
    element does, and otherwise raises what the first failing element
    raises. *)
Lemma mapM_pyres_Ok {A B} (f : A -> pyres B) l ys :
  mapM f l = Ok ys <-> Forall2 (fun x y => f x = Ok y) l ys.
Proof.
  revert ys. induction l as [|x l IH]; intros ys; simpl.
  - split; [intros [= <-]; constructor|by inversion 1].
  - split.
    + destruct (f x) as [y|e] eqn:Ef; [|done]. cbn.
      destruct (mapM f l) as [k|e] eqn:Em; [|done]. intros [= <-].
      constructor; [done|]. by apply IH.
    + intros (y & k & Hy & Hk & ->)%Forall2_cons_inv_l.
      rewrite Hy. cbn. apply IH in Hk. by rewrite Hk.
Qed.

Lemma mapM_pyres_Raise {A B} (f : A -> pyres B) l e :
  mapM f l = Raise e <->
  exists i x, l !! i = Some x /\ f x = Raise e /\
              forall j y, j < i -> l !! j = Some y -> exists z, f y = Ok z.
Proof.
  induction l as [|x l IH]; simpl.
  - split; [done|]. by intros (i & x & ? & _).
  - split.
    + destruct (f x) as [y|e'] eqn:Ef; cbn.
      * destruct (mapM f l) as [k|e'] eqn:Em; [done|]. intros [= <-].
        destruct (proj1 IH eq_refl) as (i & x' & Hi & Hx' & Hbefore).
        exists (S i), x'. split_and!; [done|done|].
        intros [|j] y0 Hj Hy0; [injection Hy0 as <-; by exists y|]. apply (Hbefore j); [lia|done].
      * intros [= <-]. exists 0, x. split_and!; [done|done|intros; lia].
    + intros ([|i] & x' & Hi & Hx' & Hbefore); simpl in Hi.
      * simplify_eq. by rewrite Hx'.
      * destruct (Hbefore 0 x) as [z Hz]; [lia|done|]. rewrite Hz. cbn.
        enough (mapM f l = Raise e) as -> by done. apply IH.
        exists i, x'. split_and!; [done|done|].
        intros j y Hj Hy. apply (Hbefore (S j)); [lia|done].
Qed.

(** * Generic lemmas on strings *)

(** stdpp makes [String.append] opaque to [simpl]; these are its two
    equations. *)
Lemma str_app_nil s : EmptyString +:+ s = s.
Proof. done. Qed.

Lemma str_app_cons c a b : String c a +:+ b = String c (a +:+ b).
Proof. done. Qed.

Lemma str_app_assoc a b c : a +:+ (b +:+ c) = (a +:+ b) +:+ c.
Proof. induction a as [|x a IH]; [done|]. rewrite !str_app_cons. by rewrite IH. Qed.

Lemma str_length_app a b : String.length (a +:+ b) = String.length a + String.length b.
Proof. induction a as [|x a IH]; [done|]. rewrite str_app_cons. simpl. by rewrite IH. Qed.

Lemma py_truthy_false s : py_truthy s = false <-> s = EmptyString.
Proof.
  unfold py_truthy. destruct s; simpl; split; intros H; try done.
Qed.

Lemma py_truthy_true s : py_truthy s = true <-> s <> EmptyString.
Proof.
  unfold py_truthy. destruct s; simpl; split; intros H; try done.
Qed.

Lemma prefix_refl s : String.prefix s s = true.
Proof. induction s as [|a s IH]; simpl; [done|]. by destruct (ascii_dec a a). Qed.

Lemma prefix_app p s : String.prefix p (p +:+ s) = true.
Proof. induction p as [|a p IH]; simpl; [by destruct s|]. by destruct (ascii_dec a a). Qed.

Lemma py_contains_prefix pat s : String.prefix pat s = true -> py_contains pat s = true.
Proof. destruct s; simpl; intros ->; done. Qed.

Lemma py_contains_refl s : py_contains s s = true.
Proof. apply py_contains_prefix, prefix_refl. Qed.

Lemma prefix_app_r p s t :
  String.prefix p s = true -> String.prefix p (s +:+ t) = true.
Proof.
  revert p. induction s as [|d s IH]; intros [|e p] H; simpl in *;
    try (destruct t; done); try done.
  destruct (ascii_dec e d); [by apply IH|done].
Qed.

Lemma py_contains_app_l pat s t :
  py_contains pat s = true -> py_contains pat (s +:+ t) = true.
Proof.
  induction s as [|c s IH]; simpl; intros H.
  - destruct pat; simpl in *; [destruct t; done|done].
  - apply orb_true_iff in H as [H|H]; apply orb_true_iff.
    + left. by apply (prefix_app_r _ (String c s)).
    + right. by apply IH.
Qed.

Lemma py_contains_app_r pat s t :
  py_contains pat t = true -> py_contains pat (s +:+ t) = true.
Proof.
  induction s as [|c s IH]; simpl; intros H; [done|].
  apply orb_true_iff. right. by apply IH.
Qed.


Lemma py_endswith_app suf s : py_endswith suf (s +:+ suf) = true.
Proof.
  induction s as [|c s IH]; simpl.
  - destruct suf; simpl; [done|]. by rewrite Ascii.eqb_refl, String.eqb_refl.
  - by rewrite IH, orb_true_r.
Qed.

Lemma py_endswith_spec suf s :
  py_endswith suf s = true <-> exists pre, s = pre +:+ suf.
Proof.
  split.
  - induction s as [|c s IH]; simpl; intros H.
    + apply orb_true_iff in H as [H|H]; [|done].
      apply String.eqb_eq in H. subst. by exists EmptyString.
    + apply orb_true_iff in H as [H|H].
      * apply String.eqb_eq in H. subst. by exists EmptyString.
      * destruct (IH H) as [pre ->]. by exists (String c pre).
  - intros [pre ->]. apply py_endswith_app.
Qed.

Lemma py_join_nil sep : py_join sep [] = EmptyString.
Proof. done. Qed.

Lemma py_lower_length s : String.length (py_lower s) = String.length s.
Proof. induction s; simpl; congruence. Qed.

Lemma py_split_char_nonempty sep s : py_split_char sep s <> [].
Proof.
  induction s as [|c s IH]; simpl; [done|].
  destruct (Ascii.eqb c sep); [done|]. destruct (py_split_char sep s); done.
Qed.

(** ** Stripped strings

    A string is left unchanged by [strip()] when it does not start and
    does not end with whitespace; [strip()]'s own results are such
    strings, and so is a [join] of non-empty ones. *)

Definition starts_nonspace (s : string) : bool :=
  match s with EmptyString => true | String c _ => negb (is_py_space c) end.

Fixpoint ends_nonspace (s : string) : bool :=
  match s with
  | EmptyString => true
  | String c EmptyString => negb (is_py_space c)
  | String _ r => ends_nonspace r
  end.

Lemma py_lstrip_id s : starts_nonspace s = true -> py_lstrip s = s.
Proof. destruct s as [|c s]; simpl; [done|]. by destruct (is_py_space c). Qed.

Lemma py_rstrip_id s : ends_nonspace s = true -> py_rstrip s = s.
Proof.
  induction s as [|c r IH]; [done|]. intros He.
  destruct r as [|d r]; simpl in *.
  - by destruct (is_py_space c).
  - fold (py_rstrip r). rewrite IH by done. by rewrite andb_false_r.
Qed.

Lemma py_strip_id s : starts_nonspace s = true -> ends_nonspace s = true -> py_strip s = s.
Proof. intros. unfold py_strip. rewrite py_lstrip_id by done. by apply py_rstrip_id. Qed.

Lemma py_lstrip_starts s : starts_nonspace (py_lstrip s) = true.
Proof.
  induction s as [|c s IH]; simpl; [done|].
  destruct (is_py_space c) eqn:E; [done|]. simpl. by rewrite E.
Qed.

Lemma py_rstrip_starts s : starts_nonspace s = true -> starts_nonspace (py_rstrip s) = true.
Proof.
  destruct s as [|c r]; [done|]. cbn [py_rstrip starts_nonspace]. intros Hc.
  destruct (is_py_space c) eqn:E; [done|]. cbn [andb starts_nonspace]. by rewrite E.
Qed.

Lemma py_rstrip_ends s : ends_nonspace (py_rstrip s) = true.
Proof.
  induction s as [|c r IH]; [done|]. cbn [py_rstrip].
  destruct (py_rstrip r) as [|d r'] eqn:Er; cbn [String.eqb].
  - destruct (is_py_space c) eqn:E; cbn [andb ends_nonspace]; [done|by rewrite E].
  - rewrite andb_false_r. exact IH.
Qed.

Lemma py_strip_starts s : starts_nonspace (py_strip s) = true.
Proof. apply py_rstrip_starts, py_lstrip_starts. Qed.

Lemma py_strip_ends s : ends_nonspace (py_strip s) = true.
Proof. apply py_rstrip_ends. Qed.

(** [s.strip().strip() == s.strip()]. *)
Lemma py_strip_idem s : py_strip (py_strip s) = py_strip s.
Proof. apply py_strip_id; [apply py_strip_starts|apply py_strip_ends]. Qed.

Lemma starts_nonspace_app a b :
  a <> EmptyString -> starts_nonspace a = true -> starts_nonspace (a +:+ b) = true.
Proof. by destruct a. Qed.

Lemma ends_nonspace_app a b :
  b <> EmptyString -> ends_nonspace b = true -> ends_nonspace (a +:+ b) = true.
Proof.
  intros Hb He. induction a as [|c a IH]; [done|]. rewrite str_app_cons. cbn [ends_nonspace].
  destruct (a +:+ b) eqn:E; [|done]. by destruct a, b.
Qed.

Lemma py_join_nonempty sep x l : x <> EmptyString -> py_join sep (x :: l) <> EmptyString.
Proof. destruct l; simpl; [done|]. by destruct x. Qed.

(** A [join] of non-empty stripped strings is stripped. *)
Lemma py_join_stripped sep l :
  Forall (fun x => x <> EmptyString /\ starts_nonspace x = true /\ ends_nonspace x = true) l ->
  starts_nonspace (py_join sep l) = true /\ ends_nonspace (py_join sep l) = true.
Proof.
  induction 1 as [|x l (Hx & Hs & He) Hl IH]; [done|].
  destruct l as [|y l]; [done|]. cbn [py_join]. fold (py_join sep (y :: l)).
  split; [by apply starts_nonspace_app|].
  inversion Hl as [|? ? (Hy & _)]; subst.
  assert (Hj : py_join sep (y :: l) <> EmptyString) by (by apply py_join_nonempty).
  apply ends_nonspace_app; [by destruct sep|].
  apply ends_nonspace_app; [done|apply IH].
Qed.

#[export] Hint Rewrite str_app_nil str_app_cons prefix_refl prefix_app py_contains_refl py_endswith_app : pystr.

(** * Search loops that stop at the first hit *)

(** The elements a [for x in l: ...; if p(x): break] loop visits: up to
    and including the first hit. *)
Fixpoint upto_first {A} (p : A -> bool) (l : list A) : list A :=
  match l with
  | [] => []
  | x :: r => x :: (if p x then [] else upto_first p r)
  end.

Lemma upto_first_none {A} (p : A -> bool) l :
  List.find p l = None -> upto_first p l = l.
Proof.
  induction l as [|x l IH]; simpl; [done|].
  destruct (p x); [done|]. intros H. by rewrite IH.
Qed.

Lemma upto_first_length {A} (p : A -> bool) l : length (upto_first p l) <= length l.
Proof. induction l as [|x l IH]; simpl; [lia|]. destruct (p x); simpl; lia. Qed.

(** * [re.findall] as a scan

    [re.findall] with a pattern whose match at a position is decided by a
    matcher [m] (the match and what follows it, or nothing): try the
    current position, resume after a match or one character further on a
    failure.  It is defined with fuel; when every match consumes a
    character, the text's length is enough fuel. *)

Section Findall.
Context (m : string -> option (string * string)).

Fixpoint findall_fuel (fuel : nat) (s : string) : list string :=
  match fuel with
  | O => []
  | S f =>
      match s with
      | EmptyString => []
      | String _ r =>
          match m s with
          | Some (x, rest) => x :: findall_fuel f rest
          | None => findall_fuel f r
          end
      end
  end.

Lemma findall_fuel_enough f s :
  (forall s x r, m s = Some (x, r) -> String.length r < String.length s) ->
  String.length s <= f -> findall_fuel f s = findall_fuel (String.length s) s.
Proof.
  intros Hm. remember (String.length s) as n eqn:En.
  assert (Hn : String.length s <= n) by lia. clear En. intros Hf.
  revert f n s Hf Hn. induction f as [|f IH]; intros n s Hf Hn.
  - destruct s; [|simpl in Hn; lia]. by destruct n.
  - destruct n as [|n]; [destruct s; [done|simpl in Hn; lia]|].
    destruct s as [|c r]; [done|]. cbn [findall_fuel].
    destruct (m (String c r)) as [[x rest]|] eqn:E.
    + apply Hm in E. simpl in Hf, Hn, E. f_equal. apply IH; lia.
    + simpl in Hf, Hn. apply IH; lia.
Qed.

(** Every result is a match of [m] somewhere in the text. *)
Lemma findall_fuel_sound (P : string -> Prop) f s x :
  (forall s x r, m s = Some (x, r) -> P x) -> x ∈ findall_fuel f s -> P x.
Proof.
  intros Hm. revert s. induction f as [|f IH]; intros s; [by intros ?%not_elem_of_nil|].
  destruct s as [|c r]; [by intros ?%not_elem_of_nil|]. cbn [findall_fuel].
  destruct (m (String c r)) as [[x' rest]|] eqn:E.
  - intros [->|Hx]%elem_of_cons; [by eapply Hm|by apply (IH rest)].
  - apply IH.
Qed.
End Findall.

(** A filter that every element passes changes nothing. *)
Lemma list_filter_all {A} (P : A -> Prop) `{!forall x, Decision (P x)} (l : list A) :
  (forall x, P x) -> filter P l = l.
Proof. intros HP. induction l as [|x l IH]; [done|]. by rewrite filter_cons_True, IH. Qed.

(** Two different elements of a list whose image has no duplicates have
    different images: a unique column separates rows. *)
Lemma NoDup_fmap_ne {A B} (f : A -> B) (l : list A) x y :
  NoDup (f <$> l) -> x ∈ l -> y ∈ l -> x <> y -> f x <> f y.
Proof.
  induction l as [|z l IH]; [set_solver|]. rewrite fmap_cons, NoDup_cons.
  intros [Hz Hl] Hx Hy Hne Heq. apply elem_of_cons in Hx, Hy.
  destruct Hx as [->|Hx], Hy as [->|Hy]; [done| | |by eapply IH].
  - apply Hz. rewrite Heq. by apply list_elem_of_fmap_2.
  - apply Hz. rewrite <- Heq. by apply list_elem_of_fmap_2.
Qed.

(** A [find] that succeeds on a prefix succeeds the same way on the
    whole list. *)
Lemma find_app_Some {A} (p : A -> bool) l l' x :
  List.find p l = Some x -> List.find p (l ++ l') = Some x.
Proof. induction l as [|y l IH]; simpl; [done|]. by destruct (p y). Qed.

(** [List.find] only depends on the values of its test. *)
Lemma find_ext {A} (f g : A -> bool) l :
  (forall x, f x = g x) -> List.find f l = List.find g l.
Proof. intros Hfg. induction l as [|x l IH]; simpl; [done|]. by rewrite Hfg, IH. Qed.

(** The first [Some] of [f] along [l]: a [for] loop that returns from
    inside on the first success. *)
Fixpoint first_some {A B} (f : A -> option B) (l : list A) : option B :=
  match l with
  | [] => None
  | x :: r => match f x with Some y => Some y | None => first_some f r end
  end.

Lemma first_some_Some {A B} (f : A -> option B) l y :
  first_some f l = Some y -> exists x, x ∈ l /\ f x = Some y.
Proof.
  induction l as [|x l IH]; simpl; [done|].
  destruct (f x) eqn:E.
  - intros [= <-]. exists x. split; [left|done].
  - intros H. destruct (IH H) as (z & Hz & Hf). exists z. split; [by right|done].
Qed.

Lemma first_some_None {A B} (f : A -> option B) l :
  first_some f l = None <-> Forall (fun x => f x = None) l.
Proof.
  induction l as [|x l IH]; simpl; [split; [constructor|done]|].
  rewrite Forall_cons. destruct (f x); [split; [done|intros [? _]; done]|]. rewrite IH. naive_solver.
Qed.

(** * Deduplication: the [seen]-set loops of the scraper *)

(** The loops
    [for x in l: if key(x) not in seen and keep(x): out.append(x); seen.add(key(x))]
    of [get_hero_products] and [get_faqs]. *)
Section Dedup.
Context {A K : Type} `{EqDecision K} (key : A -> K) (keep : A -> bool).

Fixpoint dedup_go (seen : list K) (l : list A) : list A :=
  match l with
  | [] => []
  | x :: r =>
      if bool_decide (key x ∉ seen) && keep x
      then x :: dedup_go (key x :: seen) r
      else dedup_go seen r
  end.

Definition dedup (l : list A) : list A := dedup_go [] l.

Lemma dedup_go_sublist seen l : sublist (dedup_go seen l) l.
Proof.
  revert seen. induction l as [|x l IH]; intros seen; simpl; [constructor|].
  destruct (bool_decide _ && keep x); [by apply sublist_skip|].
  by apply sublist_cons.
Qed.

Lemma dedup_go_keep seen l : Forall (fun x => keep x = true) (dedup_go seen l).
Proof.
  revert seen. induction l as [|x l IH]; intros seen; simpl; [constructor|].
  destruct (bool_decide _) eqn:E, (keep x) eqn:Hkx; simpl; auto.
Qed.

Lemma dedup_go_fresh seen l k :
  k ∈ key <$> dedup_go seen l -> k ∉ seen.
Proof.
  revert seen. induction l as [|x l IH]; intros seen; simpl; [by intros ?%elem_of_nil|].
  destruct (bool_decide (key x ∉ seen)) eqn:E, (keep x); simpl; auto.
  apply bool_decide_eq_true in E.
  intros [->|Hk]%elem_of_cons; [done|].
  specialize (IH _ Hk). set_solver.
Qed.

Lemma dedup_go_NoDup seen l : NoDup (key <$> dedup_go seen l).
Proof.
  revert seen. induction l as [|x l IH]; intros seen; simpl; [constructor|].
  destruct (bool_decide (key x ∉ seen)) eqn:E, (keep x); simpl; auto.
  constructor; [|apply IH].
  intros Hin. apply dedup_go_fresh in Hin. set_solver.
Qed.

(** A list that already has distinct keys, all kept and unseen, passes
    through unchanged. *)
Lemma dedup_go_id seen l :
  NoDup (key <$> l) -> Forall (fun x => keep x = true) l ->
  (forall x, x ∈ l -> key x ∉ seen) -> dedup_go seen l = l.
Proof.
  revert seen. induction l as [|x l IH]; intros seen Hnd Hk Hs; simpl; [done|].
  inversion Hnd as [|? ? Hx Hnd']; subst. inversion Hk; subst.
  rewrite bool_decide_eq_true_2 by (apply Hs; set_solver). simpl.
  rewrite (ltac:(done) : keep x = true). f_equal. apply IH; [done|done|].
  intros y Hy. rewrite not_elem_of_cons. split.
  - intros Heq. apply Hx. rewrite <- Heq. by apply list_elem_of_fmap_2.
  - apply Hs. set_solver.
Qed.

Lemma dedup_idempotent l : dedup (dedup l) = dedup l.
Proof.
  unfold dedup. apply dedup_go_id.
  - apply dedup_go_NoDup.
  - apply dedup_go_keep.
  - set_solver.
Qed.

(** Every kept element is represented, by the first kept element with
    the same key. *)
Lemma dedup_go_complete seen l x :
  x ∈ l -> keep x = true -> key x ∉ seen -> exists y, y ∈ dedup_go seen l /\ key y = key x.
Proof.
  revert seen. induction l as [|z l IH]; intros seen Hx Hk Hs; simpl; [by apply elem_of_nil in Hx|].
  destruct (bool_decide (key z ∉ seen)) eqn:E, (keep z) eqn:Kz; simpl.
  - destruct (decide (key z = key x)) as [Heq|Hne].
    + exists z. split; [constructor|done].
    + apply elem_of_cons in Hx as [->|Hx]; [done|].
      destruct (IH (key z :: seen) Hx Hk) as (y & Hy & Hky); [set_solver|].
      exists y. split; [by constructor|done].
  - apply elem_of_cons in Hx as [->|Hx]; [congruence|]. by apply IH.
  - apply bool_decide_eq_false in E. apply elem_of_cons in Hx as [->|Hx]; [done|]. by apply IH.
  - apply elem_of_cons in Hx as [->|Hx]; [congruence|]. by apply IH.
Qed.
(** The reference the [seen] loop implements: keep the head when it is
    kept, and drop its key from the deduplicated rest. *)
Definition dedup_ref (l : list A) : list A :=
  foldr (fun x acc => if keep x then x :: filter (fun y => key y ≠ key x) acc else acc) [] l.

Lemma dedup_go_ref seen l : dedup_go seen l = filter (fun y => key y ∉ seen) (dedup_ref l).
Proof.
  revert seen. induction l as [|x l IH]; intros seen; [done|]. cbn [dedup_go dedup_ref foldr].
  fold (dedup_ref l). destruct (keep x) eqn:Kx; rewrite ?andb_true_r, ?andb_false_r.
  - case_bool_decide as Hx.
    + rewrite filter_cons_True by done. f_equal. rewrite IH, list_filter_filter.
      apply list_filter_iff. intros y. set_solver.
    + rewrite filter_cons_False by (intros Hn; by apply Hn). rewrite IH, list_filter_filter_l; [done|]. intros y Hy Heq. by rewrite Heq in Hy.
  - apply IH.
Qed.

(** The loop with an empty [seen] is the reference. *)
Lemma dedup_eq_ref l : dedup l = dedup_ref l.
Proof. unfold dedup. rewrite dedup_go_ref. apply list_filter_all. set_solver. Qed.
End Dedup.

Lemma dedup_sublist {A K} `{EqDecision K} (key : A -> K) keep l :
  sublist (dedup key keep l) l.
Proof. apply dedup_go_sublist. Qed.

Lemma dedup_complete {A K} `{EqDecision K} (key : A -> K) keep l x :
  x ∈ l -> keep x = true -> exists y, y ∈ dedup key keep l /\ key y = key x.
Proof. intros. apply dedup_go_complete; [done|done|set_solver]. Qed.
