(* ===== verification/Html.v ===== *)
(** Html: the parsed page as BeautifulSoup ([bs4], parser ["html.parser"])
    hands it to [src/app/scraper.py], and the navigation calls the scraper
    makes on it: [find_all] and [find] by tag name, attribute and class,
    [get_text] with and without [strip=True], [find_next_sibling] and
    [decompose].  The parser itself is a collaborator (see [Web.v]); a
    document is the [\[document\]] root node it returns.  Strings that
    bs4 leaves out of [get_text] (comments, [<script>] bodies) are not
    represented in the tree. *)

From S2P Require Import Prelude.

(** * The document tree *)

Inductive node : Type :=
| NText (s : string)
| NElem (tag : string) (attrs : list (string * string)) (kids : list node).

(** The induction principle Rocq derives for a node under a list is too
    weak; this one gives the hypothesis for every child. *)
Section node_ind_strong.
Variable P : node -> Prop.
Hypothesis P_text : forall s, P (NText s).
Hypothesis P_elem : forall t a kids, Forall P kids -> P (NElem t a kids).

Fixpoint node_ind_strong (n : node) : P n :=
  match n with
  | NText s => P_text s
  | NElem t a kids =>
      P_elem t a kids
        ((fix go (l : list node) : Forall P l :=
            match l with
            | [] => @List.Forall_nil _ P
            | k :: r => @List.Forall_cons _ P k r (node_ind_strong k) (go r)
            end) kids)
  end.
End node_ind_strong.

(** * Names and attributes *)

Definition attr_lookup (k : string) (attrs : list (string * string)) : option string :=
  snd <$> List.find (fun kv => String.eqb (fst kv) k) attrs.

(** [tag.get(k)] / [tag[k]] (the latter raises where this is [None]). *)
Definition get_attr (k : string) (n : node) : option string :=
  match n with
  | NElem _ attrs _ => attr_lookup k attrs
  | NText _ => None
  end.

(** [tag.has_attr(k)]; also the filter [k=True] of [find_all]. *)
Definition has_attr (k : string) (n : node) : bool :=
  match get_attr k n with Some _ => true | None => false end.

Definition name_in (tags : list string) (n : node) : bool :=
  match n with
  | NElem t _ _ => bool_decide (t ∈ tags)
  | NText _ => false
  end.

Definition name_is (t : string) (n : node) : bool := name_in [t] n.

(** The filter [class_=[c1, c2, ...]]: one of the whitespace-separated
    class tokens is one of the [ci]. *)
Definition class_in (cls : list string) (n : node) : bool :=
  match get_attr "class" n with
  | Some v => existsb (fun tok => bool_decide (tok ∈ cls)) (py_split_ws v)
  | None => false
  end.

(** The filter [{'id': v}]. *)
Definition attr_is (k v : string) (n : node) : bool :=
  match get_attr k n with
  | Some v' => String.eqb v' v
  | None => false
  end.

(** * Traversal in document order *)

(** Every descendant of [n] in document order, each with the siblings
    that follow it under the same parent (what [find_next_sibling]
    scans). *)
Fixpoint desc_of (n : node) : list (node * list node) :=
  match n with
  | NText _ => []
  | NElem _ _ kids =>
      (fix go (l : list node) : list (node * list node) :=
         match l with
         | [] => []
         | k :: r => (k, r) :: desc_of k ++ go r
         end) kids
  end.

(** [n.find_all(pred)], with the following siblings of each match. *)
Definition find_all_ctx (pred : node -> bool) (n : node) : list (node * list node) :=
  filter (fun p => pred (fst p) = true) (desc_of n).

(** [n.find_all(pred)]. *)
Definition find_all (pred : node -> bool) (n : node) : list node :=
  fst <$> find_all_ctx pred n.

(** [n.find(pred)]: the first match, or [None]. *)
Definition find (pred : node -> bool) (n : node) : option node :=
  head (find_all pred n).

(** [x.find_next_sibling(pred)] for [x] whose later siblings are [sibs]:
    the first later sibling that matches, not only the adjacent one. *)
Definition find_next_sibling (pred : node -> bool) (sibs : list node) : option node :=
  List.find pred sibs.

(** [soup.find_all('a', href=True)]. *)
Definition anchors (n : node) : list node :=
  find_all (fun d => name_is "a" d && has_attr "href" d) n.

(** The [href] of an anchor found by [anchors]. *)
Definition href_of (a : node) : string :=
  match get_attr "href" a with Some h => h | None => EmptyString end.

(** * Text extraction *)

(** The strings under [n], in document order. *)
Fixpoint strings_of (n : node) : list string :=
  match n with
  | NText s => [s]
  | NElem _ _ kids =>
      (fix go (l : list node) : list string :=
         match l with
         | [] => []
         | k :: r => strings_of k ++ go r
         end) kids
  end.

(** [n.get_text(separator=sep, strip=True)]: every string stripped, the
    empty ones dropped, the rest joined by [sep]. *)
Definition get_text (sep : string) (n : node) : string :=
  py_join sep (filter (fun s => py_truthy s = true) (py_strip <$> strings_of n)).

(** The newline, the separator of [get_text(separator='\n', ...)]. *)
Definition nl : string := String "010"%char EmptyString.

(** [x.get_text(strip=True)]. *)
Definition text_of (n : node) : string := get_text EmptyString n.

(** [n.get_text()]: the strings as they are, concatenated. *)
Definition get_text_raw (n : node) : string :=
  foldr String.append EmptyString (strings_of n).

(** * Tree surgery *)

(** [for tag in soup(tags): tag.decompose()]: every element whose name is
    in [tags] is removed with its subtree (an element already removed
    with an ancestor is removed again, to no effect). *)
Fixpoint decompose (tags : list string) (n : node) : node :=
  match n with
  | NText s => NText s
  | NElem t a kids =>
      NElem t a
        ((fix go (l : list node) : list node :=
            match l with
            | [] => []
            | k :: r => if name_in tags k then go r else decompose tags k :: go r
            end) kids)
  end.

(** * Main-content region *)

(** [soup.find('main') or soup.find('div', {'id': 'MainContent'}) or soup]
    (a bs4 [Tag] is always truthy). *)
Definition main_content (soup : node) : node :=
  match find (name_is "main") soup with
  | Some m => m
  | None =>
      match find (fun d => name_is "div" d && attr_is "id" "MainContent" d) soup with
      | Some d => d
      | None => soup
      end
  end.

(** * Lemmas *)

(** [get_text(separator, strip=True)] is already stripped: it joins
    stripped, non-empty strings. *)
Lemma get_text_strip sep n : py_strip (get_text sep n) = get_text sep n.
Proof.
  unfold get_text. apply py_strip_id; apply py_join_stripped.
  all: apply Forall_forall; intros x (Hx & (s & -> & _)%list_elem_of_fmap)%list_elem_of_filter.
  all: split_and!; [by apply py_truthy_true|apply py_strip_starts|apply py_strip_ends].
Qed.
