(* ===== verification/Json.v ===== *)
(** Json: the values [json.loads] and [requests.Response.json] return to
    [src/app/scraper.py] and [src/app/main.py] (dicts, lists, strings,
    numbers, booleans, [None]), with the Python operations the code applies
    to them: truthiness, [d.get(k)], [d.get(k, default)], [v[i]], [v[k]],
    [v[:n]], [len(v)] and [isinstance(v, list)], each raising what Python
    raises on a value of the wrong type. *)

From S2P Require Import Prelude.

(** A decoded JSON value.  A number is kept as a decimal [mant * 10^exp]. *)
Inductive json : Type :=
| JNull
| JBool (b : bool)
| JNum (mant exp : Z)
| JStr (s : string)
| JArr (l : list json)
| JObj (kvs : list (string * json)).

(** [bool(v)]. *)
Definition json_truthy (v : json) : bool :=
  match v with
  | JNull => false
  | JBool b => b
  | JNum m _ => negb (Z.eqb m 0)
  | JStr s => py_truthy s
  | JArr l => negb (bool_decide (l = []))
  | JObj kvs => negb (bool_decide (kvs = []))
  end.

(** The binding of [k] in a decoded object: [json.loads] keeps the last
    one when a key is repeated. *)
Definition obj_lookup (k : string) (kvs : list (string * json)) : option json :=
  snd <$> List.find (fun kv => String.eqb (fst kv) k) (rev kvs).

(** [v.get(k)]: [None] on a dict without [k]; [AttributeError] when [v]
    is not a dict. *)
Definition py_get (k : string) (v : json) : pyres (option json) :=
  match v with
  | JObj kvs => Ok (obj_lookup k kvs)
  | _ => Raise AttributeError
  end.

(** [v.get(k, d)]. *)
Definition py_get_or (k : string) (d : json) (v : json) : pyres json :=
  o ← py_get k v; mret (default d o).

(** [bool(v.get(k))]. *)
Definition py_get_truthy (k : string) (v : json) : pyres bool :=
  o ← py_get k v; mret (match o with Some x => json_truthy x | None => false end).

(** [v[i]] for a non-negative index. *)
Definition py_index (v : json) (i : nat) : pyres json :=
  match v with
  | JArr l => match l !! i with Some x => Ok x | None => Raise IndexError end
  | JStr s => match String.get i s with
              | Some c => Ok (JStr (String c EmptyString))
              | None => Raise IndexError
              end
  | JObj _ => Raise KeyError
  | _ => Raise TypeError
  end.

(** [v[k]] for a string key. *)
Definition py_key (v : json) (k : string) : pyres json :=
  match v with
  | JObj kvs => match obj_lookup k kvs with Some x => Ok x | None => Raise KeyError end
  | _ => Raise TypeError
  end.

(** [v[:n]], that is [v[slice(None, n)]].  On a dict the result
    depends on the interpreter: up to Python 3.11 a slice is unhashable
    and the lookup raises [TypeError]; from 3.12 slices are hashable and
    the missing key raises [KeyError] ([hashable_slices]).  Other values
    are not subscriptable. *)
Definition py_slice (hashable_slices : bool) (n : nat) (v : json) : pyres json :=
  match v with
  | JArr l => Ok (JArr (take n l))
  | JStr s => Ok (JStr (String.substring 0 n s))
  | JObj _ => Raise (if hashable_slices then KeyError else TypeError)
  | _ => Raise TypeError
  end.

(** [len(v)], for the values that have one. *)
Definition py_len (v : json) : option nat :=
  match v with
  | JArr l => Some (length l)
  | JStr s => Some (String.length s)
  | JObj kvs => Some (length kvs)
  | _ => None
  end.

(** [isinstance(v, dict)]. *)
Definition is_dict (v : json) : bool :=
  match v with JObj _ => true | _ => false end.

(** [isinstance(v, list)]. *)
Definition is_list (v : json) : bool :=
  match v with JArr _ => true | _ => false end.

(** * Lemmas *)

Lemma substring_0_length n s : String.length (String.substring 0 n s) <= n.
Proof.
  revert s. induction n as [|n IH]; intros [|c s]; simpl; try lia.
  specialize (IH s). lia.
Qed.

(** A slice [v[:n]] has at most [n] elements (or characters). *)
Lemma py_slice_len hs n v w m :
  py_slice hs n v = Ok w -> py_len w = Some m -> m <= n.
Proof.
  destruct v; simpl; intros Hs Hl; inversion Hs; subst; simpl in Hl; inversion Hl; subst.
  - apply substring_0_length.
  - rewrite length_take. lia.
Qed.

(** A slice that succeeds has a length, at most [n]. *)
Lemma py_slice_bounded hs n v w :
  py_slice hs n v = Ok w -> exists m, py_len w = Some m /\ m <= n.
Proof.
  intros Hs. destruct v; simpl in Hs; inversion Hs; subst; simpl.
  - eexists. split; [done|]. apply substring_0_length.
  - eexists. split; [done|]. rewrite length_take. lia.
Qed.
