(* ===== verification/Web.v ===== *)
(** Web: what every resolver of [src/app/scraper.py] shares.

    - [Platform] is the interface of the libraries the scraper calls and
      that are not modelled: [requests.get(url, timeout=10)], the bs4
      parser, [json.loads], [phonenumbers.PhoneNumberMatcher(text, "IN")]
      with E.164 formatting, and the OpenAI chat call.  Every resolver is
      proved for an arbitrary instance.
    - [Fetch] is a writer monad: a computation returns its value and the
      URLs it requested, in order, so that the theorems can say which
      pages a resolver fetches and how many.
    - Python's [set] iteration order is part of [Platform] too: any
      permutation, so theorems hold whatever order the interpreter uses.
    - [ShopifyScraper] holds the only state of the scraper, the base URL,
      normalised by the constructor; [fetch_homepage_html] and
      [resolve_href] are the helpers the resolvers repeat. *)

From S2P Require Import Prelude Html Json.

(** * The collaborators *)

Record response : Type := mk_response { status_code : Z; text : string }.

Class Platform : Type := {
  (** [requests.get(url, timeout=10)]; [None] when it raises. *)
  http_get : string -> option response;
  (** [BeautifulSoup(markup, 'html.parser')], the [\[document\]] node. *)
  html_parse : string -> node;
  (** [json.loads(s)]; [None] when it raises. *)
  json_loads : string -> option json;
  (** the E.164 strings of [PhoneNumberMatcher(text, "IN")], in order. *)
  phone_matches : string -> list string;
  (** whether [openai.OpenAI(api_key=os.getenv("OPENAI_API_KEY"))]
      succeeds (it raises when no key is configured). *)
  openai_client_ok : bool;
  (** [client.chat.completions.create(model="gpt-3.5-turbo",
      messages=[user prompt], max_tokens=n, temperature=0)
      .choices[0].message.content]; [None] when the call raises or the
      content is null. *)
  llm_complete : string -> nat -> option string;
  (** [list(s)] for a [set] of strings: its elements in the interpreter's
      hash order, which the code does not control; [s] is given in
      insertion order. *)
  set_iter : list string -> list string;
  set_iter_perm : forall l, set_iter l ≡ₚ l;
  (** whether the interpreter is Python 3.12 or later, where a slice is
      hashable and [d[:n]] on a dict raises [KeyError] (the repository
      pins no version). *)
  slices_hashable : bool
}.

(** * The fetch monad *)

Definition Fetch (A : Type) : Type := (A * list string)%type.

#[export] Instance fetch_ret : MRet Fetch := fun A a => (a, []).
#[export] Instance fetch_bind : MBind Fetch :=
  fun A B f m => let '(a, log1) := m in let '(b, log2) := f a in (b, log1 ++ log2).

(** The value, and the URLs requested, in order. *)
Definition result_of {A} (m : Fetch A) : A := fst m.
Definition fetched {A} (m : Fetch A) : list string := snd m.

Lemma result_of_bind {A B} (m : Fetch A) (f : A -> Fetch B) :
  result_of (m ≫= f) = result_of (f (result_of m)).
Proof. destruct m as [a l]. unfold result_of; simpl. by destruct (f a). Qed.

Lemma fetched_bind {A B} (m : Fetch A) (f : A -> Fetch B) :
  fetched (m ≫= f) = fetched m ++ fetched (f (result_of m)).
Proof. destruct m as [a l]. unfold fetched; simpl. by destruct (f a). Qed.

Lemma result_of_ret {A} (a : A) : result_of (mret a : Fetch A) = a.
Proof. done. Qed.

Lemma fetched_ret {A} (a : A) : fetched (mret a : Fetch A) = [].
Proof. done. Qed.

Lemma fetch_pair_bind {A B} (a : A) (log : list string) (f : A -> Fetch B) :
  ((a, log) ≫= f) = (result_of (f a), log ++ fetched (f a)).
Proof. unfold result_of, fetched; simpl. by destruct (f a). Qed.

(** Binding pointwise equal continuations gives the same computation, so
    [setoid_rewrite] goes under the binders of a [Fetch] program. *)
Lemma fetch_bind_ext {A B} (m : Fetch A) (f g : A -> Fetch B) :
  (forall a, f a = g a) -> m ≫= f = m ≫= g.
Proof. intros Hfg. destruct m as [a l]. by rewrite !fetch_pair_bind, Hfg. Qed.

#[export] Instance fetch_bind_proper {A B} :
  Proper (pointwise_relation A eq ==> eq ==> eq) (@mbind Fetch _ A B).
Proof. intros f g Hfg m ? <-. by apply fetch_bind_ext. Qed.

Create Rewrite HintDb fetch.
#[export] Hint Rewrite @result_of_bind @fetched_bind @result_of_ret @fetched_ret : fetch.

(** * Fetch computations that may raise

    [main.py] runs resolvers that may raise one after the other, leaving
    at the first exception: [Fetch (pyres A)] with its bind [?←]. *)

Definition fetch_try_bind {A B} (m : Fetch (pyres A)) (k : A -> Fetch (pyres B)) : Fetch (pyres B) :=
  r ← m; match r with Ok a => k a | Raise e => mret (Raise e) end.

Notation "x ?← m ; k" := (fetch_try_bind m (fun x => k))
  (at level 20, m at level 100, k at level 200, right associativity) : py_scope.

(** A resolver that does not raise. *)
Definition fetch_ok {A} (m : Fetch A) : Fetch (pyres A) := a ← m; mret (Ok a).

Lemma result_of_try_bind {A B} (m : Fetch (pyres A)) (k : A -> Fetch (pyres B)) :
  result_of (fetch_try_bind m k) =
    match result_of m with Ok a => result_of (k a) | Raise e => Raise e end.
Proof. unfold fetch_try_bind. rewrite result_of_bind. by destruct (result_of m). Qed.

Lemma fetched_try_bind {A B} (m : Fetch (pyres A)) (k : A -> Fetch (pyres B)) :
  fetched (fetch_try_bind m k) =
    fetched m ++ match result_of m with Ok a => fetched (k a) | Raise _ => [] end.
Proof. unfold fetch_try_bind. rewrite fetched_bind. by destruct (result_of m). Qed.

Lemma result_of_fetch_ok {A} (m : Fetch A) : result_of (fetch_ok m) = Ok (result_of m).
Proof. unfold fetch_ok. by rewrite result_of_bind. Qed.

Lemma fetched_fetch_ok {A} (m : Fetch A) : fetched (fetch_ok m) = fetched m.
Proof. unfold fetch_ok. by rewrite fetched_bind, fetched_ret, app_nil_r. Qed.

#[export] Hint Rewrite @result_of_try_bind @fetched_try_bind @result_of_fetch_ok @fetched_fetch_ok : fetch.

Section WithPlatform.
Context `{Platform}.

(** [requests.get(url, timeout=10)], recorded. *)
Definition requests_get (url : string) : Fetch (option response) :=
  (http_get url, [url]).

(** The body of a response with status 200. *)
Definition ok_body (r : option response) : option string :=
  match r with
  | Some resp => if Z.eqb (status_code resp) 200 then Some (text resp) else None
  | None => None
  end.

Lemma result_of_requests_get url : result_of (requests_get url) = http_get url.
Proof. done. Qed.

Lemma fetched_requests_get url : fetched (requests_get url) = [url].
Proof. done. Qed.
End WithPlatform.

#[export] Hint Rewrite @result_of_requests_get @fetched_requests_get : fetch.

(** * The scraper object *)

(** [s.rstrip('/')]. *)
Fixpoint rstrip_slash (s : string) : string :=
  match s with
  | EmptyString => EmptyString
  | String c r =>
      let r' := rstrip_slash r in
      if Ascii.eqb c "/"%char && String.eqb r' EmptyString then EmptyString else String c r'
  end.

Record ShopifyScraper : Type := { base_url : string }.

(** [ShopifyScraper(base_url)]. *)
Definition mk_scraper (url : string) : ShopifyScraper :=
  {| base_url := rstrip_slash url |}.

(** [href if href.startswith('http') else
     f"{self.base_url}{href if href.startswith('/') else '/' + href}"]. *)
Definition resolve_href (base href : string) : string :=
  if py_startswith "http" href then href
  else base +:+ (if py_startswith "/" href then href else String "/"%char href).

Section Homepage.
Context `{Platform} (self : ShopifyScraper).

(** [fetch_homepage_html]: the body on status 200, [""] otherwise or
    when the request raises. *)
Definition fetch_homepage_html : Fetch string :=
  r ← requests_get (base_url self);
  mret (default EmptyString (ok_body r)).
End Homepage.

(** * Lemmas *)

Lemma fetched_fetch_homepage_html `{Platform} self :
  fetched (fetch_homepage_html self) = [base_url self].
Proof. done. Qed.

Lemma result_of_fetch_homepage_html `{Platform} self :
  result_of (fetch_homepage_html self) = default EmptyString (ok_body (http_get (base_url self))).
Proof. done. Qed.

#[export] Hint Rewrite @fetched_fetch_homepage_html @result_of_fetch_homepage_html : fetch.

(** A relative reference is joined to the base with a slash between. *)
Lemma resolve_href_relative base href :
  py_startswith "http" href = false -> py_startswith "/" href = false ->
  resolve_href base href = base +:+ String "/"%char href.
Proof. unfold resolve_href. by intros -> ->. Qed.

Lemma rstrip_slash_no_trailing s t : rstrip_slash s <> t +:+ "/".
Proof.
  revert t. induction s as [|c s IH]; intros t; simpl.
  - by destruct t.
  - destruct (Ascii.eqb c "/"%char && String.eqb (rstrip_slash s) EmptyString) eqn:E.
    + by destruct t.
    + destruct t as [|d t]; simpl.
      * intros [= -> Hs]. rewrite Hs in E. by rewrite Ascii.eqb_refl in E.
      * intros [= -> Hs]. by apply (IH t).
Qed.

(** [rstrip('/')] is idempotent, so the scraper of [u] and the scraper of
    [u.rstrip('/')] are the same object. *)
Lemma rstrip_slash_idem s : rstrip_slash (rstrip_slash s) = rstrip_slash s.
Proof.
  induction s as [|c s IH]; [done|]. cbn [rstrip_slash].
  destruct (Ascii.eqb c "/"%char && String.eqb (rstrip_slash s) EmptyString) eqn:E; [done|].
  cbn [rstrip_slash]. by rewrite IH, E.
Qed.

Lemma mk_scraper_rstrip u : mk_scraper (rstrip_slash u) = mk_scraper u.
Proof. unfold mk_scraper. by rewrite rstrip_slash_idem. Qed.

(** * Concrete sites *)

(** A platform given by tables: the response of each URL, the tree of
    each body, and the other collaborators as functions.  The witnesses
    run the resolvers on such sites. *)
Definition table_platform (pages : list (string * response)) (docs : list (string * node))
    (loads : string -> option json) (phones : string -> list string) (key_ok : bool)
    (llm : string -> nat -> option string) : Platform := {|
  http_get u := snd <$> List.find (fun p => String.eqb p.1 u) pages;
  html_parse b := default (NElem "[document]" [] []) (snd <$> List.find (fun p => String.eqb p.1 b) docs);
  json_loads := loads;
  phone_matches := phones;
  openai_client_ok := key_ok;
  llm_complete := llm;
  set_iter l := l;
  set_iter_perm l := Permutation_refl l;
  slices_hashable := true
|}.
