(* ===== verification/Faq.v ===== *)
(** Faq: [ShopifyScraper.get_faqs] and [extract_faqs_with_llm]
    ([src/app/scraper.py], lines 117-221).

    The locate phase probes twelve paths, then always fetches the homepage
    and probes every link on it that was not probed already; the parse
    phase runs four structural heuristics over the located page, removes
    duplicate and empty pairs, and falls back to the language model when
    nothing is left.  The theorems say what every returned entry
    satisfies, what the deduplication guarantees, which page is parsed and
    how many requests the locate phase makes. *)

From S2P Require Import Prelude Html Json Web.

(** A question/answer pair as the heuristics build it. *)
Definition faq : Type := (string * string)%type.

(** [{'question': q, 'answer': a}]. *)
Definition faq_to_json (f : faq) : json :=
  JObj [("question", JStr f.1); ("answer", JStr f.2)].

Definition faq_paths : list string :=
  ["/pages/faq"; "/pages/faqs"; "/faq"; "/faqs";
   "/pages/help"; "/help"; "/pages/support"; "/support";
   "/pages/customer-service"; "/customer-service"; "/pages/questions"; "/questions"].

(** * The parse heuristics (pure functions of the parsed page) *)

(** Elements classed [faq] / [faq-item]: first heading-like descendant
    with first paragraph descendant. *)
Definition faq_from_items (soup : node) : list faq :=
  omap (fun item =>
          match find (name_in ["h2"; "h3"; "h4"; "strong"; "b"]) item, find (name_is "p") item with
          | Some q, Some a => Some (text_of q, text_of a)
          | _, _ => None
          end)
       (find_all (class_in ["faq"; "faq-item"]) soup).

(** [<details>]: the summary text, and the details text with every
    occurrence of the summary text removed, stripped. *)
Definition faq_from_details (soup : node) : list faq :=
  omap (fun d =>
          match find (name_is "summary") d with
          | Some s =>
              let q := text_of s in
              Some (q, py_strip (py_replace_empty (get_text nl d) q))
          | None => None
          end)
       (find_all (name_is "details") soup).

Definition heading_tags : list string := ["h2"; "h3"; "h4"; "b"; "strong"].

(** Every heading-like element with the first later sibling paragraph,
    and separately with the first later sibling list. *)
Definition faq_from_headings (soup : node) : list faq :=
  flat_map (fun qs : node * list node =>
              let '(q, sibs) := qs in
              match find_next_sibling (name_is "p") sibs with
              | Some p => [(text_of q, text_of p)]
              | None => []
              end ++
              match find_next_sibling (name_in ["ul"; "ol"]) sibs with
              | Some l => [(text_of q, py_join nl (text_of <$> find_all (name_is "li") l))]
              | None => []
              end)
           (find_all_ctx (name_in heading_tags) soup).

(** [<li>] with a bold child: the bold text, and the item text without
    it, kept when that is not empty. *)
Definition faq_from_list_items (soup : node) : list faq :=
  omap (fun li =>
          match find (name_in ["strong"; "b"]) li with
          | Some q =>
              let ans := py_strip (py_replace_empty (text_of li) (text_of q)) in
              if py_truthy ans then Some (text_of q, ans) else None
          | None => None
          end)
       (find_all (name_is "li") soup).

Definition parse_faqs (soup : node) : list faq :=
  faq_from_items soup ++ faq_from_details soup ++ faq_from_headings soup ++ faq_from_list_items soup.

(** The [seen] loop: exact pair deduplication, empty fields dropped. *)
Definition faq_nonempty (f : faq) : bool := py_truthy f.1 && py_truthy f.2.

Definition dedup_faqs (l : list faq) : list faq := dedup id faq_nonempty l.

(** * The language-model fallback *)

Definition faq_prompt (text : string) : string :=
  "Extract all FAQ question and answer pairs from the following text. " +:+
  "Return as a JSON array of objects with 'question' and 'answer'. " +:+
  "Text:" +:+ nl +:+ text.

(** [[faq for faq in data if faq.get('question') and faq.get('answer')]]. *)
Fixpoint keep_llm_faqs (items : list json) : pyres (list json) :=
  match items with
  | [] => Ok []
  | f :: r =>
      py_get_truthy "question" f ≫= λ q : bool,
      (if q then py_get_truthy "answer" f else Ok false) ≫= λ keep : bool,
      keep_llm_faqs r ≫= λ rest,
      Ok (if keep then f :: rest else rest)
  end.

Section WithPlatform.
Context `{Platform}.

(** [extract_faqs_with_llm]: the client is built outside the [try]. *)
Definition extract_faqs_with_llm (text : string) : pyres (list json) :=
  if openai_client_ok then
    Ok (match llm_complete (faq_prompt text) 512 with
        | Some content =>
            match json_loads content with
            | Some (JArr items) => py_try (keep_llm_faqs items) []
            | _ => []
            end
        | None => []
        end)
  else Raise OpenAIError.

(** Dedup, then the fallback when nothing is left. *)
Definition parse_faq_page (soup : node) : pyres (list json) :=
  match dedup_faqs (parse_faqs soup) with
  | [] => extract_faqs_with_llm (get_text nl soup)
  | unique => Ok (faq_to_json <$> unique)
  end.

Context (self : ShopifyScraper).

(** [resp.status_code == 200 and ('faq' in body or 'question' in body)],
    lowercased. *)
Definition faq_like (r : option response) : bool :=
  match ok_body r with
  | Some body => py_contains "faq" (py_lower body) || py_contains "question" (py_lower body)
  | None => false
  end.

(** The path loop: the URL found, if any, and [checked_urls]. *)
Fixpoint probe_faq_paths (paths checked : list string) : Fetch (option string * list string) :=
  match paths with
  | [] => mret (None, checked)
  | p :: ps =>
      let url := base_url self +:+ p in
      r ← requests_get url;
      if faq_like r then mret (Some url, checked ++ [url])
      else probe_faq_paths ps (checked ++ [url])
  end.

(** [candidate_links]: the resolved hrefs of the homepage not probed. *)
Definition candidate_links (html : string) (checked : list string) : list string :=
  if py_truthy html
  then filter (fun h => h ∉ checked)
              ((fun a => resolve_href (base_url self) (href_of a)) <$> anchors (html_parse html))
  else [].

(** The link loop. *)
Fixpoint probe_links (links : list string) : Fetch (option string) :=
  match links with
  | [] => mret None
  | l :: ls =>
      r ← requests_get l;
      if faq_like r then mret (Some l) else probe_links ls
  end.

(** The locate phase: the link loop runs whether or not a path matched,
    and a match there replaces [faq_url]. *)
Definition locate_faq_page : Fetch (option string) :=
  pc ← probe_faq_paths faq_paths [];
  html ← fetch_homepage_html self;
  found ← probe_links (candidate_links html pc.2);
  mret (match found with Some l => Some l | None => pc.1 end).

(** [get_faqs]. *)
Definition get_faqs : Fetch (list json) :=
  faq_url ← locate_faq_page;
  match faq_url with
  | Some u =>
      if py_truthy u then
        r ← requests_get u;
        mret (match ok_body r with
              | Some body => py_try (parse_faq_page (html_parse body)) []
              | None => []
              end)
      else mret []
  | None => mret []
  end.
End WithPlatform.

(** * Every returned entry has a question and an answer *)

(** [faq.get('question')] and [faq.get('answer')] are truthy. *)
Definition faq_entry_ok (j : json) : Prop :=
  py_get_truthy "question" j = Ok true /\ py_get_truthy "answer" j = Ok true.

Lemma faq_to_json_ok f : faq_nonempty f = true -> faq_entry_ok (faq_to_json f).
Proof.
  destruct f as [q a]. unfold faq_nonempty, faq_entry_ok, py_get_truthy, py_get. simpl.
  intros [-> ->]%andb_prop. done.
Qed.

Lemma keep_llm_faqs_ok items r : keep_llm_faqs items = Ok r -> Forall faq_entry_ok r.
Proof.
  revert r. induction items as [|f items IH]; intros r; simpl; [intros [= <-]; constructor|].
  destruct (py_get_truthy "question" f) as [q|] eqn:Hq; [|done]; simpl.
  destruct q; simpl.
  - destruct (py_get_truthy "answer" f) as [a|] eqn:Ha; [|done]; simpl.
    destruct (keep_llm_faqs items) as [rest|] eqn:Hr; [|done]; simpl. intros [= <-].
    destruct a; [constructor; [done|] |]; by apply IH.
  - destruct (keep_llm_faqs items) as [rest|] eqn:Hr; [|done]; simpl. intros [= <-]. by apply IH.
Qed.

Section Properties.
Context `{Platform}.

Lemma extract_faqs_with_llm_ok text r :
  extract_faqs_with_llm text = Ok r -> Forall faq_entry_ok r.
Proof.
  unfold extract_faqs_with_llm. destruct openai_client_ok; [|done]. intros [= <-].
  destruct llm_complete as [c|]; [|constructor].
  destruct json_loads as [[]|]; try constructor.
  apply py_try_Forall, keep_llm_faqs_ok.
Qed.

Lemma parse_faq_page_ok soup r : parse_faq_page soup = Ok r -> Forall faq_entry_ok r.
Proof.
  unfold parse_faq_page.
  pose proof (dedup_go_keep id faq_nonempty [] (parse_faqs soup)) as Hk.
  fold (dedup id faq_nonempty (parse_faqs soup)) in Hk. fold (dedup_faqs (parse_faqs soup)) in Hk.
  destruct (dedup_faqs (parse_faqs soup)) as [|f fs]; [apply extract_faqs_with_llm_ok|].
  intros [= <-]. apply (proj2 (Forall_fmap _ _ (f :: fs))).
  eapply Forall_impl; [exact Hk|]. apply faq_to_json_ok.
Qed.

(** The entries of [get_faqs] on every path. *)
Lemma get_faqs_entries self : Forall faq_entry_ok (result_of (get_faqs self)).
Proof.
  unfold get_faqs. rewrite result_of_bind. cbv beta.
  destruct (result_of (locate_faq_page self)) as [u|]; [|constructor].
  destruct (py_truthy u); [|constructor].
  rewrite result_of_bind. cbv beta. rewrite result_of_ret.
  destruct (ok_body _); [|constructor].
  apply py_try_Forall, parse_faq_page_ok.
Qed.

(** Every FAQ entry is a dict: [.get] succeeded on it. *)
Lemma get_faqs_dicts self : Forall (fun j => exists kvs, j = JObj kvs) (result_of (get_faqs self)).
Proof.
  eapply Forall_impl; [apply get_faqs_entries|]. intros [] [Hq _]; try done. by eexists.
Qed.

(** C1: every FAQ entry [get_faqs] returns, from the heuristics or from the
    language model, has a truthy ["question"] and a truthy ["answer"]. *)
Theorem get_faqs_entries_ok self : Forall faq_entry_ok (result_of (get_faqs self)).
Proof. apply get_faqs_entries. Qed.
End Properties.

(** * Deduplication *)

(** C3: the deduplication keeps, in their order, exactly one copy of every
    pair whose question and answer are both non-empty. *)
Theorem dedup_faqs_spec (l : list faq) :
  sublist (dedup_faqs l) l /\ NoDup (dedup_faqs l) /\
  Forall (fun f => faq_nonempty f = true) (dedup_faqs l) /\
  (forall f, f ∈ l -> faq_nonempty f = true -> f ∈ dedup_faqs l).
Proof.
  unfold dedup_faqs. split_and!.
  - apply dedup_sublist.
  - rewrite <- (list_fmap_id (dedup id faq_nonempty l)). apply dedup_go_NoDup.
  - apply dedup_go_keep.
  - intros f Hf Hk. destruct (dedup_complete id faq_nonempty l f Hf Hk) as (y & Hy & Heq).
    unfold id in Heq. by subst.
Qed.

(** running the deduplication on its own output changes nothing. *)
Theorem dedup_faqs_idempotent (l : list faq) : dedup_faqs (dedup_faqs l) = dedup_faqs l.
Proof. apply dedup_idempotent. Qed.

(** C4: the [seen] loop of lines 209-215 is the reference deduplication:
    a non-empty pair is kept and every later copy of it dropped, an empty
    one is skipped. *)
Theorem dedup_faqs_ref (l : list faq) : dedup_faqs l = dedup_ref id faq_nonempty l.
Proof. apply dedup_eq_ref. Qed.

(** * The locate phase as a search *)

Section Locate.
Context `{Platform} (self : ShopifyScraper).

(** A URL that [get_faqs] accepts as an FAQ page. *)
Definition faq_hit (u : string) : bool := faq_like (http_get u).

Definition faq_path_urls : list string := (fun p => base_url self +:+ p) <$> faq_paths.

Lemma probe_faq_paths_spec ps checked :
  probe_faq_paths self ps checked =
    ((List.find faq_hit ((fun p => base_url self +:+ p) <$> ps),
      checked ++ upto_first faq_hit ((fun p => base_url self +:+ p) <$> ps)),
     upto_first faq_hit ((fun p => base_url self +:+ p) <$> ps)).
Proof.
  revert checked. induction ps as [|p ps IH]; intros checked; simpl.
  - by rewrite app_nil_r.
  - unfold faq_hit at 1 3 5. destruct (faq_like (http_get (base_url self +:+ p))); simpl.
    + done.
    + rewrite IH. simpl. by rewrite <- app_assoc.
Qed.

Lemma probe_links_spec ls :
  probe_links ls = (List.find faq_hit ls, upto_first faq_hit ls).
Proof.
  induction ls as [|l ls IH]; simpl; [done|].
  unfold faq_hit at 1 3. destruct (faq_like (http_get l)); simpl; [done|].
  by rewrite IH.
Qed.

(** The homepage links [get_faqs] considers. *)
Definition faq_candidates : list string :=
  candidate_links self (default EmptyString (ok_body (http_get (base_url self))))
                  (upto_first faq_hit faq_path_urls).

(** The locate phase as two searches and its request list. *)
Lemma locate_faq_page_eq :
  locate_faq_page self =
    (match List.find faq_hit faq_candidates with
     | Some l => Some l
     | None => List.find faq_hit faq_path_urls
     end,
     upto_first faq_hit faq_path_urls ++ [base_url self] ++ upto_first faq_hit faq_candidates).
Proof.
  unfold locate_faq_page, faq_candidates.
  rewrite probe_faq_paths_spec. fold faq_path_urls.
  rewrite fetch_pair_bind, result_of_bind, fetched_bind. cbv beta.
  rewrite result_of_fetch_homepage_html, fetched_fetch_homepage_html, app_nil_l.
  rewrite result_of_bind, fetched_bind, probe_links_spec. cbv beta.
  rewrite result_of_ret, fetched_ret, app_nil_r. cbn [result_of fetched fst snd].
  done.
Qed.

(** C2: the locate phase finds the first FAQ-like link of the homepage
    when there is one, whatever the path probe found, and the first
    FAQ-like path otherwise; it requests the paths up to the first hit,
    the homepage, and the links up to the first hit. *)
Theorem locate_faq_page_spec :
  locate_faq_page self =
    (match List.find faq_hit faq_candidates with
     | Some l => Some l
     | None => List.find faq_hit faq_path_urls
     end,
     upto_first faq_hit faq_path_urls ++ [base_url self] ++ upto_first faq_hit faq_candidates).
Proof. exact locate_faq_page_eq. Qed.
End Locate.

(** * Request count of the locate phase *)

(** when no probed path and no homepage link is an FAQ page, [get_faqs]
    requests all twelve paths, the homepage and every candidate link:
    13 requests plus one per link, however many links the homepage has. *)
Theorem get_faqs_fetch_count `{Platform} (self : ShopifyScraper) :
  List.find faq_hit (faq_path_urls self) = None ->
  List.find faq_hit (faq_candidates self) = None ->
  length (fetched (get_faqs self)) = 13 + length (faq_candidates self).
Proof.
  intros Hp Hc. unfold get_faqs. rewrite fetched_bind, locate_faq_page_eq.
  cbn [result_of fetched fst snd]. rewrite Hc, Hp. cbn [fetched snd].
  rewrite !upto_first_none by done. rewrite app_nil_r, !length_app.
  unfold faq_path_urls. rewrite length_fmap. done.
Qed.

(** * The language-model fallback keeps all entries or none *)

Lemma keep_llm_faqs_raise items :
  (exists x, x ∈ items /\ is_dict x = false) -> keep_llm_faqs items = Raise AttributeError.
Proof.
  induction items as [|f items IH]; intros (x & Hx & Hd); [by apply elem_of_nil in Hx|].
  apply elem_of_cons in Hx as [->|Hx].
  - destruct f; done.
  - destruct f; try done. cbn [keep_llm_faqs]. unfold py_get_truthy at 1; cbn.
    destruct (match obj_lookup "question" kvs with Some x => json_truthy x | None => false end);
      cbn; rewrite IH by eauto; done.
Qed.

(** if the model's JSON array has one entry that is not an object,
    [faq.get] raises inside the comprehension and the fallback returns no
    FAQ at all, also when the other entries are well formed. *)
Theorem extract_faqs_malformed_entry `{Platform} text content items :
  openai_client_ok = true ->
  llm_complete (faq_prompt text) 512 = Some content ->
  json_loads content = Some (JArr items) ->
  (exists x, x ∈ items /\ is_dict x = false) ->
  extract_faqs_with_llm text = Ok [].
Proof.
  intros Hk Hc Hl Hx. unfold extract_faqs_with_llm.
  by rewrite Hk, Hc, Hl, keep_llm_faqs_raise.
Qed.

(** * Concrete pages *)

Definition shop_home_html : string := "<a href='/'>Logo</a><a href='/pages/faq'>FAQ</a>".
Definition shop_faq_html : string :=
  "<h1>FAQ</h1><details><summary>Do you ship abroad?</summary>Yes, worldwide.</details>".

Definition shop_home_doc : node :=
  NElem "[document]" []
    [NElem "a" [("href", "/")] [NText "Logo"]; NElem "a" [("href", "/pages/faq")] [NText "FAQ"]].

Definition shop_faq_doc : node :=
  NElem "[document]" []
    [NElem "h1" [] [NText "FAQ"];
     NElem "details" [] [NElem "summary" [] [NText "Do you ship abroad?"]; NText "Yes, worldwide."]].

(** A storefront whose homepage links to itself ([href="/"]) and to a
    real FAQ page at [/pages/faq]; no language-model key is set. *)
Definition shop : Platform :=
  table_platform
    [("https://shop.test", mk_response 200 shop_home_html);
     ("https://shop.test/", mk_response 200 shop_home_html);
     ("https://shop.test/pages/faq", mk_response 200 shop_faq_html)]
    [(shop_home_html, shop_home_doc); (shop_faq_html, shop_faq_doc)]
    (fun _ => None) (fun _ => []) false (fun _ _ => None).

Definition shop_scraper : ShopifyScraper := mk_scraper "https://shop.test/".

(** on that storefront the path probe finds [/pages/faq], whose
    [<details>] block gives one FAQ, but the homepage's own link [/] is
    FAQ-like too (its footer says "FAQ"), replaces it, and [get_faqs]
    parses the homepage and returns nothing. *)
Example faq_page_shadowed_by_homepage_link :
  result_of (@probe_faq_paths shop shop_scraper faq_paths []) =
    (Some "https://shop.test/pages/faq", ["https://shop.test/pages/faq"]) /\
  @parse_faq_page shop shop_faq_doc = Ok [faq_to_json ("Do you ship abroad?", "Yes, worldwide.")] /\
  result_of (@locate_faq_page shop shop_scraper) = Some "https://shop.test/" /\
  result_of (@get_faqs shop shop_scraper) = [].
Proof. split_and!; vm_compute; reflexivity. Qed.

(** A storefront with no FAQ page and three links on its homepage. *)
Definition plain_home_html : string :=
  "<a href='/collections/all'>Shop</a><a href='/pages/about'>About</a><a href='/cart'>Cart</a>".

Definition plain : Platform :=
  table_platform
    [("https://plain.test", mk_response 200 plain_home_html)]
    [(plain_home_html,
      NElem "[document]" []
        [NElem "a" [("href", "/collections/all")] [NText "Shop"];
         NElem "a" [("href", "/pages/about")] [NText "About"];
         NElem "a" [("href", "/cart")] [NText "Cart"]])]
    (fun _ => None) (fun _ => []) false (fun _ _ => None).

Definition plain_scraper : ShopifyScraper := mk_scraper "https://plain.test".

Lemma get_faqs_fetch_count_witness :
  length (fetched (@get_faqs plain plain_scraper)) = 16.
Proof.
  rewrite (@get_faqs_fetch_count plain plain_scraper); [vm_compute; reflexivity | vm_compute; reflexivity | vm_compute; reflexivity].
Defined.

(** A model answer with one well-formed entry and one bare string. *)
Definition llm_site : Platform :=
  table_platform [] []
    (fun _ => Some (JArr [JObj [("question", JStr "Returns?"); ("answer", JStr "30 days.")]; JStr "oops"]))
    (fun _ => []) true (fun _ _ => Some "[...]").

Lemma extract_faqs_malformed_entry_witness :
  @extract_faqs_with_llm llm_site "page text" = Ok [].
Proof.
  apply (@extract_faqs_malformed_entry llm_site "page text" "[...]"
           [JObj [("question", JStr "Returns?"); ("answer", JStr "30 days.")]; JStr "oops"]);
    [reflexivity | reflexivity | reflexivity |].
  exists (JStr "oops"). split; [right; left | reflexivity].
Defined.

(** the [<details>] heuristic removes every occurrence of the summary
    text from the answer, not only the summary itself; and the removal can
    leave the summary text behind. *)
Example faq_details_summary_removal :
  faq_from_details
    (NElem "[document]" []
       [NElem "details" [] [NElem "summary" [] [NText "Shipping"]; NElem "p" [] [NText "Shipping is free over 50."]]])
  = [("Shipping", "is free over 50.")] /\
  faq_from_details
    (NElem "[document]" [] [NElem "details" [] [NElem "summary" [] [NText "ab"]; NText "aabb"]])
  = [("ab", "ab")].
Proof. split; vm_compute; reflexivity. Qed.

(** a heading is paired with the first later sibling paragraph, also
    when another heading stands between them. *)
Example faq_heading_pairs_non_adjacent_paragraph :
  faq_from_headings
    (NElem "[document]" []
       [NElem "h3" [] [NText "Q1"]; NElem "h3" [] [NText "Q2"]; NElem "p" [] [NText "A2"]])
  = [("Q1", "A2"); ("Q2", "A2")].
Proof. vm_compute. reflexivity. Qed.
