(* ===== verification/Policy.v ===== *)
(** Policy: [ShopifyScraper.get_policy_text], [get_privacy_policy] and
    [get_refund_policy] ([src/app/scraper.py], lines 63-115).

    Three tiers, each returning on its first success: the well-known
    paths of the policy kind, then the homepage links whose lowercased
    [href] has a keyword of the kind, then (refund only) the homepage
    [section], [div] and [p] elements whose text has a refund keyword.
    The theorems give the length of what is returned, the exact
    condition under which nothing is returned, and the requests made. *)

From S2P Require Import Prelude Html Json Web.

(** [policy_paths.get(policy_type, [])]. *)
Definition policy_paths (policy_type : string) : list string :=
  if String.eqb policy_type "privacy" then
    ["/policies/privacy-policy"; "/pages/privacy-policy"; "/privacy-policy"]
  else if String.eqb policy_type "refund" then
    ["/policies/refund-policy"; "/pages/refund-policy"; "/refund-policy";
     "/policies/return-policy"; "/pages/return-policy"; "/return-policy"]
  else [].

(** The keywords of the link search. *)
Definition policy_keywords (policy_type : string) : list string :=
  if String.eqb policy_type "refund" then ["refund"; "return"; "exchange"] else [policy_type].

(** [text] when it is not empty and longer than [min] characters. *)
Definition gate (min : nat) (text : string) : option string :=
  if py_truthy text && (min <? String.length text) then Some text else None.

(** The homepage snippet scan (refund only): keyword by keyword, every
    [section], [div] and [p] in document order whose raw text has the
    keyword, kept when its text is longer than 50 characters. *)
Definition snippet_scan (soup : node) : option string :=
  first_some (fun kw =>
    first_some (fun sec =>
      let raw := get_text_raw sec in
      if py_truthy raw && py_contains kw (py_lower raw) then gate 50 (get_text nl sec) else None)
      (find_all (name_in ["section"; "div"; "p"]) soup))
    ["refund"; "return"; "exchange"].

Section WithPlatform.
Context `{Platform}.

(** A 200 response whose main-content text passes the 100-character
    gate. *)
Definition accept_main (r : option response) : option string :=
  match ok_body r with
  | Some body => gate 100 (get_text nl (main_content (html_parse body)))
  | None => None
  end.

(** The two fetching loops: request each URL in turn and return the first
    accepted text. *)
Fixpoint first_accepted (urls : list string) : Fetch (option string) :=
  match urls with
  | [] => mret None
  | u :: us =>
      r ← requests_get u;
      match accept_main r with
      | Some t => mret (Some t)
      | None => first_accepted us
      end
  end.

Context (self : ShopifyScraper).

Definition policy_urls (policy_type : string) : list string :=
  (fun p => base_url self +:+ p) <$> policy_paths policy_type.

(** The link search: every anchor whose lowercased [href] has a keyword,
    resolved from the lowercased [href]. *)
Definition policy_link_urls (soup : node) (policy_type : string) : list string :=
  (fun a => resolve_href (base_url self) (py_lower (href_of a))) <$>
    filter (fun a => existsb (fun kw => py_contains kw (py_lower (href_of a))) (policy_keywords policy_type) = true)
           (anchors soup).

(** [get_policy_text(policy_type)]. *)
Definition get_policy_text (policy_type : string) : Fetch (option string) :=
  t1 ← first_accepted (policy_urls policy_type);
  match t1 with
  | Some t => mret (Some t)
  | None =>
      html ← fetch_homepage_html self;
      if py_truthy html then
        let soup := html_parse html in
        t2 ← first_accepted (policy_link_urls soup policy_type);
        match t2 with
        | Some t => mret (Some t)
        | None => mret (if String.eqb policy_type "refund" then snippet_scan soup else None)
        end
      else mret None
  end.

Definition get_privacy_policy : Fetch (option string) := get_policy_text "privacy".

Definition get_refund_policy : Fetch (option string) := get_policy_text "refund".
End WithPlatform.

(** * The tiers as searches *)

Lemma gate_Some min t s : gate min t = Some s -> s = t /\ min < String.length s.
Proof.
  unfold gate. destruct (py_truthy t && (min <? String.length t)) eqn:E; [|done].
  intros [= <-]. apply andb_prop in E as [_ E]. apply Nat.ltb_lt in E. done.
Qed.

Section Searches.
Context `{Platform}.

(** A URL whose page passes the main-content gate. *)
Definition accepted (u : string) : option string := accept_main (http_get u).

Definition is_accepted (u : string) : bool := match accepted u with Some _ => true | None => false end.

Lemma first_accepted_spec urls :
  first_accepted urls = (first_some accepted urls, upto_first is_accepted urls).
Proof.
  induction urls as [|u us IH]; [done|].
  cbn [first_accepted first_some upto_first]. unfold requests_get. rewrite fetch_pair_bind.
  unfold is_accepted, accepted. destruct (accept_main (http_get u)); [done|].
  rewrite IH. done.
Qed.

Lemma accept_main_length r s : accept_main r = Some s -> 100 < String.length s.
Proof.
  unfold accept_main. destruct (ok_body r); [|done]. intros Hg. by apply gate_Some in Hg as [_ ?].
Qed.

Lemma first_some_accepted_length urls s :
  first_some accepted urls = Some s -> 100 < String.length s.
Proof.
  intros (u & _ & Hu)%first_some_Some. by apply (accept_main_length (http_get u)).
Qed.

Lemma snippet_scan_length soup s : snippet_scan soup = Some s -> 50 < String.length s.
Proof.
  unfold snippet_scan. intros (kw & _ & Hk)%first_some_Some.
  apply first_some_Some in Hk as (sec & _ & Hs).
  destruct (_ && _); [|done]. by apply gate_Some in Hs as [_ ?].
Qed.

Context (self : ShopifyScraper).

(** The homepage body [get_policy_text] works on. *)
Definition policy_home : string := default EmptyString (ok_body (http_get (base_url self))).

(** The three tiers of [get_policy_text] as nested searches. *)
Lemma get_policy_text_eq ty :
  result_of (get_policy_text self ty) =
    match first_some accepted (policy_urls self ty) with
    | Some t => Some t
    | None =>
        if py_truthy policy_home then
          match first_some accepted (policy_link_urls self (html_parse policy_home) ty) with
          | Some t => Some t
          | None => if String.eqb ty "refund" then snippet_scan (html_parse policy_home) else None
          end
        else None
    end.
Proof.
  unfold get_policy_text. rewrite result_of_bind, first_accepted_spec. cbn [result_of fst].
  destruct (first_some accepted (policy_urls self ty)); [done|].
  rewrite result_of_bind, result_of_fetch_homepage_html. fold policy_home.
  destruct (py_truthy policy_home); [|done].
  rewrite result_of_bind, first_accepted_spec. cbn [result_of fst].
  by destruct (first_some accepted _).
Qed.

(** C5: [get_policy_text] returns the first accepted well-known path, else
    (when the homepage loads) the first accepted keyword link, else for
    refunds the snippet scan of the homepage; nothing otherwise. *)
Theorem get_policy_text_result ty :
  result_of (get_policy_text self ty) =
    match first_some accepted (policy_urls self ty) with
    | Some t => Some t
    | None =>
        if py_truthy policy_home then
          match first_some accepted (policy_link_urls self (html_parse policy_home) ty) with
          | Some t => Some t
          | None => if String.eqb ty "refund" then snippet_scan (html_parse policy_home) else None
          end
        else None
    end.
Proof. exact (get_policy_text_eq ty). Qed.

(** C7: a policy text is never empty: it is longer than 100 characters,
    unless it is a refund text found by the snippet scan of the
    homepage, which is longer than 50. *)
Theorem get_policy_text_length ty s :
  result_of (get_policy_text self ty) = Some s ->
  100 < String.length s \/
  (ty = "refund" /\ snippet_scan (html_parse policy_home) = Some s /\ 50 < String.length s).
Proof.
  rewrite get_policy_text_eq.
  destruct (first_some accepted (policy_urls self ty)) eqn:E1.
  { intros [= <-]. left. by apply first_some_accepted_length in E1. }
  destruct (py_truthy policy_home); [|done].
  destruct (first_some accepted (policy_link_urls self _ ty)) eqn:E2.
  { intros [= <-]. left. by apply first_some_accepted_length in E2. }
  destruct (String.eqb_spec ty "refund") as [->|Hne]; [|done].
  intros Hs. right. split_and!; [done|done|by apply snippet_scan_length in Hs].
Qed.

(** C6: [get_policy_text] returns [None] exactly when every tier fails:
    no well-known path is accepted, and the homepage does not load or
    none of its keyword links is accepted and (for refunds) the snippet
    scan finds nothing. *)
Theorem get_policy_text_none ty :
  result_of (get_policy_text self ty) = None <->
  Forall (fun u => accepted u = None) (policy_urls self ty) /\
  (policy_home = EmptyString \/
   (Forall (fun u => accepted u = None) (policy_link_urls self (html_parse policy_home) ty) /\
    (ty = "refund" -> snippet_scan (html_parse policy_home) = None))).
Proof.
  rewrite get_policy_text_eq, <- !first_some_None.
  destruct (first_some accepted (policy_urls self ty)); [naive_solver|].
  destruct (py_truthy policy_home) eqn:Ht.
  - apply py_truthy_true in Ht.
    destruct (first_some accepted (policy_link_urls self _ ty)); [naive_solver|].
    destruct (String.eqb_spec ty "refund"); naive_solver.
  - apply py_truthy_false in Ht. naive_solver.
Qed.

(** when the first refund path answers 200 with more than 100
    characters of main content, [get_refund_policy] returns that text
    after that single request. *)
Theorem get_refund_policy_first_path t :
  accepted (base_url self +:+ "/policies/refund-policy") = Some t ->
  get_refund_policy self = (Some t, [base_url self +:+ "/policies/refund-policy"]).
Proof.
  intros Ht. unfold get_refund_policy, get_policy_text.
  unfold policy_urls, policy_paths. cbn [String.eqb Ascii.eqb Bool.eqb andb fmap list_fmap].
  unfold first_accepted, requests_get. rewrite fetch_pair_bind.
  unfold accepted in Ht. rewrite Ht. done.
Qed.
End Searches.

(** * Concrete stores *)

Definition refund_text : string :=
  "Items can be returned within thirty days of delivery for a full refund. " +:+
  "They must be unused, in their original packaging, with every tag attached.".

Definition refund_html : string := "<nav>Menu</nav><main>...</main>".

(** [/policies/refund-policy] answers with a [<main>] of about 150
    characters; the homepage is not reachable. *)
Definition refund_store : Platform :=
  table_platform
    [("https://store.test/policies/refund-policy", mk_response 200 refund_html)]
    [(refund_html, NElem "[document]" []
                     [NElem "nav" [] [NText "Menu"]; NElem "main" [] [NText refund_text]])]
    (fun _ => None) (fun _ => []) false (fun _ _ => None).

Definition store : ShopifyScraper := mk_scraper "https://store.test".

Lemma get_refund_policy_first_path_witness :
  @get_refund_policy refund_store store = (Some refund_text, ["https://store.test/policies/refund-policy"]).
Proof. apply (@get_refund_policy_first_path refund_store store refund_text). vm_compute. reflexivity. Defined.

Lemma get_policy_text_length_witness :
  100 < String.length refund_text \/
  ("refund" = "refund" /\ snippet_scan (@html_parse refund_store (@policy_home refund_store store)) = Some refund_text /\
   50 < String.length refund_text).
Proof. apply (@get_policy_text_length refund_store store "refund" refund_text). vm_compute. reflexivity. Defined.

(** A store where nothing answers: every tier fails. *)
Definition dead_store : Platform :=
  table_platform [] [] (fun _ => None) (fun _ => []) false (fun _ _ => None).

Lemma get_policy_text_none_witness :
  result_of (@get_policy_text dead_store store "privacy") = None.
Proof.
  apply (@get_policy_text_none dead_store store "privacy"). split.
  - vm_compute. repeat constructor.
  - left. vm_compute. reflexivity.
Defined.

Definition wrapper_home_html : string := "<div class='page'>...</div>".

Definition wrapper_home : node :=
  NElem "[document]" []
    [NElem "div" [("class", "page")]
       [NElem "nav" [] [NText "Home Shop Contact"];
        NElem "p" [] [NText "Free shipping on all orders. Read our refund policy for the details."]]].

(** A homepage whose content sits in one wrapper [div]. *)
Definition wrapper_store : Platform :=
  table_platform
    [("https://store.test", mk_response 200 wrapper_home_html)]
    [(wrapper_home_html, wrapper_home)]
    (fun _ => None) (fun _ => []) false (fun _ _ => None).

(** the refund snippet scan takes the first element in document order
    whose text mentions a refund, so a wrapper [div] wins over the
    paragraph that mentions it: the returned "policy" is the wrapper's whole
    text, navigation included. *)
Example refund_snippet_returns_wrapper :
  result_of (@get_refund_policy wrapper_store store) =
    Some ("Home Shop Contact" +:+ nl +:+
          "Free shipping on all orders. Read our refund policy for the details.").
Proof. vm_compute. reflexivity. Qed.
