(* ===== verification/Hero.v ===== *)
(** Hero: [ShopifyScraper.get_hero_products] ([src/app/scraper.py],
    lines 27-51): every homepage anchor whose [href] has [/products/]
    becomes a record (link text, resolved URL, first image source), and
    the [seen] loop keeps the first titled record of each URL.  The
    theorems give the invariant of the returned list and its exact
    content as a deduplication of the candidates. *)

From S2P Require Import Prelude Html Json Web.

(** [{'title': ..., 'url': ..., 'image': ...}]. *)
Record hero : Type := mk_hero {
  hero_title : string;
  hero_url : string;
  hero_image : option string
}.

(** The record built from one anchor. *)
Definition hero_of (base : string) (a : node) : hero :=
  {| hero_title := text_of a;
     hero_url := resolve_href base (href_of a);
     hero_image := match find (name_is "img") a with
                   | Some img => get_attr "src" img
                   | None => None
                   end |}.

(** The anchors whose [href] has [/products/], as records. *)
Definition hero_candidates (base : string) (soup : node) : list hero :=
  hero_of base <$> filter (fun a => py_contains "/products/" (href_of a) = true) (anchors soup).

(** The [seen] loop: by URL, titled records only. *)
Definition dedup_heroes (l : list hero) : list hero :=
  dedup hero_url (fun h => py_truthy (hero_title h)) l.

Section WithPlatform.
Context `{Platform} (self : ShopifyScraper).

(** [get_hero_products]. *)
Definition get_hero_products : Fetch (list hero) :=
  html ← fetch_homepage_html self;
  mret (if py_truthy html
        then dedup_heroes (hero_candidates (base_url self) (html_parse html))
        else []).
End WithPlatform.

(** * Properties *)

Lemma resolve_href_contains base href pat :
  py_contains pat href = true -> py_contains pat (resolve_href base href) = true.
Proof.
  intros Hp. unfold resolve_href.
  destruct (py_startswith "http" href); [done|].
  apply py_contains_app_r. destruct (py_startswith "/" href); [done|].
  change (String "/"%char href) with ("/" +:+ href). by apply py_contains_app_r.
Qed.

Lemma hero_candidates_url base soup h :
  h ∈ hero_candidates base soup -> py_contains "/products/" (hero_url h) = true.
Proof.
  unfold hero_candidates. intros (a & -> & Ha)%list_elem_of_fmap.
  apply list_elem_of_filter in Ha as [Hc _]. by apply resolve_href_contains.
Qed.

Section Properties.
Context `{Platform} (self : ShopifyScraper).

(** The homepage the resolver works on. *)
Definition hero_home : string := default EmptyString (ok_body (http_get (base_url self))).

(** C12: [get_hero_products] returns records with distinct URLs, each with
    a non-empty title and a URL that contains [/products/]; it makes one
    request, the homepage. *)
Theorem get_hero_products_ok :
  NoDup (hero_url <$> result_of (get_hero_products self)) /\
  Forall (fun h => hero_title h <> EmptyString /\ py_contains "/products/" (hero_url h) = true)
         (result_of (get_hero_products self)) /\
  fetched (get_hero_products self) = [base_url self].
Proof.
  unfold get_hero_products. rewrite result_of_bind, fetched_bind, result_of_fetch_homepage_html.
  cbv beta. rewrite result_of_ret, fetched_ret, fetched_fetch_homepage_html.
  destruct (py_truthy _); [|split_and!; [constructor|constructor|done]].
  split_and!; [apply dedup_go_NoDup| |done].
  apply Forall_forall. intros h Hh. split.
  - eapply Forall_forall in Hh; [|apply dedup_go_keep]. by apply py_truthy_true.
  - eapply hero_candidates_url.
    eapply elem_of_submseteq; [exact Hh|]. apply sublist_submseteq, dedup_sublist.
Qed.

(** C13: the URL of every titled candidate of a loaded homepage is the URL
    of a returned record. *)
Theorem get_hero_products_complete h :
  py_truthy hero_home = true ->
  h ∈ hero_candidates (base_url self) (html_parse hero_home) ->
  hero_title h <> EmptyString ->
  exists h', h' ∈ result_of (get_hero_products self) /\ hero_url h' = hero_url h.
Proof.
  intros Hh Hin Ht. unfold get_hero_products.
  rewrite result_of_bind, result_of_fetch_homepage_html. cbv beta. rewrite result_of_ret.
  fold hero_home. rewrite Hh. apply dedup_complete; [done|]. by apply py_truthy_true.
Qed.
End Properties.

(** * Concrete homepages *)

Definition widget_html : string :=
  "<a href='/products/widget'><img src='/img/w.jpg'>Widget</a><a href='/products/widget'><img src='/img/w.jpg'>Widget</a>".

Definition widget_anchor : node :=
  NElem "a" [("href", "/products/widget")] [NElem "img" [("src", "/img/w.jpg")] []; NText "Widget"].

(** The homepage of the end-to-end scenario: the same product anchor twice. *)
Definition widget_site : Platform :=
  table_platform
    [("https://w.test", mk_response 200 widget_html)]
    [(widget_html, NElem "[document]" [] [widget_anchor; widget_anchor])]
    (fun _ => None) (fun _ => []) false (fun _ _ => None).

Definition widget_scraper : ShopifyScraper := mk_scraper "https://w.test".

(** a homepage with [<a href="/products/widget"><img src="/img/w.jpg">Widget</a>]
    twice gives exactly one hero product, titled ["Widget"], with image
    ["/img/w.jpg"] and URL [base/products/widget]. *)
Example hero_products_widget_once :
  result_of (@get_hero_products widget_site widget_scraper) =
    [{| hero_title := "Widget"; hero_url := "https://w.test/products/widget";
        hero_image := Some "/img/w.jpg" |}].
Proof. vm_compute. reflexivity. Qed.

Lemma get_hero_products_complete_witness :
  exists h' : hero, h' ∈ result_of (@get_hero_products widget_site widget_scraper) /\
             hero_url h' = "https://w.test/products/widget".
Proof.
  apply (@get_hero_products_complete widget_site widget_scraper
           (hero_of "https://w.test" widget_anchor)); [vm_compute; reflexivity | | vm_compute; discriminate].
  vm_compute. left.
Defined.

Definition split_html : string :=
  "<a href='/products/mug'><img src='/img/mug.jpg'></a><a href='/products/mug'>Mug</a>".

(** A theme that links the product image and the product name separately. *)
Definition split_site : Platform :=
  table_platform
    [("https://m.test", mk_response 200 split_html)]
    [(split_html, NElem "[document]" []
                    [NElem "a" [("href", "/products/mug")] [NElem "img" [("src", "/img/mug.jpg")] []];
                     NElem "a" [("href", "/products/mug")] [NText "Mug"]])]
    (fun _ => None) (fun _ => []) false (fun _ _ => None).

(** an untitled anchor does not mark its URL as seen, so when the image
    link comes before the name link the product is kept from the name
    link, without its image. *)
Example hero_products_image_dropped :
  result_of (@get_hero_products split_site (mk_scraper "https://m.test")) =
    [{| hero_title := "Mug"; hero_url := "https://m.test/products/mug"; hero_image := None |}].
Proof. vm_compute. reflexivity. Qed.
