(* ===== verification/Email.v ===== *)
(** Email: the email extraction of [ShopifyScraper.get_contact_details]
    ([src/app/scraper.py], lines 277-283, 290 and 308):
    [re.findall(r"[a-zA-Z0-9_.+-]+@[a-zA-Z0-9-]+\.[a-zA-Z0-9-.]+", text)]
    and the filter [is_real_email].

    The pattern is matched the way Python's backtracking engine matches
    it: the three classes are each taken greedily, and no shorter choice
    can succeed (the character after a maximal local part or first label
    is never ['@'] or ['.'] when the maximal one fails), so a match at a
    position is the maximal one or none.  [findall] tries every position
    from the left and resumes after each match; it is defined with fuel,
    and the fuel [String.length s] is proved enough. *)

From S2P Require Import Prelude.

(** * The character classes *)

Definition is_alnum (c : ascii) : bool :=
  let n := nat_of_ascii c in
  ((48 <=? n) && (n <=? 57)) || ((65 <=? n) && (n <=? 90)) || ((97 <=? n) && (n <=? 122)).

(** [[a-zA-Z0-9_.+-]] *)
Definition is_local_char (c : ascii) : bool :=
  is_alnum c || Ascii.eqb c "_" || Ascii.eqb c "." || Ascii.eqb c "+" || Ascii.eqb c "-".

(** [[a-zA-Z0-9-]] *)
Definition is_label_char (c : ascii) : bool := is_alnum c || Ascii.eqb c "-".

(** [[a-zA-Z0-9-.]] *)
Definition is_rest_char (c : ascii) : bool := is_alnum c || Ascii.eqb c "-" || Ascii.eqb c ".".

(** The longest prefix of characters satisfying [p], and the rest. *)
Fixpoint span (p : ascii -> bool) (s : string) : string * string :=
  match s with
  | EmptyString => (EmptyString, EmptyString)
  | String c r => if p c then let '(a, b) := span p r in (String c a, b) else (EmptyString, s)
  end.

(** The match of the pattern at the start of [s], and what follows it. *)
Definition match_email (s : string) : option (string * string) :=
  let '(loc, r1) := span is_local_char s in
  if String.eqb loc EmptyString then None else
  match r1 with
  | String c1 r2 =>
      if negb (Ascii.eqb c1 "@") then None else
      let '(label, r3) := span is_label_char r2 in
      if String.eqb label EmptyString then None else
      match r3 with
      | String c2 r4 =>
          if negb (Ascii.eqb c2 ".") then None else
          let '(rest, r5) := span is_rest_char r4 in
          if String.eqb rest EmptyString then None
          else Some (loc +:+ "@" +:+ label +:+ "." +:+ rest, r5)
      | EmptyString => None
      end
  | EmptyString => None
  end.

(** [re.findall]: left to right, resuming after each match. *)
Definition findall_emails : nat -> string -> list string := findall_fuel match_email.

Definition find_emails (s : string) : list string := findall_emails (String.length s) s.

(** * [is_real_email] *)

Definition email_suffixes : list string := ["6.8.6"; "1.8.2"; "2.0.1"; "0.2.6"].

(** [is_real_email(email)]: [email.split('@')[1]] raises [IndexError]
    when there is no ['@']. *)
Definition is_real_email (email : string) : pyres bool :=
  match py_split_char "@" email with
  | _ :: dom :: _ =>
      if has_digit (default EmptyString (head (py_split_char "." dom))) then Ok false
      else if existsb (fun suf => py_endswith ("@" +:+ suf) email) email_suffixes then Ok false
      else Ok true
  | _ => Raise IndexError
  end.

(** * Strings all of whose characters satisfy a test *)

Fixpoint all_chars (p : ascii -> bool) (s : string) : bool :=
  match s with
  | EmptyString => true
  | String c r => p c && all_chars p r
  end.

Lemma all_chars_app p a b : all_chars p (a +:+ b) = all_chars p a && all_chars p b.
Proof. induction a as [|c a IH]; simpl; [done|]. by rewrite IH, andb_assoc. Qed.

Lemma all_chars_impl (p q : ascii -> bool) s :
  (forall c, p c = true -> q c = true) -> all_chars p s = true -> all_chars q s = true.
Proof.
  intros Hpq. induction s as [|c s IH]; simpl; [done|].
  intros [Hc Hs]%andb_prop. by rewrite Hpq, IH.
Qed.

Definition not_char (x : ascii) (c : ascii) : bool := negb (Ascii.eqb c x).

Lemma py_split_char_app sep a b :
  all_chars (not_char sep) a = true ->
  py_split_char sep (a +:+ String sep b) = a :: py_split_char sep b.
Proof.
  induction a as [|c a IH]; simpl; [by rewrite Ascii.eqb_refl|].
  intros [Hc Ha]%andb_prop. unfold not_char in Hc. apply negb_true_iff in Hc.
  rewrite Hc, IH by done. done.
Qed.

Lemma py_split_char_none sep s :
  all_chars (not_char sep) s = true -> py_split_char sep s = [s].
Proof.
  induction s as [|c s IH]; simpl; [done|].
  intros [Hc Hs]%andb_prop. unfold not_char in Hc. apply negb_true_iff in Hc.
  by rewrite Hc, IH.
Qed.

Lemma all_chars_not_char_app x c d : all_chars (not_char x) (c +:+ String x d) = false.
Proof.
  induction c as [|y c IH]; rewrite ?str_app_nil, ?str_app_cons; simpl.
  - unfold not_char. by rewrite Ascii.eqb_refl.
  - by rewrite IH, andb_false_r.
Qed.

(** A string with one ['@'] is cut at it in one way only. *)
Lemma at_unique a b c d :
  all_chars (not_char "@") b = true -> all_chars (not_char "@") d = true ->
  a +:+ String "@" b = c +:+ String "@" d -> b = d.
Proof.
  intros Hb Hd. revert c. induction a as [|x a IH]; intros [|y c] Heq;
    rewrite ?str_app_nil, ?str_app_cons in Heq.
  - congruence.
  - injection Heq as Hy Hbe. subst y b. by rewrite all_chars_not_char_app in Hb.
  - injection Heq as Hx Hde. subst x d. by rewrite all_chars_not_char_app in Hd.
  - injection Heq as Hxy Heq. by apply (IH c).
Qed.

Lemma span_spec p s a b :
  span p s = (a, b) ->
  s = a +:+ b /\ all_chars p a = true /\
  (b = EmptyString \/ exists c r, b = String c r /\ p c = false).
Proof.
  revert a b. induction s as [|c s IH]; intros a b; simpl.
  - intros [= <- <-]. split_and!; [done|done|by left].
  - destruct (p c) eqn:Hc.
    + destruct (span p s) as [a' b'] eqn:E. intros [= <- <-].
      destruct (IH a' b' eq_refl) as (-> & Ha & Hb). simpl. rewrite Hc, Ha. done.
    + intros [= <- <-]. split_and!; [done|done|]. right. by exists c, s.
Qed.

(** * What [findall] returns *)

(** A match of the pattern, cut into its three runs. *)
Definition email_shape (m loc label rest : string) : Prop :=
  m = loc +:+ String "@" (label +:+ String "." rest) /\
  loc <> EmptyString /\ label <> EmptyString /\ rest <> EmptyString /\
  all_chars is_local_char loc = true /\ all_chars is_label_char label = true /\
  all_chars is_rest_char rest = true.

Lemma match_email_sound s m r :
  match_email s = Some (m, r) ->
  (exists loc label rest, email_shape m loc label rest) /\ s = m +:+ r.
Proof.
  unfold match_email.
  destruct (span is_local_char s) as [loc r1] eqn:E1.
  destruct (span_spec _ _ _ _ E1) as (-> & Hl & _).
  destruct (String.eqb_spec loc EmptyString); [done|].
  destruct r1 as [|a r2]; [done|].
  destruct (Ascii.eqb_spec a "@"); [subst a|done]. cbn [negb].
  destruct (span is_label_char r2) as [label r3] eqn:E2.
  destruct (span_spec _ _ _ _ E2) as (-> & Hb & _).
  destruct (String.eqb_spec label EmptyString); [done|].
  destruct r3 as [|d r4]; [done|].
  destruct (Ascii.eqb_spec d "."); [subst d|done]. cbn [negb].
  destruct (span is_rest_char r4) as [rest r5] eqn:E3.
  destruct (span_spec _ _ _ _ E3) as (-> & Hr & _).
  destruct (String.eqb_spec rest EmptyString); [done|].
  intros [= <- <-]. split.
  - exists loc, label, rest. split_and!; done.
  - rewrite <- !str_app_assoc, !str_app_cons, !str_app_nil. done.
Qed.

Lemma match_email_shorter s m r :
  match_email s = Some (m, r) -> String.length r < String.length s.
Proof.
  intros [(loc & label & rest & -> & Hloc & _) ->]%match_email_sound.
  rewrite !str_length_app. destruct loc; [done|]. simpl. lia.
Qed.

(** [findall] with fuel is the same for any fuel of at least the
    length of the text: the scan always terminates within
    [String.length s] steps. *)
Theorem findall_emails_enough_fuel f s :
  String.length s <= f -> findall_emails f s = find_emails s.
Proof. apply findall_fuel_enough, match_email_shorter. Qed.

Lemma findall_emails_sound f s m :
  m ∈ findall_emails f s -> exists loc label rest, email_shape m loc label rest.
Proof.
  apply (findall_fuel_sound _ (fun x => exists loc label rest, email_shape x loc label rest)).
  intros s' x r E.
  by destruct (match_email_sound _ _ _ E) as [? _].
Qed.

(** * [is_real_email] on what [findall] returns *)

Lemma local_char_not_at c : is_local_char c = true -> not_char "@" c = true.
Proof. destruct c as [[] [] [] [] [] [] [] []]; vm_compute; done. Qed.

Lemma label_char_not_at c : is_label_char c = true -> not_char "@" c = true.
Proof. destruct c as [[] [] [] [] [] [] [] []]; vm_compute; done. Qed.

Lemma label_char_not_dot c : is_label_char c = true -> not_char "." c = true.
Proof. destruct c as [[] [] [] [] [] [] [] []]; vm_compute; done. Qed.

Lemma rest_char_not_at c : is_rest_char c = true -> not_char "@" c = true.
Proof. destruct c as [[] [] [] [] [] [] [] []]; vm_compute; done. Qed.

(** Each of the four suffixes starts with a digit. *)
Lemma email_suffixes_digit suf :
  suf ∈ email_suffixes ->
  all_chars (not_char "@") suf = true /\
  has_digit (default EmptyString (head (py_split_char "." suf))) = true.
Proof. intros Hs. repeat (apply elem_of_cons in Hs as [->|Hs]; [done|]). by apply elem_of_nil in Hs. Qed.

Lemma is_real_email_shape m loc label rest :
  email_shape m loc label rest -> is_real_email m = Ok (negb (has_digit label)).
Proof.
  intros (-> & _ & _ & _ & Hl & Hb & Hr).
  assert (Hdom : all_chars (not_char "@") (label +:+ String "." rest) = true).
  { rewrite all_chars_app. simpl.
    rewrite (all_chars_impl _ _ _ label_char_not_at Hb), (all_chars_impl _ _ _ rest_char_not_at Hr).
    done. }
  unfold is_real_email.
  rewrite py_split_char_app by exact (all_chars_impl _ _ _ local_char_not_at Hl).
  rewrite (py_split_char_none _ _ Hdom).
  rewrite py_split_char_app by exact (all_chars_impl _ _ _ label_char_not_dot Hb).
  cbn [default head id].
  destruct (has_digit label) eqn:Hd; [done|].
  match goal with |- context [existsb ?f email_suffixes] => destruct (existsb f email_suffixes) eqn:Hs end; [|done].
  apply existsb_exists in Hs as (suf & Hin%list_elem_of_In & Hend).
  apply py_endswith_spec in Hend as [pre Hpre].
  destruct (email_suffixes_digit suf Hin) as [Hsuf Hdig].
  rewrite str_app_cons, str_app_nil in Hpre.
  apply at_unique in Hpre; [|done|done]. subst suf.
  rewrite py_split_char_app in Hdig by exact (all_chars_impl _ _ _ label_char_not_dot Hb).
  simpl in Hdig. congruence.
Qed.

(** [is_real_email] on what the pattern extracts. *)
Lemma find_emails_real_iff s m :
  m ∈ find_emails s ->
  exists loc label rest, email_shape m loc label rest /\
    is_real_email m = Ok (negb (has_digit label)).
Proof.
  intros Hm. destruct (findall_emails_sound _ _ _ Hm) as (loc & label & rest & Hs).
  exists loc, label, rest. split; [done|]. by apply (is_real_email_shape m loc label rest).
Qed.

(** C11: on every address [findall] extracts, [is_real_email] does not raise
    and rejects exactly the addresses whose first domain label has a
    digit: the four-suffix test ([6.8.6], [1.8.2], [2.0.1], [0.2.6]) never
    changes the outcome, since those addresses already fail the digit
    test. *)
Theorem find_emails_is_real s m :
  m ∈ find_emails s ->
  exists loc label rest, email_shape m loc label rest /\
    is_real_email m = Ok (negb (has_digit label)).
Proof. apply find_emails_real_iff. Qed.

(** * Examples *)

(** [is_real_email("foo@2.6.8.6")] is [False] and
    [is_real_email("jane@example.com")] is [True]. *)
Example is_real_email_examples :
  is_real_email "foo@2.6.8.6" = Ok false /\ is_real_email "jane@example.com" = Ok true.
Proof. split; vm_compute; reflexivity. Qed.

Lemma find_emails_is_real_witness :
  exists loc label rest, email_shape "hello@shop.in" loc label rest /\
    is_real_email "hello@shop.in" = Ok (negb (has_digit label)).
Proof. apply (find_emails_is_real "Mail hello@shop.in today"). vm_compute. left. Defined.

(** the last class of the pattern contains ['.'], so an address that
    ends a sentence is extracted with the full stop, and [is_real_email]
    accepts it; an image name such as [logo@2x.png] is extracted and
    rejected by the digit test. *)
Example find_emails_trailing_dot :
  find_emails "Write to support@my-store.in. Logo: logo@2x.png" =
    ["support@my-store.in."; "logo@2x.png"] /\
  is_real_email "support@my-store.in." = Ok true /\
  is_real_email "logo@2x.png" = Ok false.
Proof. split_and!; vm_compute; reflexivity. Qed.

Lemma findall_emails_enough_fuel_witness :
  findall_emails 100 "Mail: hello@shop.in" = find_emails "Mail: hello@shop.in".
Proof. apply findall_emails_enough_fuel. vm_compute. lia. Defined.
