(* ===== verification/Contact.v ===== *)
(** Contact: [ShopifyScraper.get_contact_details] and
    [extract_contact_with_llm] ([src/app/scraper.py], lines 248-324).

    The homepage is parsed with its script, style and head elements
    removed; its text gives emails (the pattern of [Email.v], filtered
    by [is_real_email]) and phone numbers (the [Platform]'s matcher), and
    its first anchor whose lowercased [href] mentions contact or support
    gives the contact page, whose text is scanned the same way.  Both
    results are Python sets, cut to five elements in the interpreter's
    iteration order; when both are empty the language model is asked
    instead, and its answer is sliced with [[:5]], which raises on a value
    that is neither a list nor a string.  The theorems bound the result,
    say when the resolver raises, and what the emails it returns are. *)

From S2P Require Import Prelude Html Json Web Email.

Definition strip_tags : list string :=
  ["script"; "style"; "noscript"; "svg"; "meta"; "head"; "title"; "link"].

Definition contact_keywords : list string := ["contact"; "support"; "customer-service"].

(** [s.update(xs)] on a set kept in insertion order. *)
Definition set_update (s xs : list string) : list string :=
  foldl (fun acc x => if bool_decide (x ∈ acc) then acc else acc ++ [x]) s xs.

(** [[e for e in email_pattern.findall(text) if is_real_email(e)]]. *)
Fixpoint filter_real (l : list string) : pyres (list string) :=
  match l with
  | [] => Ok []
  | e :: r =>
      is_real_email e ≫= fun b : bool =>
      filter_real r ≫= fun rest =>
      Ok (if b then e :: rest else rest)
  end.

(** The text of a page with the noise elements decomposed. *)
Definition clean_soup `{Platform} (body : string) : node := decompose strip_tags (html_parse body).

Definition page_text `{Platform} (body : string) : string := get_text nl (clean_soup body).

Definition contact_prompt (text : string) : string :=
  "Extract all email addresses and phone numbers from the following text. " +:+
  "Return them as a JSON object with 'emails' and 'phones' fields. " +:+
  "Text:" +:+ nl +:+ text.

(** [{'emails': ..., 'phones': ..., 'contact_page': ...}]: the lists are
    whatever the code put there, JSON values on the model's path. *)
Record contact_details : Type := mk_contact_details {
  emails : json;
  phones : json;
  contact_page : option string
}.

Section WithPlatform.
Context `{Platform}.

(** [extract_contact_with_llm]: the client is built outside the [try]. *)
Definition extract_contact_with_llm (text : string) : pyres (json * json) :=
  if openai_client_ok then
    Ok (match llm_complete (contact_prompt text) 256 with
        | Some content =>
            match json_loads content with
            | Some data =>
                py_try (py_get_or "emails" (JArr []) data ≫= fun e =>
                        py_get_or "phones" (JArr []) data ≫= fun p =>
                        Ok (e, p)) (JArr [], JArr [])
            | None => (JArr [], JArr [])
            end
        | None => (JArr [], JArr [])
        end)
  else Raise OpenAIError.

(** Lines 314-324: the five-element cut, and the model when both sets are
    empty; [fallback] is [contact_text or all_text]. *)
Definition contact_finish (es ps : list string) (page : option string) (fallback : string)
    : pyres contact_details :=
  let el := py_take 5 (set_iter es) in
  let pl := py_take 5 (set_iter ps) in
  match el, pl with
  | [], [] =>
      extract_contact_with_llm fallback ≫= fun ep =>
      py_slice slices_hashable 5 ep.1 ≫= fun e5 =>
      py_slice slices_hashable 5 ep.2 ≫= fun p5 =>
      Ok {| emails := e5; phones := p5; contact_page := page |}
  | _, _ => Ok {| emails := JArr (JStr <$> el); phones := JArr (JStr <$> pl); contact_page := page |}
  end.

Context (self : ShopifyScraper).

(** The first anchor whose lowercased [href] has a contact keyword. *)
Definition contact_link (soup : node) : option string :=
  (fun a => resolve_href (base_url self) (py_lower (href_of a))) <$>
    List.find (fun a => existsb (fun x => py_contains x (py_lower (href_of a))) contact_keywords)
              (anchors soup).

(** Lines 284-298: emails, phones, contact page and text of the homepage. *)
Definition homepage_contacts (html : string)
    : pyres (list string * list string * option string * string) :=
  if py_truthy html then
    let soup := clean_soup html in
    let all_text := get_text nl soup in
    filter_real (find_emails all_text) ≫= fun es =>
    Ok (set_update [] es, set_update [] (phone_matches all_text), contact_link soup, all_text)
  else Ok ([], [], None, EmptyString).

(** Lines 299-313: the contact page, inside [try ... except: pass];
    [contact_text] is assigned before the update that could raise. *)
Definition contact_page_update (es ps : list string) (r : option response)
    : list string * list string * string :=
  match ok_body r with
  | Some body =>
      let text := page_text body in
      match filter_real (find_emails text) with
      | Ok es' => (set_update es es', set_update ps (phone_matches text), text)
      | Raise _ => (es, ps, text)
      end
  | None => (es, ps, EmptyString)
  end.

(** [get_contact_details]; a [Raise] is an exception that leaves it. *)
Definition get_contact_details : Fetch (pyres contact_details) :=
  html ← fetch_homepage_html self;
  match homepage_contacts html with
  | Raise e => mret (Raise e)
  | Ok (es, ps, page, all_text) =>
      match page with
      | Some url =>
          if py_truthy url then
            r ← requests_get url;
            let '(es2, ps2, contact_text) := contact_page_update es ps r in
            mret (contact_finish es2 ps2 page (if py_truthy contact_text then contact_text else all_text))
          else mret (contact_finish es ps page all_text)
      | None => mret (contact_finish es ps page all_text)
      end
  end.
End WithPlatform.

(** * Sets *)

Lemma set_update_elem s xs x : x ∈ set_update s xs <-> x ∈ s \/ x ∈ xs.
Proof.
  unfold set_update. revert s. induction xs as [|y xs IH]; intros s; simpl.
  - set_solver.
  - rewrite IH. case_bool_decide; set_solver.
Qed.

Lemma set_update_NoDup s xs : NoDup s -> NoDup (set_update s xs).
Proof.
  unfold set_update. revert s. induction xs as [|y xs IH]; intros s Hs; simpl; [done|].
  apply IH. case_bool_decide; [done|].
  apply NoDup_app. split_and!; [done| |by apply NoDup_singleton]. set_solver.
Qed.

(** * The email filter never raises *)

(** [is_real_email(e)] returned [True]. *)
Definition accepts_email (m : string) : bool :=
  match is_real_email m with Ok b => b | Raise _ => false end.

(** on the addresses the pattern extracts, the comprehension with
    [is_real_email] never raises and keeps exactly those it accepts. *)
Theorem filter_real_find_emails t :
  filter_real (find_emails t) = Ok (filter (fun m => accepts_email m = true) (find_emails t)).
Proof.
  assert (Hall : forall m, m ∈ find_emails t -> exists b, is_real_email m = Ok b).
  { intros m Hm. destruct (find_emails_real_iff t m Hm) as (loc & label & rest & _ & Hr). by eexists. }
  induction (find_emails t) as [|m l IH]; [done|].
  destruct (Hall m (list_elem_of_here _ _)) as [b Hb].
  assert (Ha : accepts_email m = b) by (unfold accepts_email; by rewrite Hb).
  cbn [filter_real]. rewrite Hb, pyres_bind_Ok.
  rewrite IH by (intros y Hy; apply Hall; by right).
  rewrite pyres_bind_Ok, filter_cons, Ha.
  destruct b; [rewrite decide_True by done | rewrite decide_False by done]; done.
Qed.

(** * What [get_contact_details] returns *)

Section Properties.
Context `{Platform}.

Lemma take5_bounded (l : list string) :
  exists n, py_len (JArr (JStr <$> py_take 5 l)) = Some n /\ n <= 5.
Proof. eexists. split; [reflexivity|]. rewrite length_fmap. unfold py_take. rewrite length_take. lia. Qed.

Lemma contact_finish_bounded es ps page fb d :
  contact_finish es ps page fb = Ok d ->
  (exists n, py_len (emails d) = Some n /\ n <= 5) /\
  (exists n, py_len (phones d) = Some n /\ n <= 5).
Proof.
  pose proof (take5_bounded (set_iter es)) as Hes. pose proof (take5_bounded (set_iter ps)) as Hps.
  unfold contact_finish.
  destruct (py_take 5 (set_iter es)) as [|e el], (py_take 5 (set_iter ps)) as [|p pl];
    try (intros [= <-]; cbn [emails phones]; by split).
  destruct (extract_contact_with_llm fb) as [[ej pj]|]; [|done]. simpl.
  destruct (py_slice slices_hashable 5 ej) as [e5|] eqn:E5; [|done]. simpl.
  destruct (py_slice slices_hashable 5 pj) as [p5|] eqn:P5; [|done]. simpl.
  intros [= <-]. split; [by apply (py_slice_bounded slices_hashable 5 ej) | by apply (py_slice_bounded slices_hashable 5 pj)].
Qed.

(** A slice raises [TypeError], or [KeyError] on a dict from Python 3.12. *)
Lemma py_slice_raise hs n v e :
  py_slice hs n v = Raise e -> e = TypeError \/ (e = KeyError /\ hs = true).
Proof. destruct v; simpl; try (intros [= <-]; by left). destruct hs; intros [= <-]; [by right|by left]. Qed.

Lemma extract_contact_with_llm_raise fb e : extract_contact_with_llm fb = Raise e -> e = OpenAIError.
Proof. unfold extract_contact_with_llm. destruct openai_client_ok; congruence. Qed.

Lemma contact_finish_raise es ps page fb e :
  contact_finish es ps page fb = Raise e ->
  e = OpenAIError \/ e = TypeError \/ (e = KeyError /\ slices_hashable = true).
Proof.
  unfold contact_finish.
  destruct (py_take 5 (set_iter es)), (py_take 5 (set_iter ps)); try (intros ?; discriminate).
  destruct (extract_contact_with_llm fb) as [[ej pj]|e'] eqn:Ex; simpl.
  - destruct (py_slice slices_hashable 5 ej) eqn:E1; simpl.
    + destruct (py_slice slices_hashable 5 pj) eqn:E2; simpl; [done|]. intros [= <-]. right. by eapply py_slice_raise.
    + intros [= <-]. right. by eapply py_slice_raise.
  - intros [= <-]. left. by eapply extract_contact_with_llm_raise.
Qed.
End Properties.

Section Resolver.
Context `{Platform} (self : ShopifyScraper).

Lemma homepage_contacts_ok html :
  exists es ps page t, homepage_contacts self html = Ok (es, ps, page, t).
Proof.
  unfold homepage_contacts. destruct (py_truthy html); [|eauto].
  rewrite filter_real_find_emails, pyres_bind_Ok. eauto.
Qed.

(** Whatever happens before, the result is the one of [contact_finish]. *)
Lemma get_contact_details_finish :
  exists es ps page fb, result_of (get_contact_details self) = contact_finish es ps page fb.
Proof.
  unfold get_contact_details. rewrite result_of_bind. cbv beta.
  destruct (homepage_contacts_ok (result_of (fetch_homepage_html self))) as (es & ps & page & t & ->).
  destruct page as [url|]; [destruct (py_truthy url)|].
  - rewrite result_of_bind. cbv beta.
    destruct (contact_page_update es ps (result_of (requests_get url))) as [[es2 ps2] ct].
    rewrite result_of_ret. eauto.
  - rewrite result_of_ret. eauto.
  - rewrite result_of_ret. eauto.
Qed.

(** C8: the email and phone lists [get_contact_details] returns have at
    most five entries each (five characters when the model returns a
    string), whichever path produced them. *)
Theorem get_contact_details_bounded d :
  result_of (get_contact_details self) = Ok d ->
  (exists n, py_len (emails d) = Some n /\ n <= 5) /\
  (exists n, py_len (phones d) = Some n /\ n <= 5).
Proof.
  destruct get_contact_details_finish as (es & ps & page & fb & ->).
  apply contact_finish_bounded.
Qed.

(** The exceptions that can leave [get_contact_details]. *)
Lemma get_contact_details_raise_cases e :
  result_of (get_contact_details self) = Raise e ->
  e = OpenAIError \/ e = TypeError \/ (e = KeyError /\ slices_hashable = true).
Proof.
  destruct get_contact_details_finish as (es & ps & page & fb & ->).
  apply contact_finish_raise.
Qed.

(** C10: the exceptions that escape [get_contact_details] all come from
    the language-model path: [OpenAIError] when the client cannot be
    built, and, when the model's ["emails"] or ["phones"] is neither a
    list nor a string, [TypeError], or [KeyError] for a dict under
    Python 3.12 and later; the email filter never raises. *)
Theorem get_contact_details_raise e :
  result_of (get_contact_details self) = Raise e ->
  e = OpenAIError \/ e = TypeError \/ (e = KeyError /\ slices_hashable = true).
Proof. apply get_contact_details_raise_cases. Qed.
End Resolver.

(** * Concrete stores *)

Definition bare_html : string := "<p>Handmade candles</p>".

(** A homepage with no contact data; the model answers
    [{"emails": null, "phones": []}]. *)
Definition null_llm_store : Platform :=
  table_platform
    [("https://c.test", mk_response 200 bare_html)]
    [(bare_html, NElem "[document]" [] [NElem "p" [] [NText "Handmade candles"]])]
    (fun _ => Some (JObj [("emails", JNull); ("phones", JArr [])]))
    (fun _ => []) true (fun _ _ => Some "{...}").

(** The same homepage, with no API key configured. *)
Definition no_key_store : Platform :=
  table_platform
    [("https://c.test", mk_response 200 bare_html)]
    [(bare_html, NElem "[document]" [] [NElem "p" [] [NText "Handmade candles"]])]
    (fun _ => None) (fun _ => []) false (fun _ _ => None).

(** on a homepage without contact data, [get_contact_details] raises
    [TypeError] when the model returns [null] for ["emails"] ([None[:5]]),
    and [OpenAIError] when no API key is configured: the exception leaves
    the resolver instead of degrading to empty lists. *)
Example contact_llm_fallback_raises :
  result_of (@get_contact_details null_llm_store (mk_scraper "https://c.test")) = Raise TypeError /\
  result_of (@get_contact_details no_key_store (mk_scraper "https://c.test")) = Raise OpenAIError.
Proof. split; vm_compute; reflexivity. Qed.

(** The same homepage; the model answers [{"emails": {}, "phones": []}],
    on Python 3.12 or later. *)
Definition dict_llm_store : Platform :=
  table_platform
    [("https://c.test", mk_response 200 bare_html)]
    [(bare_html, NElem "[document]" [] [NElem "p" [] [NText "Handmade candles"]])]
    (fun _ => Some (JObj [("emails", JObj []); ("phones", JArr [])]))
    (fun _ => []) true (fun _ _ => Some "{...}").

Lemma get_contact_details_raise_witness :
  KeyError = OpenAIError \/ KeyError = TypeError \/ (KeyError = KeyError /\ @slices_hashable dict_llm_store = true).
Proof.
  apply (@get_contact_details_raise dict_llm_store (mk_scraper "https://c.test") KeyError).
  vm_compute. reflexivity.
Defined.

Definition many_html : string := "<footer>...</footer>".

Definition many_text : string :=
  "a@shop.in b@shop.in c@shop.in d@shop.in e@shop.in f@shop.in g@shop.in".

(** A footer with seven addresses. *)
Definition many_store : Platform :=
  table_platform
    [("https://m.test", mk_response 200 many_html)]
    [(many_html, NElem "[document]" [] [NElem "footer" [] [NText many_text]])]
    (fun _ => None) (fun _ => []) false (fun _ _ => None).

Lemma get_contact_details_bounded_witness :
  (exists n, n = 5 /\ n <= 5) /\ (exists n, n = 0 /\ n <= 5).
Proof.
  pose proof (@get_contact_details_bounded many_store (mk_scraper "https://m.test")
               {| emails := JArr (JStr <$> ["a@shop.in"; "b@shop.in"; "c@shop.in"; "d@shop.in"; "e@shop.in"]);
                  phones := JArr []; contact_page := None |}) as Hb.
  destruct Hb as [[n [Hn Hle]] [m [Hm Hle']]]; [vm_compute; reflexivity|].
  vm_compute in Hn, Hm. injection Hn as <-. injection Hm as <-. split; eauto.
Defined.

(** * The shape of the contact details *)

(** An address the pattern extracted and [is_real_email] accepted. *)
Definition extracted_email (e : string) : Prop :=
  accepts_email e = true /\ exists loc label rest, email_shape e loc label rest.

Lemma filter_real_extracted t es :
  filter_real (find_emails t) = Ok es -> Forall extracted_email es.
Proof.
  rewrite filter_real_find_emails. intros [= <-]. apply Forall_forall.
  intros e (Ha & He)%list_elem_of_filter. split; [done|].
  destruct (find_emails_real_iff t e He) as (loc & label & rest & Hs & _). eauto.
Qed.

Lemma set_update_Forall (P : string -> Prop) s xs : Forall P s -> Forall P xs -> Forall P (set_update s xs).
Proof. rewrite !Forall_forall. intros Hs Hxs x [?|?]%set_update_elem; auto. Qed.

(** What the sets hold before the cut: distinct phones, distinct
    extracted addresses. *)
Definition contact_sets_ok (es ps : list string) : Prop :=
  NoDup es /\ NoDup ps /\ Forall extracted_email es.

Lemma contact_sets_update es ps es' ps' :
  contact_sets_ok es ps -> Forall extracted_email es' ->
  contact_sets_ok (set_update es es') (set_update ps ps').
Proof.
  intros (Hes & Hps & Hx) Hx'. split_and!; [by apply set_update_NoDup..|by apply set_update_Forall].
Qed.

Section Typed.
Context `{Platform} (self : ShopifyScraper).

Lemma homepage_contacts_sets html es ps page t :
  homepage_contacts self html = Ok (es, ps, page, t) -> contact_sets_ok es ps.
Proof.
  unfold homepage_contacts. destruct (py_truthy html).
  - destruct (filter_real (find_emails _)) as [l|] eqn:E; [|done]. cbn. intros [= <- <- _ _].
    apply (contact_sets_update [] []); [split_and!; constructor|]. by eapply filter_real_extracted.
  - intros [= <- <- _ _]. split_and!; constructor.
Qed.

Lemma contact_page_update_sets es ps r :
  contact_sets_ok es ps ->
  contact_sets_ok (contact_page_update es ps r).1.1 (contact_page_update es ps r).1.2.
Proof.
  intros Hok. unfold contact_page_update. destruct (ok_body r) as [body|]; [|done].
  destruct (filter_real (find_emails _)) as [l|] eqn:E; [|done]. cbn.
  apply contact_sets_update; [done|]. by eapply filter_real_extracted.
Qed.

(** [get_contact_details] ends in [contact_finish] on well-formed sets. *)
Lemma get_contact_details_finish_sets :
  exists es ps page fb, result_of (get_contact_details self) = contact_finish es ps page fb /\
                        contact_sets_ok es ps.
Proof.
  unfold get_contact_details. rewrite result_of_bind. cbv beta.
  destruct (homepage_contacts_ok self (result_of (fetch_homepage_html self))) as (es & ps & page & t & E).
  pose proof (homepage_contacts_sets _ _ _ _ _ E) as Hok. rewrite E.
  destruct page as [url|]; [destruct (py_truthy url)|];
    [|rewrite result_of_ret; by eexists es, ps, _, _..].
  rewrite result_of_bind. cbv beta.
  pose proof (contact_page_update_sets es ps (result_of (requests_get url)) Hok) as Hok2.
  destruct (contact_page_update es ps (result_of (requests_get url))) as [[es2 ps2] ct].
  rewrite result_of_ret. cbn in Hok2. by eexists es2, ps2, _, _.
Qed.
End Typed.

(** A set cut to five in the interpreter's order keeps its elements
    distinct and its property. *)
Lemma take5_set `{Platform} (P : string -> Prop) s :
  NoDup s -> Forall P s -> NoDup (py_take 5 (set_iter s)) /\ Forall P (py_take 5 (set_iter s)).
Proof.
  intros Hnd HP. pose proof (set_iter_perm s) as Hperm. unfold py_take.
  split.
  - eapply sublist_NoDup; [|apply sublist_take]. by rewrite Hperm.
  - apply Forall_take. by rewrite Hperm.
Qed.

(** The two shapes of a result: lists of distinct strings (the emails
    extracted real addresses), one of them non-empty, from the pages; or
    the model's two values cut with [[:5]]. *)
Definition contact_typed `{Platform} (fb : string) (d : contact_details) : Prop :=
  (exists el pl, emails d = JArr (JStr <$> el) /\ phones d = JArr (JStr <$> pl) /\
     NoDup el /\ NoDup pl /\ Forall extracted_email el /\ (el <> [] \/ pl <> [])) \/
  (exists ej pj, extract_contact_with_llm fb = Ok (ej, pj) /\
     py_slice slices_hashable 5 ej = Ok (emails d) /\ py_slice slices_hashable 5 pj = Ok (phones d)).

Lemma contact_finish_typed `{Platform} es ps page fb d :
  contact_sets_ok es ps -> contact_finish es ps page fb = Ok d ->
  contact_page d = page /\ contact_typed fb d.
Proof.
  intros (Hes & Hps & Hx). destruct (take5_set _ es Hes Hx) as [Hel Hxl].
  destruct (take5_set (fun _ => True) ps Hps (Forall_true _ _ (fun _ => I))) as [Hpl _].
  unfold contact_finish, contact_typed.
  remember (py_take 5 (set_iter es)) as el eqn:Ee. remember (py_take 5 (set_iter ps)) as pl eqn:Ep.
  assert (Hlists : el <> [] \/ pl <> [] ->
            Ok {| emails := JArr (JStr <$> el); phones := JArr (JStr <$> pl); contact_page := page |} = Ok d ->
            contact_page d = page /\ contact_typed fb d).
  { intros Hne [= <-]. split; [done|]. left. by exists el, pl. }
  destruct el as [|e el], pl as [|p pl]; try (apply Hlists; (by left) || (by right)).
  destruct (extract_contact_with_llm fb) as [[ej pj]|] eqn:Ex; [|done]. cbn.
  destruct (py_slice slices_hashable 5 ej) as [e5|] eqn:E5; [|done]. cbn.
  destruct (py_slice slices_hashable 5 pj) as [p5|] eqn:P5; [|done]. cbn.
  intros [= <-]. split; [done|]. right. by exists ej, pj.
Qed.

(** C9: what [get_contact_details] returns has one of two shapes: either
    its email and phone entries are JSON lists of distinct strings, at
    least one of them non-empty, and every email an address the pattern
    extracted and [is_real_email] accepted; or they are the model's
    ["emails"] and ["phones"] values cut with [[:5]], which need not be
    lists. *)
Theorem get_contact_details_typed `{Platform} self d :
  result_of (get_contact_details self) = Ok d -> exists fb, contact_typed fb d.
Proof.
  destruct (get_contact_details_finish_sets self) as (es & ps & page & fb & -> & Hok).
  intros Hd. exists fb. by apply (contact_finish_typed es ps page fb d Hok Hd).
Qed.

Lemma get_contact_details_typed_witness :
  exists fb, @contact_typed many_store fb
    {| emails := JArr (JStr <$> ["a@shop.in"; "b@shop.in"; "c@shop.in"; "d@shop.in"; "e@shop.in"]);
       phones := JArr []; contact_page := None |}.
Proof.
  apply (@get_contact_details_typed many_store (mk_scraper "https://m.test")).
  vm_compute. reflexivity.
Defined.
