(* ===== verification/PyDict.v ===== *)
(** PyDict: Python's [dict] with string keys as the resolvers use it
    ([handles[platform] = href], [if key not in links: links[key] = url]):
    an association list in insertion order, where assigning an existing
    key replaces its value in place.  [to_gmap] forgets the order; the
    refinement lemmas show that assignment and lookup are stdpp's
    [insert] and [lookup] on the keys, as long as the keys are distinct,
    which every assignment preserves. *)

From S2P Require Import Prelude.
From stdpp Require Import gmap.

Definition pydict (V : Type) : Type := list (string * V).

Section PyDict.
Context {V : Type}.

(** [d[k] = v]. *)
Fixpoint dict_set (k : string) (v : V) (d : pydict V) : pydict V :=
  match d with
  | [] => [(k, v)]
  | (k', v') :: r => if String.eqb k' k then (k, v) :: r else (k', v') :: dict_set k v r
  end.

(** [d.get(k)]. *)
Definition dict_get (k : string) (d : pydict V) : option V :=
  snd <$> List.find (fun kv => String.eqb kv.1 k) d.

(** [k in d]. *)
Definition dict_mem (k : string) (d : pydict V) : bool :=
  match dict_get k d with Some _ => true | None => false end.

(** The map a dict denotes. *)
Definition to_gmap (d : pydict V) : gmap string V := list_to_map d.

(** The invariant: no key twice. *)
Definition dict_wf (d : pydict V) : Prop := NoDup d.*1.

Lemma dict_get_cons k k' v d :
  dict_get k ((k', v) :: d) = if String.eqb k' k then Some v else dict_get k d.
Proof. unfold dict_get. simpl. by destruct (String.eqb k' k). Qed.

Lemma dict_get_set k v d k2 :
  dict_get k2 (dict_set k v d) = if String.eqb k k2 then Some v else dict_get k2 d.
Proof.
  induction d as [|[k' v'] d IH]; simpl.
  - rewrite dict_get_cons. by destruct (String.eqb k k2).
  - destruct (String.eqb_spec k' k) as [->|Hne].
    + rewrite !dict_get_cons. by destruct (String.eqb k k2).
    + rewrite !dict_get_cons, IH.
      destruct (String.eqb_spec k' k2), (String.eqb_spec k k2); congruence.
Qed.

Lemma dict_set_keys k v d : (dict_set k v d).*1 = if bool_decide (k ∈ d.*1) then d.*1 else d.*1 ++ [k].
Proof.
  induction d as [|[k' v'] d IH]; [done|]. cbn [dict_set].
  destruct (String.eqb_spec k' k) as [->|Hne].
  - rewrite !fmap_cons. cbn [fst]. rewrite bool_decide_eq_true_2 by set_solver. done.
  - rewrite !fmap_cons, IH. cbn [fst].
    case_bool_decide; case_bool_decide; set_solver.
Qed.

Lemma dict_set_wf k v d : dict_wf d -> dict_wf (dict_set k v d).
Proof.
  unfold dict_wf. intros Hnd. rewrite dict_set_keys. case_bool_decide; [done|].
  apply NoDup_app. split_and!; [done| |by apply NoDup_singleton]. set_solver.
Qed.

Lemma dict_get_gmap d k : dict_wf d -> dict_get k d = to_gmap d !! k.
Proof.
  unfold dict_wf, to_gmap. induction d as [|[k' v'] d IH]; simpl; intros Hnd.
  - by rewrite lookup_empty.
  - inversion Hnd as [|? ? Hk Hnd']; subst. rewrite dict_get_cons.
    destruct (String.eqb_spec k' k) as [->|Hne].
    + by rewrite lookup_insert_eq.
    + rewrite lookup_insert_ne by done. by apply IH.
Qed.

(** Assignment is [insert] on the denoted map. *)
Lemma dict_set_gmap k v d : dict_wf d -> to_gmap (dict_set k v d) = <[k:=v]> (to_gmap d).
Proof.
  intros Hwf. apply map_eq. intros k2.
  rewrite <- dict_get_gmap by (by apply dict_set_wf).
  rewrite dict_get_set, lookup_insert.
  destruct (String.eqb_spec k k2) as [->|Hne].
  - by rewrite decide_True.
  - rewrite decide_False by done. by apply dict_get_gmap.
Qed.
End PyDict.
