(* ===== verification/Social.v ===== *)
(** Social: [ShopifyScraper.get_social_handles] and
    [get_important_links] ([src/app/scraper.py], lines 223-246 and
    388-411).  Both scan the homepage anchors once and fill a Python dict:
    the social handles overwrite (the last matching anchor wins), the
    important links keep the first match of each category.  The theorems
    give each entry of the result as a search over the anchors, and the
    dicts' invariant. *)

From S2P Require Import Prelude Html Json Web PyDict.

Definition social_domains : list (string * string) :=
  [("instagram", "instagram.com"); ("facebook", "facebook.com"); ("tiktok", "tiktok.com");
   ("twitter", "twitter.com"); ("youtube", "youtube.com"); ("pinterest", "pinterest.com");
   ("linkedin", "linkedin.com"); ("snapchat", "snapchat.com"); ("whatsapp", "wa.me");
   ("telegram", "t.me")].

(** The inner loop for one anchor: [for platform, domain in
    social_domains.items(): if domain in href: handles[platform] = href]. *)
Definition social_step (handles : pydict string) (href : string) : pydict string :=
  foldl (fun h pd => if py_contains pd.2 href then dict_set pd.1 href h else h) handles social_domains.

Definition link_keywords : list (string * list string) :=
  [("order_tracking", ["track"; "tracking"; "order status"]); ("contact_us", ["contact"]);
   ("blog", ["blog"]); ("support", ["support"; "help"]);
   ("returns", ["return"; "refund"; "exchange"]); ("policy", ["policy"]);
   ("faq", ["faq"; "questions"])].

(** [any(kw in text or kw in href.lower() for kw in kw_list)]. *)
Definition link_matches (kws : list string) (a : node) : bool :=
  existsb (fun kw => py_contains kw (py_lower (text_of a)) || py_contains kw (py_lower (href_of a))) kws.

(** The inner loop for one anchor: the first match of a category fills it. *)
Definition links_step (base : string) (links : pydict string) (a : node) : pydict string :=
  foldl (fun l kk =>
           if link_matches kk.2 a then
             let url := resolve_href base (href_of a) in
             if dict_mem kk.1 l then l else dict_set kk.1 url l
           else l)
        links link_keywords.

Section WithPlatform.
Context `{Platform} (self : ShopifyScraper).

(** [get_social_handles]. *)
Definition get_social_handles : Fetch (pydict string) :=
  html ← fetch_homepage_html self;
  mret (if py_truthy html then foldl social_step [] (href_of <$> anchors (html_parse html)) else []).

(** [get_important_links]. *)
Definition get_important_links : Fetch (pydict string) :=
  html ← fetch_homepage_html self;
  mret (if py_truthy html then foldl (links_step (base_url self)) [] (anchors (html_parse html)) else []).
End WithPlatform.

(** * Properties *)

(** Whether some entry of the table [tbl] for key [k] passes [test]. *)
Definition key_hit {B} (tbl : list (string * B)) (test : B -> bool) (k : string) : bool :=
  existsb (fun kb => String.eqb kb.1 k && test kb.2) tbl.

(** Whether some entry of [doms] for platform [p] has its domain in [href]. *)
Definition platform_hit (doms : list (string * string)) (p href : string) : bool :=
  key_hit doms (fun d => py_contains d href) p.

(** One anchor sets [p] to its [href] exactly when one of [p]'s domains
    occurs in it; other keys are untouched. *)
Lemma key_hit_cons {B} k' (b' : B) tbl test k :
  key_hit ((k', b') :: tbl) test k = (String.eqb k' k && test b') || key_hit tbl test k.
Proof. done. Qed.

Lemma social_step_get_gen doms h href p :
  dict_get p (foldl (fun h pd => if py_contains pd.2 href then dict_set pd.1 href h else h) h doms) =
  if platform_hit doms p href then Some href else dict_get p h.
Proof.
  revert h. induction doms as [|[pl dom] doms IH]; intros h; [done|].
  unfold platform_hit. rewrite key_hit_cons. cbn [foldl fst snd]. rewrite IH. fold (platform_hit doms p href).
  destruct (platform_hit doms p href); [by rewrite orb_true_r|rewrite orb_false_r].
  destruct (py_contains dom href); [|by rewrite andb_false_r].
  rewrite dict_get_set, andb_true_r. by destruct (String.eqb pl p).
Qed.

Lemma social_step_wf h href : dict_wf h -> dict_wf (social_step h href).
Proof.
  unfold social_step. generalize social_domains. intros doms. revert h.
  induction doms as [|[pl dom] doms IH]; intros h Hh; [done|]. simpl.
  apply IH. destruct (py_contains dom href); [by apply dict_set_wf|done].
Qed.

(** The loop over the anchors: the value of [p] is the last [href] that
    hits it, if any. *)
Lemma social_loop_get h hrefs p :
  dict_get p (foldl social_step h hrefs) =
  match last (filter (fun href => platform_hit social_domains p href = true) hrefs) with
  | Some x => Some x
  | None => dict_get p h
  end.
Proof.
  induction hrefs as [|x hrefs IH] using rev_ind; [done|].
  rewrite foldl_app, filter_app. cbn [foldl]. unfold social_step at 1.
  rewrite social_step_get_gen, IH, filter_cons, filter_nil.
  destruct (platform_hit social_domains p x) eqn:E.
  - by rewrite decide_True, last_snoc by done.
  - by rewrite decide_False, app_nil_r by congruence.
Qed.

Lemma social_loop_wf h hrefs : dict_wf h -> dict_wf (foldl social_step h hrefs).
Proof. revert h. induction hrefs; intros h Hh; simpl; [done|]. by apply IHhrefs, social_step_wf. Qed.

Lemma key_hit_unique {B} (tbl : list (string * B)) test k b :
  NoDup tbl.*1 -> (k, b) ∈ tbl -> key_hit tbl test k = test b.
Proof.
  induction tbl as [|[k' b'] tbl IH]; [by intros _ ?%not_elem_of_nil|].
  rewrite fmap_cons, key_hit_cons. intros [Hnot Hnd]%NoDup_cons [[= -> ->]|Hin]%elem_of_cons.
  - rewrite String.eqb_refl.
    enough (key_hit tbl test k' = false) as -> by apply orb_false_r.
    apply not_true_is_false. intros (kb & Hkb & Hh)%existsb_exists.
    apply andb_prop in Hh as [Hk%String.eqb_eq _]. subst k'.
    apply Hnot, list_elem_of_fmap. exists kb. by rewrite list_elem_of_In.
  - rewrite IH by done.
    destruct (String.eqb_spec k' k); [|done]. subst k'.
    destruct Hnot. apply list_elem_of_fmap. by exists (k, b).
Qed.

(** The platforms have distinct names, so a hit of [p] is a hit of its domain. *)
Lemma platform_hit_social p d href :
  (p, d) ∈ social_domains -> platform_hit social_domains p href = py_contains d href.
Proof.
  intros Hin. apply (key_hit_unique _ (fun d => py_contains d href)); [|done].
  vm_compute. repeat constructor; set_solver.
Qed.

(** Whether anchor [a] matches a keyword of category [k]. *)
Definition link_hit (k : string) (a : node) : bool :=
  key_hit link_keywords (fun kws => link_matches kws a) k.

(** One anchor fills [k] with its resolved URL when [k] is still empty and
    one of [k]'s keywords matches it. *)
Lemma links_step_get base l a k :
  dict_get k (links_step base l a) =
  match dict_get k l with
  | Some v => Some v
  | None => if link_hit k a then Some (resolve_href base (href_of a)) else None
  end.
Proof.
  unfold links_step, link_hit. generalize link_keywords as tbl. intros tbl. revert l.
  induction tbl as [|[k' kws] tbl IH]; intros l; cbn [foldl fst snd].
  - by destruct (dict_get k l).
  - rewrite IH, key_hit_cons. unfold dict_mem.
    destruct (link_matches kws a); [|by rewrite andb_false_r].
    rewrite andb_true_r. destruct (dict_get k' l) as [v'|] eqn:E.
    + destruct (String.eqb_spec k' k) as [->|]; [by rewrite E|done].
    + rewrite dict_get_set. destruct (String.eqb_spec k' k) as [->|]; [by rewrite E|done].
Qed.

Lemma links_step_wf base l a : dict_wf l -> dict_wf (links_step base l a).
Proof.
  unfold links_step. generalize link_keywords as tbl. intros tbl. revert l.
  induction tbl as [|[k' kws] tbl IH]; intros l Hl; [done|]. cbn [foldl fst snd].
  apply IH. destruct (link_matches kws a), (dict_mem k' l); try done. by apply dict_set_wf.
Qed.

(** The loop over the anchors: [k] holds the URL of the first anchor that
    hits it. *)
Lemma links_loop_get base l anchs k :
  dict_get k (foldl (links_step base) l anchs) =
  match dict_get k l with
  | Some v => Some v
  | None => (fun a => resolve_href base (href_of a)) <$> List.find (link_hit k) anchs
  end.
Proof.
  revert l. induction anchs as [|a anchs IH]; intros l; simpl.
  - by destruct (dict_get k l).
  - rewrite IH, links_step_get. destruct (dict_get k l); [done|].
    by destruct (link_hit k a).
Qed.

Lemma links_loop_wf base l anchs : dict_wf l -> dict_wf (foldl (links_step base) l anchs).
Proof. revert l. induction anchs; intros l Hl; simpl; [done|]. by apply IHanchs, links_step_wf. Qed.

(** The categories have distinct names, so a hit of [k] is a match of its keywords. *)
Lemma link_hit_keywords k kws a :
  (k, kws) ∈ link_keywords -> link_hit k a = link_matches kws a.
Proof.
  intros Hin. apply (key_hit_unique _ (fun kws => link_matches kws a)); [|done].
  vm_compute. repeat constructor; set_solver.
Qed.

Section Properties.
Context `{Platform} (self : ShopifyScraper).

(** The homepage the resolvers work on, and the anchors they scan. *)
Definition social_home : string := default EmptyString (ok_body (http_get (base_url self))).

Definition home_anchors : list node :=
  if py_truthy social_home then anchors (html_parse social_home) else [].

Lemma result_of_get_social_handles :
  result_of (get_social_handles self) = foldl social_step [] (href_of <$> home_anchors).
Proof.
  unfold get_social_handles, home_anchors. rewrite result_of_bind, result_of_fetch_homepage_html.
  cbv beta. rewrite result_of_ret. fold social_home. by destruct (py_truthy social_home).
Qed.

Lemma result_of_get_important_links :
  result_of (get_important_links self) = foldl (links_step (base_url self)) [] home_anchors.
Proof.
  unfold get_important_links, home_anchors. rewrite result_of_bind, result_of_fetch_homepage_html.
  cbv beta. rewrite result_of_ret. fold social_home. by destruct (py_truthy social_home).
Qed.

(** C27: [get_social_handles] returns a dict with distinct keys which, as a
    finite map, sends each platform to the last homepage [href] that
    contains the platform's domain, and has no entry for a platform none
    contains. *)
Theorem get_social_handles_spec p d :
  (p, d) ∈ social_domains ->
  dict_wf (result_of (get_social_handles self)) /\
  to_gmap (result_of (get_social_handles self)) !! p =
    last (filter (fun href => py_contains d href = true) (href_of <$> home_anchors)).
Proof.
  intros Hin. rewrite result_of_get_social_handles.
  assert (Hwf : dict_wf (foldl social_step [] (href_of <$> home_anchors)))
    by (apply social_loop_wf, NoDup_nil_2).
  split; [done|]. rewrite <- dict_get_gmap by done. rewrite social_loop_get.
  rewrite (list_filter_iff _ (fun href => py_contains d href = true)).
  - by destruct (last _).
  - intros href. by rewrite (platform_hit_social p d href Hin).
Qed.

(** every entry of the social handles is a known platform, with an
    [href] that contains that platform's domain. *)
Theorem get_social_handles_keys p v :
  dict_get p (result_of (get_social_handles self)) = Some v ->
  exists d, (p, d) ∈ social_domains /\ py_contains d v = true.
Proof.
  rewrite result_of_get_social_handles, social_loop_get.
  destruct (last _) as [x|] eqn:E; [intros [= <-]|done].
  apply last_Some_elem_of, list_elem_of_filter in E as [Hhit _].
  apply existsb_exists in Hhit as ([p' d] & Hpd & Hh). apply andb_prop in Hh as [Hp%String.eqb_eq Hd].
  simpl in *. subst p'. exists d. split; [by apply list_elem_of_In|done].
Qed.

(** C28: [get_important_links] returns a dict with distinct keys which, as a
    finite map, sends each category to the URL, resolved against the base,
    of the first homepage anchor whose lowered text or [href] contains one
    of the category's keywords. *)
Theorem get_important_links_spec k kws :
  (k, kws) ∈ link_keywords ->
  dict_wf (result_of (get_important_links self)) /\
  to_gmap (result_of (get_important_links self)) !! k =
    (fun a => resolve_href (base_url self) (href_of a)) <$> List.find (link_matches kws) home_anchors.
Proof.
  intros Hin. rewrite result_of_get_important_links.
  assert (Hwf : dict_wf (foldl (links_step (base_url self)) [] home_anchors))
    by (apply links_loop_wf, NoDup_nil_2).
  split; [done|]. rewrite <- dict_get_gmap by done. rewrite links_loop_get. simpl.
  f_equal. apply find_ext. intros a. by apply link_hit_keywords.
Qed.
End Properties.

(** * A concrete homepage *)

Definition footer_html : string :=
  "<a href='https://about.me/shop'>About me</a><a href='https://www.instagram.com/shop'>Instagram</a><a href='mailto:hi@shop.test'>Contact us</a><a href='/pages/track'>Track your order</a>".

Definition footer_link (href text : string) : node := NElem "a" [("href", href)] [NText text].

(** A footer with a personal about.me page, an Instagram profile, a mail
    link and an order-tracking page. *)
Definition footer_site : Platform :=
  table_platform
    [("https://s.test", mk_response 200 footer_html)]
    [(footer_html, NElem "[document]" []
                     [footer_link "https://about.me/shop" "About me";
                      footer_link "https://www.instagram.com/shop" "Instagram";
                      footer_link "mailto:hi@shop.test" "Contact us";
                      footer_link "/pages/track" "Track your order"])]
    (fun _ => None) (fun _ => []) false (fun _ _ => None).

Definition footer_scraper : ShopifyScraper := mk_scraper "https://s.test".

(** the domain test is a substring test, so [about.me] contains
    [t.me] and an about.me page is reported as the shop's Telegram. *)
Example social_about_me_is_telegram :
  result_of (@get_social_handles footer_site footer_scraper) =
    [("telegram", "https://about.me/shop"); ("instagram", "https://www.instagram.com/shop")].
Proof. vm_compute. reflexivity. Qed.

(** an [href] with another scheme than [http] is joined to the base
    as a path, so a [mailto:] contact link becomes
    [https://s.test/mailto:hi@shop.test]. *)
Example important_links_mailto_joined :
  result_of (@get_important_links footer_site footer_scraper) =
    [("contact_us", "https://s.test/mailto:hi@shop.test");
     ("order_tracking", "https://s.test/pages/track")].
Proof. vm_compute. reflexivity. Qed.

Lemma get_social_handles_spec_witness :
  dict_wf (result_of (@get_social_handles footer_site footer_scraper)) /\
  to_gmap (result_of (@get_social_handles footer_site footer_scraper)) !! "telegram" =
    last (filter (fun href => py_contains "t.me" href = true)
                 (href_of <$> @home_anchors footer_site footer_scraper)).
Proof.
  apply (@get_social_handles_spec footer_site footer_scraper "telegram" "t.me").
  apply list_elem_of_In. vm_compute. tauto.
Defined.

Lemma get_social_handles_keys_witness :
  exists d, ("telegram", d) ∈ social_domains /\ py_contains d "https://about.me/shop" = true.
Proof.
  apply (@get_social_handles_keys footer_site footer_scraper "telegram" "https://about.me/shop").
  vm_compute. reflexivity.
Defined.

Lemma get_important_links_spec_witness :
  dict_wf (result_of (@get_important_links footer_site footer_scraper)) /\
  to_gmap (result_of (@get_important_links footer_site footer_scraper)) !! "contact_us" =
    (fun a => resolve_href "https://s.test" (href_of a)) <$>
      List.find (link_matches ["contact"]) (@home_anchors footer_site footer_scraper).
Proof.
  apply (@get_important_links_spec footer_site footer_scraper "contact_us" ["contact"]).
  apply list_elem_of_In. vm_compute. tauto.
Defined.
