(* ===== verification/About.v ===== *)
(** About: [ShopifyScraper.get_about] and [extract_about_with_llm]
    ([src/app/scraper.py], lines 326-386).  The resolver probes eight
    about/story paths, falls back on the first homepage link whose
    [href] mentions about or story, returns the main text of that page
    when it is longer than 100 characters, and otherwise asks the model
    for a summary of the homepage.  The model client is built outside the
    [try], so a missing key raises out of [get_about]. *)

From S2P Require Import Prelude Html Json Web.

Definition about_paths : list string :=
  ["/pages/about"; "/about"; "/about-us"; "/pages/about-us";
   "/pages/our-story"; "/our-story"; "/pages/brand-story"; "/brand-story"].

(** [resp.status_code == 200 and ('about' in resp.text.lower() or 'story'
    in resp.text.lower())]; a request that raised is skipped. *)
Definition about_hit (r : option response) : bool :=
  match ok_body r with
  | Some body => py_contains "about" (py_lower body) || py_contains "story" (py_lower body)
  | None => false
  end.

Definition about_prompt (text : string) : string :=
  "Summarize the following text as a concise brand description suitable for an 'About Us' section. Return only the summary text." +:+ nl +:+ "Text:" +:+ nl +:+ text.

Section WithPlatform.
Context `{Platform} (self : ShopifyScraper).

(** Lines 368-375: the about page's main text, stripped, when it has more
    than 100 characters. *)
Definition about_page_text (r : option response) : option string :=
  match ok_body r with
  | Some body =>
      let about_text := get_text nl (main_content (html_parse body)) in
      if py_truthy about_text && (100 <? String.length about_text) then Some (py_strip about_text) else None
  | None => None
  end.

(** The path loop of lines 348-357. *)
Fixpoint probe_about_paths (paths : list string) : Fetch (option string) :=
  match paths with
  | [] => mret None
  | p :: ps =>
      let url := base_url self +:+ p in
      r ← requests_get url;
      if about_hit r then mret (Some url) else probe_about_paths ps
  end.

(** The link loop of lines 361-365, on the lowercased [href]. *)
Definition about_link (soup : node) : option string :=
  (fun a => resolve_href (base_url self) (py_lower (href_of a))) <$>
    List.find (fun a => py_contains "about" (py_lower (href_of a)) || py_contains "story" (py_lower (href_of a)))
              (anchors soup).

(** Lines 347-365: [about_url]. *)
Definition locate_about : Fetch (option string) :=
  found ← probe_about_paths about_paths;
  match found with
  | Some u => mret (Some u)
  | None =>
      html ← fetch_homepage_html self;
      mret (if py_truthy html then about_link (html_parse html) else None)
  end.

(** [extract_about_with_llm(text)]: the client is built before the [try];
    a failed call or a null content is caught and gives [None]. *)
Definition extract_about_with_llm (text : string) : pyres (option string) :=
  if openai_client_ok then Ok (py_strip <$> llm_complete (about_prompt text) 256)
  else Raise OpenAIError.

(** Lines 378-386: the model summary of the homepage text, when truthy. *)
Definition about_fallback : Fetch (pyres (option string)) :=
  html ← fetch_homepage_html self;
  if py_truthy html then
    mret (summary ← extract_about_with_llm (get_text nl (html_parse html));
          mret (match summary with Some s => if py_truthy s then Some s else None | None => None end))
  else mret (Ok None).

(** [get_about]. *)
Definition get_about : Fetch (pyres (option string)) :=
  about_url ← locate_about;
  page ← match about_url with
         | Some u => if py_truthy u then r ← requests_get u; mret (about_page_text r) else mret None
         | None => mret None
         end;
  match page with
  | Some t => mret (Ok (Some t))
  | None => about_fallback
  end.
End WithPlatform.

(** * Properties *)

Lemma about_page_text_Some `{Platform} r t :
  about_page_text r = Some t -> py_truthy t = true /\ py_strip t = t /\ 100 < String.length t.
Proof.
  unfold about_page_text. destruct (ok_body r) as [body|]; [|done].
  destruct (py_truthy _ && _) eqn:E; [|done]. intros [= <-].
  apply andb_prop in E as [Ht Hl%Nat.ltb_lt]. rewrite !get_text_strip. done.
Qed.

Section Properties.
Context `{Platform} (self : ShopifyScraper).

(** A probed URL is accepted. *)
Definition about_ok (u : string) : bool := about_hit (http_get u).

Definition about_path_urls : list string := (fun p => base_url self +:+ p) <$> about_paths.

Definition about_home : string := default EmptyString (ok_body (http_get (base_url self))).

(** The URL the resolver settles on: the first accepted path, else the
    first about/story link of the homepage. *)
Definition about_target : option string :=
  match List.find about_ok about_path_urls with
  | Some u => Some u
  | None => if py_truthy about_home then about_link self (html_parse about_home) else None
  end.

(** The page text the resolver returns without the model, if any. *)
Definition about_page : option string :=
  match about_target with
  | Some u => if py_truthy u then about_page_text (http_get u) else None
  | None => None
  end.

Lemma probe_about_paths_spec ps :
  probe_about_paths self ps =
    (List.find about_ok ((fun p => base_url self +:+ p) <$> ps),
     upto_first about_ok ((fun p => base_url self +:+ p) <$> ps)).
Proof.
  induction ps as [|p ps IH]; [done|]. cbn [probe_about_paths fmap list_fmap List.find upto_first].
  unfold requests_get. cbn. rewrite IH. unfold about_ok.
  by destruct (about_hit (http_get (base_url self +:+ p))).
Qed.

(** The locate phase: [about_target], after the paths up to the first
    hit and, when none hits, the homepage. *)
Lemma locate_about_spec :
  locate_about self =
    (about_target,
     upto_first about_ok about_path_urls ++
       match List.find about_ok about_path_urls with Some _ => [] | None => [base_url self] end).
Proof.
  unfold locate_about, about_target. rewrite probe_about_paths_spec. fold about_path_urls.
  rewrite fetch_pair_bind. destruct (List.find about_ok about_path_urls); [done|].
  done.
Qed.

Lemma result_of_about_fallback :
  result_of (about_fallback self) =
    if py_truthy about_home then
      summary ← extract_about_with_llm (get_text nl (html_parse about_home));
      mret (match summary with Some s => if py_truthy s then Some s else None | None => None end)
    else Ok None.
Proof. unfold about_fallback. rewrite result_of_bind, result_of_fetch_homepage_html. by destruct (py_truthy _). Qed.

Lemma fetched_about_fallback : fetched (about_fallback self) = [base_url self].
Proof.
  unfold about_fallback. rewrite fetched_bind, fetched_fetch_homepage_html, result_of_fetch_homepage_html.
  by destruct (py_truthy _).
Qed.

Lemma get_about_spec :
  get_about self =
    (match about_page with Some t => Ok (Some t) | None => result_of (about_fallback self) end,
     (locate_about self).2 ++
       match about_target with Some u => if py_truthy u then [u] else [] | None => [] end ++
       match about_page with Some _ => [] | None => [base_url self] end).
Proof.
  unfold get_about. rewrite locate_about_spec, fetch_pair_bind. cbn [snd]. unfold about_page.
  destruct about_target as [u|]; [destruct (py_truthy u)|].
  all: unfold result_of, fetched; cbn -[about_fallback]; try (unfold requests_get; cbn -[about_fallback]).
  all: try destruct (about_page_text (http_get u)); cbn -[about_fallback].
  all: rewrite ?app_nil_r, <- ?app_assoc, <- ?fetched_about_fallback; by destruct (about_fallback self).
Qed.
Lemma about_fallback_Some t :
  result_of (about_fallback self) = Ok (Some t) -> py_truthy t = true /\ py_strip t = t.
Proof.
  rewrite result_of_about_fallback. destruct (py_truthy about_home); [|done].
  unfold extract_about_with_llm. destruct openai_client_ok; [|done]. cbn.
  destruct (llm_complete _ _) as [c|]; cbn; [|done].
  destruct (py_truthy (py_strip c)) eqn:E; [|done]. intros [= <-]. by rewrite py_strip_idem.
Qed.

Lemma about_fallback_Raise e :
  result_of (about_fallback self) = Raise e -> e = OpenAIError /\ openai_client_ok = false.
Proof.
  rewrite result_of_about_fallback. destruct (py_truthy about_home); [|done].
  unfold extract_about_with_llm. by destruct openai_client_ok; [|intros [= <-]].
Qed.

(** C29: what [get_about] returns is absent or a non-empty string that
    [strip()] leaves unchanged, on the page branch and the model branch. *)
Theorem get_about_trimmed t :
  result_of (get_about self) = Ok (Some t) -> py_truthy t = true /\ py_strip t = t.
Proof.
  rewrite get_about_spec. cbn [result_of fst].
  destruct about_page as [t'|] eqn:E; [intros [= <-]|apply about_fallback_Some].
  unfold about_page in E. destruct about_target as [u|]; [|done].
  destruct (py_truthy u); [|done]. by apply about_page_text_Some in E as (? & ? & _).
Qed.

(** when the located about page has a main text of more than 100
    characters, [get_about] returns that text without asking the model,
    after requesting the probed paths up to the first hit, the homepage if
    no path hit, and the page. *)
Theorem get_about_page_branch u t :
  about_target = Some u -> py_truthy u = true -> about_page_text (http_get u) = Some t ->
  result_of (get_about self) = Ok (Some t) /\ 100 < String.length t /\
  fetched (get_about self) = (locate_about self).2 ++ [u].
Proof.
  intros Hu Ht Hp. rewrite get_about_spec. unfold about_page. rewrite Hu, Ht, Hp.
  cbn [result_of fetched fst snd]. rewrite app_nil_r.
  split_and!; [done| |done]. by apply about_page_text_Some in Hp as (_ & _ & ?).
Qed.

(** The exceptions that can leave [get_about]. *)
Lemma get_about_raise_cases e :
  result_of (get_about self) = Raise e ->
  e = OpenAIError /\ openai_client_ok = false /\ about_page = None.
Proof.
  rewrite get_about_spec. cbn [result_of fst].
  destruct about_page; [done|]. intros (? & ?)%about_fallback_Raise. done.
Qed.

(** C30: the only exception that leaves [get_about] is the [OpenAIError]
    of building the client without a key, and only when no about page
    was accepted. *)
Theorem get_about_raise e :
  result_of (get_about self) = Raise e ->
  e = OpenAIError /\ openai_client_ok = false /\ about_page = None.
Proof. apply get_about_raise_cases. Qed.

(** [get_about] makes at most eleven requests: the eight paths, the
    homepage, the about page, and the homepage again for the model. *)
Theorem get_about_fetch_bound : length (fetched (get_about self)) <= 11.
Proof.
  rewrite get_about_spec, locate_about_spec. cbn [fetched snd].
  rewrite !length_app.
  assert (length (upto_first about_ok about_path_urls) <= 8).
  { etransitivity; [apply upto_first_length|]. unfold about_path_urls. by rewrite length_fmap. }
  repeat case_match; cbn [length]; lia.
Qed.
End Properties.

(** * Concrete stores *)

Definition story_text : string :=
  "We started in a garage in 2015 and have been roasting small batches of coffee for our neighbours ever since.".

Definition story_html : string := "<main><p>About us</p><p>We started ...</p></main>".

(** A store whose [/pages/about] is the story page. *)
Definition story_site : Platform :=
  table_platform
    [("https://a.test/pages/about", mk_response 200 story_html)]
    [(story_html, NElem "[document]" [] [NElem "main" [] [NElem "p" [] [NText "About us"];
                                                           NElem "p" [] [NText story_text]]])]
    (fun _ => None) (fun _ => []) false (fun _ _ => None).

Definition story_scraper : ShopifyScraper := mk_scraper "https://a.test".

Lemma get_about_page_branch_witness :
  result_of (@get_about story_site story_scraper) = Ok (Some ("About us" +:+ nl +:+ story_text)) /\
  100 < String.length ("About us" +:+ nl +:+ story_text) /\
  fetched (@get_about story_site story_scraper) =
    (@locate_about story_site story_scraper).2 ++ ["https://a.test/pages/about"].
Proof.
  apply (@get_about_page_branch story_site story_scraper "https://a.test/pages/about");
    vm_compute; reflexivity.
Defined.

(** A store without an about page, on a server without an OpenAI key. *)
Definition keyless_site : Platform :=
  table_platform
    [("https://k.test", mk_response 200 "<p>Mugs</p>")]
    [("<p>Mugs</p>", NElem "[document]" [] [NElem "p" [] [NText "Mugs"]])]
    (fun _ => None) (fun _ => []) false (fun _ _ => None).

(** without an about page and without an OpenAI key, [get_about]
    raises [OpenAIError] (the client is built outside the [try]) instead
    of returning [None]. *)
Example get_about_keyless_raises :
  result_of (@get_about keyless_site (mk_scraper "https://k.test")) = Raise OpenAIError.
Proof. vm_compute. reflexivity. Qed.

Lemma get_about_raise_witness :
  OpenAIError = OpenAIError /\ @openai_client_ok keyless_site = false /\
  @about_page keyless_site (mk_scraper "https://k.test") = None.
Proof. apply (@get_about_raise keyless_site (mk_scraper "https://k.test")). vm_compute. reflexivity. Defined.

Lemma get_about_trimmed_witness :
  py_truthy ("About us" +:+ nl +:+ story_text) = true /\
  py_strip ("About us" +:+ nl +:+ story_text) = "About us" +:+ nl +:+ story_text.
Proof. apply (@get_about_trimmed story_site story_scraper). vm_compute. reflexivity. Defined.
