(* ===== verification/Catalog.v ===== *)
(** Catalog: the product feed.  [ShopifyScraper.get_product_catalog]
    ([src/app/scraper.py], lines 15-25) reads [/products.json]; the loop
    of [fetch_insights] ([src/app/main.py], lines 31-38, repeated at lines
    113-120 for competitors) turns each raw record into a [Product]
    ([src/app/models.py]), and lines 39-47 (121-126) turn the hero
    products into [Product]s, each validated by Pydantic.  The record loop
    has no [try]: one record on which a lookup, [float] or the validation
    of [Product] raises makes the whole loop raise. *)

From S2P Require Import Prelude Html Json Web Hero.

(** The Python builtins the product loop applies to decoded values and
    that are not modelled: [float(x)] and [str(x)] (the conversion of an
    f-string).  [float] raises [ValueError], [TypeError] or [OverflowError]; [str] of a
    string is the string itself. *)
Class Builtins : Type := {
  pyfloat : Type;
  py_float : json -> pyres pyfloat;
  py_float_raise : forall v e, py_float v = Raise e -> e = ValueError \/ e = TypeError \/ e = OverflowError;
  py_str : json -> string;
  py_str_JStr : forall s, py_str (JStr s) = s
}.

(** Pydantic's validation of the field types of [src/app/models.py] on
    the values the code passes, as an interface: a [str] field keeps a
    string and rejects [None], a list and a dict; a [Dict] field keeps a
    dict.  Pydantic 1 and 2 differ on numbers and booleans given to a
    [str] field (the first converts them, the second rejects them), and
    the interface leaves that open. *)
Class Pydantic : Type := {
  validate_str : json -> option string;
  validate_str_JStr : forall s, validate_str (JStr s) = Some s;
  validate_str_JNull : validate_str JNull = None;
  validate_str_JArr : forall l, validate_str (JArr l) = None;
  validate_str_JObj : forall kvs, validate_str (JObj kvs) = None;
  validate_dict : json -> option (list (string * json));
  validate_dict_JObj : forall kvs, validate_dict (JObj kvs) = Some kvs
}.

(** An [Optional[str]] field: [None] is kept as [None]. *)
Definition validate_opt_str `{Pydantic} (v : json) : option (option string) :=
  match v with JNull => Some None | _ => Some <$> validate_str v end.

Section WithBuiltins.
Context `{Builtins} `{Pydantic}.

(** An instance of [Product]: the validated field values. *)
Record product : Type := mk_product {
  prod_title : string;
  prod_url : string;
  prod_price : option pyfloat;
  prod_image : option string
}.

(** [Product(title=..., url=..., price=..., image=...)]: every field is
    validated and one rejected field raises [ValidationError]; a price is
    already a [float] or [None], which [Optional[float]] keeps. *)
Definition Product (title url : json) (price : option pyfloat) (image : json) : pyres product :=
  match validate_str title, validate_str url, validate_opt_str image with
  | Some t, Some u, Some im => Ok (mk_product t u price im)
  | _, _, _ => Raise ValidationError
  end.

(** [for p in v]: a list's elements, a dict's keys, a string's characters;
    other values are not iterable. *)
Definition py_iter (v : json) : pyres (list json) :=
  match v with
  | JArr l => Ok l
  | JObj kvs => Ok (JStr <$> dedup id (fun _ => true) kvs.*1)
  | JStr s => Ok ((fun c => JStr (String c EmptyString)) <$> String.list_ascii_of_string s)
  | _ => Raise TypeError
  end.

(** [float(p['variants'][0]['price']) if p.get('variants') and
    p['variants'][0].get('price') else None]. *)
Definition price_of (p : json) : pyres (option pyfloat) :=
  py_get_truthy "variants" p ≫= fun has_variants : bool =>
  if has_variants then
    vs ← py_key p "variants"; v0 ← py_index vs 0;
    py_get_truthy "price" v0 ≫= fun has_price : bool =>
    if has_price then
      vs' ← py_key p "variants"; v0' ← py_index vs' 0; pr ← py_key v0' "price";
      f ← py_float pr; mret (Some f)
    else mret None
  else mret None.

(** [p['images'][0]['src'] if p.get('images') and len(p['images']) > 0
    else None]; [len] of a value without one raises [TypeError]. *)
Definition image_of (p : json) : pyres (option json) :=
  py_get_truthy "images" p ≫= fun has_images : bool =>
  if has_images then
    ims ← py_key p "images";
    match py_len ims with
    | Some n =>
        if 0 <? n then
          ims' ← py_key p "images"; i0 ← py_index ims' 0; src ← py_key i0 "src"; mret (Some src)
        else mret None
    | None => Raise TypeError
    end
  else mret None.

(** One [Product(...)] of the loop, its arguments evaluated in order. *)
Definition product_of (site_url : string) (p : json) : pyres product :=
  title ← py_get_or "title" (JStr EmptyString) p;
  handle ← py_get_or "handle" (JStr EmptyString) p;
  let url := rstrip_slash site_url +:+ "/products/" +:+ py_str handle in
  price ← price_of p;
  image ← image_of p;
  Product title (JStr url) price (default JNull image).

(** The loop [for p in raw_products: products.append(Product(...))]. *)
Definition products_of (site_url : string) (raw : json) : pyres (list product) :=
  ps ← py_iter raw; mapM (product_of site_url) ps.

(** Lines 41-47 of [main.py]: a hero product as a [Product] without
    price; the hero dicts always hold [title], [url] and [image]. *)
Definition hero_product (h : hero) : pyres product :=
  Product (JStr (hero_title h)) (JStr (hero_url h)) None (default JNull (JStr <$> hero_image h)).
End WithBuiltins.

Section WithPlatform.
Context `{Platform} (self : ShopifyScraper).

(** [get_product_catalog]: [data.get('products', [])] of the decoded
    feed; every failure (request, status, decoding, a feed that is not a
    dict) gives [[]]. *)
Definition get_product_catalog : Fetch json :=
  resp ← requests_get (base_url self +:+ "/products.json");
  mret (match ok_body resp with
        | Some body =>
            match json_loads body with
            | Some data => py_try (py_get_or "products" (JArr []) data) (JArr [])
            | None => JArr []
            end
        | None => JArr []
        end).
End WithPlatform.

(** * Well-formed feed records *)

Section Records.
Context `{Builtins} `{Pydantic}.

(** A value an [Optional[str]] field keeps: a string or [None]. *)
Definition str_or_null (v : json) : Prop :=
  match v with JNull | JStr _ => True | _ => False end.

(** A [title] field: absent (the default is [''])  or a string. *)
Definition title_ok (o : option json) : Prop :=
  match o with None => True | Some v => exists t, v = JStr t end.

(** A price field the product loop accepts: absent, falsy, or one that
    [float] parses. *)
Definition price_ok (o : option json) : Prop :=
  match o with
  | None => True
  | Some x => json_truthy x = false \/ exists f, py_float x = Ok f
  end.

(** A [variants] field: absent, falsy, or a list whose first variant is a
    dict with an accepted price. *)
Definition variants_ok (o : option json) : Prop :=
  match o with
  | None => True
  | Some v => json_truthy v = false \/ exists kv0 vs, v = JArr (JObj kv0 :: vs) /\ price_ok (obj_lookup "price" kv0)
  end.

(** An [images] field: absent, falsy, or a list whose first image is a
    dict with a [src] that is a string or [None]. *)
Definition images_ok (o : option json) : Prop :=
  match o with
  | None => True
  | Some v => json_truthy v = false \/
      exists kv0 rest src, v = JArr (JObj kv0 :: rest) /\ obj_lookup "src" kv0 = Some src /\ str_or_null src
  end.

(** A well-formed feed record: a dict with a string [handle], a string
    or absent [title], and well-formed variants and images. *)
Definition wf_record (p : json) : Prop :=
  exists kvs h, p = JObj kvs /\ obj_lookup "handle" kvs = Some (JStr h) /\ title_ok (obj_lookup "title" kvs) /\
    variants_ok (obj_lookup "variants" kvs) /\ images_ok (obj_lookup "images" kvs).

(** [Product] accepts string title and URL and an image that is a string
    or [None]. *)
Lemma Product_ok t u pr im :
  str_or_null im ->
  exists prod, Product (JStr t) (JStr u) pr im = Ok prod /\ prod_title prod = t /\ prod_url prod = u.
Proof.
  intros Him. unfold Product. rewrite !validate_str_JStr.
  destruct im; try done; cbn [validate_opt_str fmap option_fmap option_map]; [|rewrite validate_str_JStr]; by eexists.
Qed.

(** The lookups of the product loop raise lookup errors, and [float]
    its own: never [ValidationError]. *)
Lemma price_of_not_validation p e : price_of p = Raise e -> e <> ValidationError.
Proof.
  unfold price_of, py_get_truthy, py_get, py_key, py_index, mbind, pyres_bind, mret, pyres_ret.
  repeat case_match; intros ?; simplify_eq; try done.
  match goal with Hf : py_float _ = Raise _ |- _ => apply py_float_raise in Hf as [-> | [-> | ->]] end; done.
Qed.

Lemma image_of_not_validation p e : image_of p = Raise e -> e <> ValidationError.
Proof.
  unfold image_of, py_get_truthy, py_get, py_key, py_index, mbind, pyres_bind, mret, pyres_ret.
  repeat case_match; intros ?; simplify_eq; done.
Qed.

(** A record of the product loop raises [ValidationError] only when it
    is a dict whose title the [str] field rejects or whose first image
    [src] the [Optional[str]] field rejects: its URL always validates. *)
Lemma product_of_validation u p :
  product_of u p = Raise ValidationError ->
  exists kvs im, p = JObj kvs /\ image_of p = Ok im /\
    (validate_str (default (JStr EmptyString) (obj_lookup "title" kvs)) = None \/
     validate_opt_str (default JNull im) = None).
Proof.
  unfold product_of, py_get_or. destruct p as [| | | | |kvs]; cbn [py_get mbind pyres_bind mret pyres_ret default];
    try discriminate.
  destruct (price_of (JObj kvs)) as [pr|e] eqn:Ep; cbn [mbind pyres_bind];
    [|intros [= ->]; by apply price_of_not_validation in Ep].
  destruct (image_of (JObj kvs)) as [im|e] eqn:Ei; cbn [mbind pyres_bind];
    [|intros [= ->]; by apply image_of_not_validation in Ei].
  unfold Product. rewrite validate_str_JStr. intros Hv. exists kvs, im. split_and!; [done|done|].
  destruct (validate_str _); [|by left]. destruct (validate_opt_str _); [done|by right].
Qed.

(** Every hero dict validates. *)
Lemma hero_product_ok h :
  hero_product h = Ok (mk_product (hero_title h) (hero_url h) None (hero_image h)).
Proof.
  unfold hero_product, Product. rewrite !validate_str_JStr.
  destruct (hero_image h); cbn; [by rewrite validate_str_JStr|done].
Qed.

(** The hero loop of lines 40-47 never raises. *)
Lemma hero_products_ok hs :
  mapM hero_product hs = Ok ((fun h => mk_product (hero_title h) (hero_url h) None (hero_image h)) <$> hs).
Proof.
  apply mapM_pyres_Ok. induction hs as [|h hs IH]; cbn; constructor; [apply hero_product_ok|exact IH].
Qed.

Lemma py_get_truthy_obj k kvs :
  py_get_truthy k (JObj kvs) = Ok (match obj_lookup k kvs with Some x => json_truthy x | None => false end).
Proof. done. Qed.

Lemma price_of_ok kvs :
  variants_ok (obj_lookup "variants" kvs) -> exists pr, price_of (JObj kvs) = Ok pr.
Proof.
  unfold price_of. rewrite py_get_truthy_obj. cbn [mbind pyres_bind].
  destruct (obj_lookup "variants" kvs) as [v|] eqn:Ev; [|by eexists]. cbn [variants_ok].
  intros [Hf|(kv0 & vs & -> & Hp)]; [rewrite Hf; by eexists|]. cbn. rewrite Ev. cbn.
  destruct (obj_lookup "price" kv0) as [x|] eqn:Ex; [|by eexists]. cbn [price_ok] in Hp.
  destruct Hp as [Hf|(f & Hf)]; [rewrite Hf; by eexists|].
  destruct (json_truthy x); [|by eexists]. cbn. rewrite Hf. by eexists.
Qed.

Lemma image_of_ok kvs :
  images_ok (obj_lookup "images" kvs) -> exists im, image_of (JObj kvs) = Ok im /\ str_or_null (default JNull im).
Proof.
  unfold image_of. rewrite py_get_truthy_obj. cbn [mbind pyres_bind].
  destruct (obj_lookup "images" kvs) as [v|] eqn:Ev; [|by eexists]. cbn [images_ok].
  intros [Hf|(kv0 & rest & src & -> & Hs & Hn)]; [rewrite Hf; by eexists|]. cbn.
  rewrite Ev. cbn. rewrite Hs. by eexists.
Qed.

(** A well-formed record gives a product, whose URL is the site URL
    without trailing slashes, [/products/] and the handle. *)
Lemma product_of_wf u p :
  wf_record p ->
  exists prod kvs h, product_of u p = Ok prod /\ p = JObj kvs /\ obj_lookup "handle" kvs = Some (JStr h) /\
                     prod_url prod = rstrip_slash u +:+ "/products/" +:+ h.
Proof.
  intros (kvs & h & -> & Hh & Ht & Hv & Hi).
  destruct (price_of_ok kvs Hv) as [pr Hpr]. destruct (image_of_ok kvs Hi) as (im & Him & Hn).
  unfold product_of, py_get_or. cbn [py_get mbind pyres_bind mret pyres_ret default].
  rewrite Hh. cbn [default]. rewrite Hpr, Him. cbn [mbind pyres_bind mret pyres_ret].
  cbn [id]. rewrite py_str_JStr.
  assert (Ht' : exists t, default (JStr EmptyString) (obj_lookup "title" kvs) = JStr t)
    by (destruct (obj_lookup "title" kvs); [exact Ht|by eexists]).
  destruct Ht' as [t ->]. destruct (Product_ok t (rstrip_slash u +:+ "/products/" +:+ h) pr _ Hn) as (prod & Hp & _ & Hu).
  exists prod, kvs, h. by rewrite Hp.
Qed.
(** The product loop builds its URLs from [website_url.rstrip('/')], so
    it is the same for a URL and its stripped form. *)
Lemma products_of_rstrip u raw : products_of (rstrip_slash u) raw = products_of u raw.
Proof. unfold products_of, product_of. by rewrite rstrip_slash_idem. Qed.

End Records.

(** * Properties *)

Section CatalogProps.
Context `{Platform} (self : ShopifyScraper).

(** The decoded feed of the store, if any. *)
Definition feed : option json :=
  ok_body (http_get (base_url self +:+ "/products.json")) ≫= json_loads.

(** [get_product_catalog], case by case. *)
Lemma get_product_catalog_eq :
  fetched (get_product_catalog self) = [base_url self +:+ "/products.json"] /\
  result_of (get_product_catalog self) =
    match feed with
    | Some (JObj kvs) => default (JArr []) (obj_lookup "products" kvs)
    | _ => JArr []
    end.
Proof.
  unfold get_product_catalog, feed. unfold requests_get. rewrite fetch_pair_bind.
  split; [by rewrite fetched_ret, app_nil_r|]. rewrite result_of_ret.
  destruct (ok_body _) as [body|]; [|done]. cbn [mbind option_bind].
  destruct (json_loads body) as [[]|]; done.
Qed.

(** C15: [get_product_catalog] makes one request, [/products.json], and
    never raises: it returns the [products] entry of a feed that decodes to
    a dict ([[]] when the entry is missing), and [[]] on every other
    outcome. *)
Theorem get_product_catalog_spec :
  fetched (get_product_catalog self) = [base_url self +:+ "/products.json"] /\
  result_of (get_product_catalog self) =
    match feed with
    | Some (JObj kvs) => default (JArr []) (obj_lookup "products" kvs)
    | _ => JArr []
    end.
Proof. apply get_product_catalog_eq. Qed.
End CatalogProps.

Section CatalogProducts.
Context `{Platform} `{Builtins} `{Pydantic}.

(** C14: for a store whose feed has N well-formed records, the product
    loop of [fetch_insights] yields exactly N products, the i-th with URL
    [{base}/products/{handle}] of the i-th record. *)
Theorem catalog_products_spec site kvs l :
  feed (mk_scraper site) = Some (JObj kvs) ->
  obj_lookup "products" kvs = Some (JArr l) ->
  Forall wf_record l ->
  exists ps, products_of site (result_of (get_product_catalog (mk_scraper site))) = Ok ps /\
    length ps = length l /\
    Forall2 (fun p prod => exists kvs' h, p = JObj kvs' /\ obj_lookup "handle" kvs' = Some (JStr h) /\
                             prod_url prod = base_url (mk_scraper site) +:+ "/products/" +:+ h) l ps.
Proof.
  intros Hf Hp Hwf. rewrite (proj2 (get_product_catalog_eq _)), Hf, Hp. cbn [default].
  unfold products_of. cbn [py_iter mbind pyres_bind].
  assert (Hall : Forall (fun p => exists prod kvs' h, product_of site p = Ok prod /\ p = JObj kvs' /\
                   obj_lookup "handle" kvs' = Some (JStr h) /\
                   prod_url prod = rstrip_slash site +:+ "/products/" +:+ h) l)
    by (eapply Forall_impl; [exact Hwf|]; intros p; apply product_of_wf).
  clear Hwf Hf Hp. induction Hall as [|p l (prod & kvs' & h & Hprod & Hrest) Hall IH].
  - exists []. split_and!; [done|done|constructor].
  - destruct IH as (ps & Hps & Hlen & Hrel). exists (prod :: ps).
    split_and!; [by apply mapM_pyres_Ok; constructor; [|apply mapM_pyres_Ok]|by cbn; rewrite Hlen|].
    constructor; [by exists kvs', h|done].
Qed.

(** What the product loop raises. *)
Lemma products_of_raise_iff site raw e :
  products_of site raw = Raise e <->
  py_iter raw = Raise e \/
  exists ps i p, py_iter raw = Ok ps /\ ps !! i = Some p /\ product_of site p = Raise e /\
                 forall j q, j < i -> ps !! j = Some q -> exists prod, product_of site q = Ok prod.
Proof.
  unfold products_of. destruct (py_iter raw) as [ps|e'] eqn:Ei; cbn [mbind pyres_bind].
  - rewrite mapM_pyres_Raise. split.
    + intros (i & p & ?). right. by exists ps, i, p.
    + intros [?|(ps' & i & p & [= <-] & ?)]; [done|]. by exists i, p.
  - split; [intros [= ->]; by left|]. by intros [[= ->]|(? & ? & ? & ? & _)].
Qed.

End CatalogProducts.

(** * Concrete feeds *)

(** [int(s)] of a string of decimal digits. *)
Fixpoint digits_value (s : string) (acc : Z) : Z :=
  match s with
  | EmptyString => acc
  | String c r => digits_value r (10 * acc + (Z.of_nat (nat_of_ascii c) - 48))
  end.

Definition all_digits (s : string) : bool :=
  py_truthy s && forallb is_py_digit (String.list_ascii_of_string s).

(** The plain decimals [ddd] and [ddd.ddd] as [mantissa * 10^exp]. *)
Definition parse_decimal (s : string) : option (Z * Z) :=
  match py_split_char "."%char s with
  | [i] => if all_digits i then Some (digits_value i 0, 0%Z) else None
  | [i; f] => if all_digits i && all_digits f
              then Some (digits_value (i +:+ f) 0, (- Z.of_nat (String.length f))%Z) else None
  | _ => None
  end.

(** The builtins of the examples: [float] on numbers, booleans and plain
    decimal strings, [ValueError] on any other string (the examples only
    use strings that Python rejects too), [TypeError] on [None], lists
    and dicts; [str] on strings and the constants. *)
#[refine] Instance decimal_builtins : Builtins := {
  pyfloat := (Z * Z)%type;
  py_float v := match v with
                | JNum m e => Ok (m, e)
                | JBool b => Ok ((if b then 1 else 0)%Z, 0%Z)
                | JStr s => match parse_decimal s with Some d => Ok d | None => Raise ValueError end
                | _ => Raise TypeError
                end;
  py_str v := match v with
              | JStr s => s
              | JNull => "None"
              | JBool true => "True"
              | JBool false => "False"
              | _ => EmptyString
              end
}.
Proof.
  - intros [] e; cbn; try destruct (parse_decimal _); intros Heq; inversion Heq; auto.
  - done.
Defined.

(** The validators of the examples, as Pydantic 2 has them for the values
    met here: a [str] field takes only a string, a [Dict] field only a
    dict. *)
#[refine] Instance strict_pydantic : Pydantic := {
  validate_str v := match v with JStr s => Some s | _ => None end;
  validate_dict v := match v with JObj kvs => Some kvs | _ => None end
}.
Proof. all: done. Defined.

Definition mug_record : json :=
  JObj [("title", JStr "Mug"); ("handle", JStr "mug");
        ("variants", JArr [JObj [("price", JStr "12.50")]]);
        ("images", JArr [JObj [("src", JStr "https://cdn.test/mug.jpg")]])].

Definition tee_record : json :=
  JObj [("title", JStr "Tee"); ("handle", JStr "tee");
        ("variants", JArr [JObj [("price", JStr "N/A")]])].

(** A store whose feed is [records]. *)
Definition feed_site (records : list json) : Platform :=
  table_platform
    [("https://c.test/products.json", mk_response 200 "feed")]
    []
    (fun s => if String.eqb s "feed" then Some (JObj [("products", JArr records)]) else None)
    (fun _ => []) false (fun _ _ => None).

(** a record whose price [float] rejects makes the product loop, and
    with it [/fetch-insights], raise [ValueError]: the mug before it is
    lost too. *)
Example catalog_bad_price_raises :
  products_of "https://c.test/"
    (result_of (@get_product_catalog (feed_site [mug_record; tee_record]) (mk_scraper "https://c.test/")))
  = Raise ValueError.
Proof. vm_compute. reflexivity. Qed.

Lemma catalog_products_spec_witness :
  exists ps, products_of "https://c.test/"
               (result_of (@get_product_catalog (feed_site [mug_record]) (mk_scraper "https://c.test/"))) = Ok ps /\
    length ps = length [mug_record] /\
    Forall2 (fun p prod => exists kvs' h, p = JObj kvs' /\ obj_lookup "handle" kvs' = Some (JStr h) /\
                             prod_url prod = base_url (mk_scraper "https://c.test/") +:+ "/products/" +:+ h)
            [mug_record] ps.
Proof.
  apply (@catalog_products_spec (feed_site [mug_record]) decimal_builtins strict_pydantic "https://c.test/"
           [("products", JArr [mug_record])] [mug_record]); [vm_compute; reflexivity|vm_compute; reflexivity|].
  repeat constructor. exists (match mug_record with JObj kvs => kvs | _ => [] end), "mug".
  vm_compute. split_and!; try reflexivity.
  - by eexists.
  - right. eexists _, _. split; [reflexivity|]. vm_compute. right. eexists. reflexivity.
  - right. eexists _, _, _. split_and!; [reflexivity|reflexivity|exact I].
Defined.
