(* ===== verification/Store.v ===== *)
(** Store: the two tables of [src/app/schemas.py] ([brands] with a
    unique [website_url], [brand_insights] with a [brand_id] and the JSON
    text) and what [src/app/main.py] does with them: the upsert at the end
    of [fetch_insights] (lines 67-88), [list_brands] (156-159) and the
    lookups of [get_brand_insights] (161-170).

    Rows are kept in insertion order, which is the order of their ids and
    the order in which [.first()] finds them; a new id is one more than
    the largest.  The upsert is modelled twice: [save_insights] runs it
    alone, with the outcome of each of its two commits as a parameter (a
    failed commit is rolled back); [sys_step] runs several requests
    interleaved, one database action at a time, with the unique
    constraint on [website_url] rejecting a second brand.  The theorems
    give the invariant of each, the refinement of the first by the
    second, the race that duplicates insight rows, and the liveness of
    the interleaving: every run ends, with every request done or failed. *)

From S2P Require Import Prelude.
From stdpp Require Import relations.

Record brand_row : Type := mk_brand_row { brand_id : nat; website_url : string }.

Record insight_row : Type := mk_insight_row {
  insight_id : nat;
  insight_brand : nat;
  insights_json : string
}.

Record db : Type := mk_db { brands : list brand_row; insight_rows : list insight_row }.

Definition empty_db : db := mk_db [] [].

(** * Queries *)

(** [db.query(Brand).filter(Brand.website_url == url).first()]. *)
Definition query_brand (d : db) (url : string) : option brand_row :=
  List.find (fun b => String.eqb (website_url b) url) (brands d).

(** [db.query(Brand).filter(Brand.id == brand_id).first()]. *)
Definition query_brand_id (d : db) (bid : nat) : option brand_row :=
  List.find (fun b => Nat.eqb (brand_id b) bid) (brands d).

(** [db.query(BrandInsight).filter(BrandInsight.brand_id == bid).first()]. *)
Definition query_insight (d : db) (bid : nat) : option insight_row :=
  List.find (fun i => Nat.eqb (insight_brand i) bid) (insight_rows d).

(** * Writes *)

Definition next_id (ids : list nat) : nat := S (foldr Nat.max 0 ids).

(** [db.add(Brand(website_url=url)); db.commit(); db.refresh(brand)]. *)
Definition add_brand (d : db) (url : string) : db * nat :=
  let bid := next_id (brand_id <$> brands d) in
  (mk_db (brands d ++ [mk_brand_row bid url]) (insight_rows d), bid).

(** [db.add(BrandInsight(brand_id=bid, insights_json=blob))]. *)
Definition add_insight (d : db) (bid : nat) (blob : string) : db :=
  let rid := next_id (insight_id <$> insight_rows d) in
  mk_db (brands d) (insight_rows d ++ [mk_insight_row rid bid blob]).

(** [brand_insight.insights_json = blob] on the row [rid]. *)
Definition update_insight (d : db) (rid : nat) (blob : string) : db :=
  mk_db (brands d)
        ((fun i => if Nat.eqb (insight_id i) rid then mk_insight_row (insight_id i) (insight_brand i) blob else i)
           <$> insight_rows d).

(** Lines 76-83: update the brand's first insight row or add one; the
    write is kept when the commit succeeds ([ok]). *)
Definition write_insight (d : db) (bid : nat) (blob : string) (ok : bool) : db :=
  if ok then
    match query_insight d bid with
    | Some r => update_insight d (insight_id r) blob
    | None => add_insight d bid blob
    end
  else d.

(** Lines 67-88, run alone: [ok1] and [ok2] are the outcomes of the two
    commits; a failure raises [SQLAlchemyError], which is caught and
    rolled back, so only what was committed before it stays. *)
Definition save_insights (url blob : string) (ok1 ok2 : bool) (d : db) : db :=
  match query_brand d url with
  | Some b => write_insight d (brand_id b) blob ok2
  | None => if ok1 then let '(d1, bid) := add_brand d url in write_insight d1 bid blob ok2 else d
  end.

(** [list_brands], without [created_at]. *)
Definition list_brands (d : db) : list (nat * string) :=
  (fun b => (brand_id b, website_url b)) <$> brands d.

(** The stored text [get_brand_insights] would decode for brand [bid],
    or its two 404s. *)
Definition stored_insights (d : db) (bid : nat) : pyres string :=
  match query_brand_id d bid with
  | None => Raise (HTTPError 404 "Brand not found")
  | Some _ =>
      match query_insight d bid with
      | None => Raise (HTTPError 404 "No insights found for this brand")
      | Some i => Ok (insights_json i)
      end
  end.

(** * Interleaved requests *)

(** Where one [fetch_insights] request is in its upsert. *)
Inductive req_pc : Type :=
| PcStart                                  (** before the brand query *)
| PcCreate                                 (** no brand found: add and commit *)
| PcQueryInsight (bid : nat)               (** before the insight query *)
| PcWrite (bid : nat) (row : option nat)   (** update [row], or add one, and commit *)
| PcDone
| PcFailed.                                (** the commit raised and was rolled back *)

Record req : Type := mk_req { req_url : string; req_blob : string; req_at : req_pc }.

(** One database action of one request.  Each statement sees what is
    committed; the brand commit fails when another request committed the
    same URL first (the unique constraint). *)
Definition req_step (d : db) (r : req) : option (db * req_pc) :=
  match req_at r with
  | PcStart =>
      Some (d, match query_brand d (req_url r) with
               | Some b => PcQueryInsight (brand_id b)
               | None => PcCreate
               end)
  | PcCreate =>
      match query_brand d (req_url r) with
      | Some _ => Some (d, PcFailed)
      | None => let '(d1, bid) := add_brand d (req_url r) in Some (d1, PcQueryInsight bid)
      end
  | PcQueryInsight bid => Some (d, PcWrite bid (insight_id <$> query_insight d bid))
  | PcWrite bid (Some rid) => Some (update_insight d rid (req_blob r), PcDone)
  | PcWrite bid None => Some (add_insight d bid (req_blob r), PcDone)
  | PcDone | PcFailed => None
  end.

(** The system: the database and the requests in flight. *)
Definition sys : Type := (db * list req)%type.

Inductive sys_step : sys -> sys -> Prop :=
| SysStep d rs i r d' pc' :
    rs !! i = Some r -> req_step d r = Some (d', pc') ->
    sys_step (d, rs) (d', <[i := mk_req (req_url r) (req_blob r) pc']> rs).

(** * The invariant of the tables *)

(** What the schema and the code keep under any interleaving: URLs and ids
    are unique, and every insight row belongs to a brand. *)
Definition core_wf (d : db) : Prop :=
  NoDup (website_url <$> brands d) /\ NoDup (brand_id <$> brands d) /\
  NoDup (insight_id <$> insight_rows d) /\
  Forall (fun i => insight_brand i ∈ brand_id <$> brands d) (insight_rows d).

(** The invariant of a store written by one request at a time: in
    addition, no brand has two insight rows. *)
Definition db_wf (d : db) : Prop := core_wf d /\ NoDup (insight_brand <$> insight_rows d).

Lemma foldr_max_ge ids x : x ∈ ids -> x <= foldr Nat.max 0 ids.
Proof.
  induction ids as [|y ids IH]; [by intros ?%not_elem_of_nil|].
  intros [->|Hx]%elem_of_cons; simpl; [lia|]. specialize (IH Hx). lia.
Qed.

Lemma next_id_fresh ids : next_id ids ∉ ids.
Proof. intros Hin%foldr_max_ge. unfold next_id in Hin. lia. Qed.

Lemma NoDup_snoc {A} (l : list A) x : NoDup l -> x ∉ l -> NoDup (l ++ [x]).
Proof. intros Hl Hx. apply NoDup_app. split_and!; [done| |by apply NoDup_singleton]. set_solver. Qed.

(** What a search that found nothing says of the searched fields. *)
Lemma find_none_fmap {A B} (f : A -> B) (eqb : B -> B -> bool) (l : list A) y :
  (forall a b, eqb a b = true <-> a = b) ->
  List.find (fun x => eqb (f x) y) l = None -> y ∉ f <$> l.
Proof.
  intros Heqb Hn (x & -> & Hx)%list_elem_of_fmap. apply list_elem_of_In in Hx.
  pose proof (List.find_none _ _ Hn x Hx) as Hf. cbv beta in Hf.
  assert (eqb (f x) (f x) = true) by (by apply Heqb). congruence.
Qed.

Lemma query_brand_none d url : query_brand d url = None -> url ∉ website_url <$> brands d.
Proof. apply find_none_fmap. intros. apply String.eqb_eq. Qed.

Lemma query_insight_none d bid : query_insight d bid = None -> bid ∉ insight_brand <$> insight_rows d.
Proof. apply find_none_fmap. intros. apply Nat.eqb_eq. Qed.

Lemma query_brand_Some d url b : query_brand d url = Some b -> b ∈ brands d /\ website_url b = url.
Proof.
  intros Hq. apply List.find_some in Hq as [Hin Hb%String.eqb_eq].
  split; [by apply list_elem_of_In|done].
Qed.

Lemma add_brand_core d url :
  core_wf d -> query_brand d url = None ->
  core_wf (add_brand d url).1 /\ (add_brand d url).2 ∈ brand_id <$> brands (add_brand d url).1 /\
  insight_rows (add_brand d url).1 = insight_rows d.
Proof.
  intros (Hu & Hb & Hi & Hfk) Hq%query_brand_none.
  unfold core_wf, add_brand. cbn [fst snd brands insight_rows]. rewrite !fmap_app. cbn [fmap list_fmap].
  split_and!; try done.
  - by apply NoDup_snoc.
  - apply NoDup_snoc; [done|apply next_id_fresh].
  - eapply Forall_impl; [exact Hfk|]. set_solver.
  - set_solver.
Qed.

Lemma add_insight_core d bid blob :
  core_wf d -> bid ∈ brand_id <$> brands d -> core_wf (add_insight d bid blob).
Proof.
  intros (Hu & Hb & Hi & Hfk) Hbid. unfold core_wf, add_insight. cbn [brands insight_rows].
  rewrite !fmap_app. cbn [fmap list_fmap]. split_and!; try done.
  - apply NoDup_snoc; [done|apply next_id_fresh].
  - apply Forall_app. split; [done|]. by constructor.
Qed.

Lemma update_insight_ids d rid blob :
  insight_id <$> insight_rows (update_insight d rid blob) = insight_id <$> insight_rows d /\
  insight_brand <$> insight_rows (update_insight d rid blob) = insight_brand <$> insight_rows d.
Proof.
  cbn. rewrite <- !list_fmap_compose.
  split; apply list_fmap_ext; intros ? i _; cbn; by destruct (Nat.eqb _ _).
Qed.

Lemma update_insight_core d rid blob : core_wf d -> core_wf (update_insight d rid blob).
Proof.
  intros (Hu & Hb & Hi & Hfk). destruct (update_insight_ids d rid blob) as [E1 _].
  split_and!; [done|done|by rewrite E1|].
  apply Forall_forall. intros i Hi'. cbn in Hi' |- *.
  apply list_elem_of_fmap in Hi' as (i0 & -> & Hi0).
  destruct (Nat.eqb _ _); [cbn|]; by eapply Forall_forall in Hfk.
Qed.

Lemma write_insight_wf d bid blob ok :
  db_wf d -> bid ∈ brand_id <$> brands d -> db_wf (write_insight d bid blob ok).
Proof.
  intros [Hc Hib] Hbid. unfold write_insight. destruct ok; [|done].
  destruct (query_insight d bid) as [r|] eqn:Eq.
  - split; [by apply update_insight_core|]. by rewrite (proj2 (update_insight_ids _ _ _)).
  - split; [by apply add_insight_core|]. unfold add_insight. cbn [insight_rows].
    rewrite fmap_app. apply NoDup_snoc; [done|]. by apply query_insight_none.
Qed.

Lemma save_insights_db_wf url blob ok1 ok2 d :
  db_wf d -> db_wf (save_insights url blob ok1 ok2 d).
Proof.
  intros Hwf. unfold save_insights. destruct (query_brand d url) as [b|] eqn:Eq.
  - apply write_insight_wf; [done|]. apply query_brand_Some in Eq as [Hb _].
    apply list_elem_of_fmap. by exists b.
  - destruct ok1; [|done]. destruct Hwf as [Hc Hib].
    destruct (add_brand_core d url Hc Eq) as (Hc1 & Hbid & Hrows).
    destruct (add_brand d url) as [d1 bid]. cbn in *. apply write_insight_wf; [|done].
    split; [done|by rewrite Hrows].
Qed.

(** C21: the upsert of [fetch_insights] keeps the tables' invariant
    whatever the outcome of its two commits: URLs stay unique and no brand
    gets a second insight row. *)
Theorem save_insights_wf url blob ok1 ok2 d :
  db_wf d -> db_wf (save_insights url blob ok1 ok2 d).
Proof. apply save_insights_db_wf. Qed.

(** * The upsert, functionally *)

Lemma find_fmap {A B} (p : B -> bool) (f : A -> B) l :
  List.find p (f <$> l) = f <$> List.find (fun x => p (f x)) l.
Proof. induction l as [|x l IH]; simpl; [done|]. by destruct (p (f x)). Qed.

Lemma find_elem_Some {A} (p : A -> bool) l x : x ∈ l -> p x = true -> exists y, List.find p l = Some y.
Proof.
  intros Hx Hp. destruct (List.find p l) as [y|] eqn:E; [by exists y|].
  apply list_elem_of_In in Hx. by rewrite (List.find_none _ _ E x Hx) in Hp.
Qed.

Lemma find_app_None {A} (p : A -> bool) l x :
  List.find p l = None -> p x = true -> List.find p (l ++ [x]) = Some x.
Proof. induction l as [|y l IH]; simpl; [by intros _ ->|]. by destruct (p y). Qed.

Lemma write_insight_brands d bid blob ok : brands (write_insight d bid blob ok) = brands d.
Proof. unfold write_insight. destruct ok; [|done]. by destruct (query_insight d bid). Qed.

(** The upsert only appends brands. *)
Lemma save_insights_brands url blob ok1 ok2 d :
  exists extra, brands (save_insights url blob ok1 ok2 d) = brands d ++ extra.
Proof.
  unfold save_insights. destruct (query_brand d url); [exists []; by rewrite write_insight_brands, app_nil_r|].
  destruct ok1; [|exists []; by rewrite app_nil_r]. cbn [add_brand]. eexists. by rewrite write_insight_brands.
Qed.

(** A brand found before an upsert is found after it, whatever it wrote. *)
Lemma query_brand_save url' url blob ok1 ok2 d b :
  query_brand d url = Some b -> query_brand (save_insights url' blob ok1 ok2 d) url = Some b.
Proof.
  destruct (save_insights_brands url' blob ok1 ok2 d) as [extra He].
  unfold query_brand. rewrite He. apply find_app_Some.
Qed.

(** After a committed write, the brand's first insight row holds [blob]. *)
Lemma write_insight_stored d bid blob :
  exists r, query_insight (write_insight d bid blob true) bid = Some r /\ insights_json r = blob.
Proof.
  unfold write_insight. destruct (query_insight d bid) as [r|] eqn:Eq.
  - unfold query_insight in *. cbn [insight_rows update_insight]. rewrite find_fmap.
    erewrite find_ext; [rewrite Eq; cbn; rewrite Nat.eqb_refl; by eexists|].
    intros i. cbn. by destruct (Nat.eqb (insight_id i) (insight_id r)).
  - exists (mk_insight_row (next_id (insight_id <$> insight_rows d)) bid blob).
    split; [|done]. unfold query_insight, add_insight. cbn [insight_rows].
    apply find_app_None; [done|apply Nat.eqb_refl].
Qed.

Lemma query_brand_id_elem d b : b ∈ brands d -> exists b', query_brand_id d (brand_id b) = Some b'.
Proof. intros Hb. apply (find_elem_Some _ _ b Hb), Nat.eqb_refl. Qed.

Lemma stored_after_write d b blob :
  b ∈ brands d -> stored_insights (write_insight d (brand_id b) blob true) (brand_id b) = Ok blob.
Proof.
  intros Hb. unfold stored_insights.
  destruct (query_brand_id_elem (write_insight d (brand_id b) blob true) b) as [b' ->];
    [by rewrite write_insight_brands|].
  by destruct (write_insight_stored d (brand_id b) blob) as (r & -> & <-).
Qed.

(** after an upsert whose commits succeed, the site has a brand whose
    stored insights are the new ones: the latest fetch wins. *)
Theorem save_insights_latest url blob d :
  exists b, query_brand (save_insights url blob true true d) url = Some b /\
            stored_insights (save_insights url blob true true d) (brand_id b) = Ok blob.
Proof.
  unfold save_insights. destruct (query_brand d url) as [b|] eqn:Eq.
  - exists b. split; [unfold query_brand; by rewrite write_insight_brands|].
    apply stored_after_write. by apply query_brand_Some in Eq as [? _].
  - cbn [add_brand]. set (nb := mk_brand_row (next_id (brand_id <$> brands d)) url).
    exists nb. split.
    + unfold query_brand. rewrite write_insight_brands. cbn [brands].
      apply find_app_None; [done|apply String.eqb_refl].
    + change (next_id (brand_id <$> brands d)) with (brand_id nb).
      apply stored_after_write. cbn. set_solver.
Qed.

(** * Requests run alone and interleaved *)

Lemma sys_step_single d r d' pc' :
  req_step d r = Some (d', pc') -> sys_step (d, [r]) (d', [mk_req (req_url r) (req_blob r) pc']).
Proof. intros Hs. by apply (SysStep d [r] 0 r). Qed.

(** a request that runs alone performs, one database action at a
    time, exactly the upsert [save_insights] with both commits
    succeeding. *)
Theorem req_run_alone d url blob :
  rtc sys_step (d, [mk_req url blob PcStart]) (save_insights url blob true true d, [mk_req url blob PcDone]).
Proof.
  unfold save_insights. destruct (query_brand d url) as [b|] eqn:Eq.
  - eapply rtc_l; [apply sys_step_single; cbn; by rewrite Eq|]. cbn.
    eapply rtc_l; [by apply sys_step_single|]. unfold write_insight. cbn.
    destruct (query_insight d (brand_id b)) as [r|];
      (eapply rtc_l; [by apply sys_step_single|]); apply rtc_refl.
  - eapply rtc_l; [apply sys_step_single; cbn; by rewrite Eq|]. cbn.
    eapply rtc_l; [apply sys_step_single; cbn; rewrite Eq; reflexivity|]. cbn.
    eapply rtc_l; [by apply sys_step_single|]. unfold write_insight. cbn.
    destruct (List.find _ (insight_rows d)) as [r|];
      (eapply rtc_l; [by apply sys_step_single|]); apply rtc_refl.
Qed.


(** What a request in flight knows: the brand it works on exists. *)
Definition pc_ok (d : db) (pc : req_pc) : Prop :=
  match pc with
  | PcQueryInsight bid | PcWrite bid _ => bid ∈ brand_id <$> brands d
  | _ => True
  end.

Definition sys_inv (s : sys) : Prop :=
  core_wf s.1 /\ Forall (fun r => pc_ok s.1 (req_at r)) s.2.

(** A step only adds brands. *)
Lemma req_step_brands d r d' pc' :
  req_step d r = Some (d', pc') -> exists extra, brands d' = brands d ++ extra.
Proof.
  unfold req_step. destruct (req_at r) as [| |bid|bid [rid|]| |]; try done;
    try (intros [= <- _]; exists []; by rewrite app_nil_r).
  destruct (query_brand d (req_url r)); intros [= <- _]; [exists []; by rewrite app_nil_r|]. by eexists.
Qed.

Lemma pc_ok_mono d d' extra pc : brands d' = brands d ++ extra -> pc_ok d pc -> pc_ok d' pc.
Proof. intros E. destruct pc; cbn; try done; rewrite E, fmap_app; set_solver. Qed.

(** One step of one request keeps the core invariant and gives it a
    known brand. *)
Lemma req_step_core d r d' pc' :
  core_wf d -> pc_ok d (req_at r) -> req_step d r = Some (d', pc') -> core_wf d' /\ pc_ok d' pc'.
Proof.
  intros Hc Hpc. unfold req_step. destruct (req_at r) as [| |bid|bid [rid|]| |]; cbn in Hpc; try done.
  - intros [= <- <-]. split; [done|]. destruct (query_brand d (req_url r)) as [b|] eqn:Eq; [|done].
    apply query_brand_Some in Eq as [Hb _]. cbn. apply list_elem_of_fmap. by exists b.
  - destruct (query_brand d (req_url r)) as [b|] eqn:Eq; [by intros [= <- <-]|].
    destruct (add_brand_core d (req_url r) Hc Eq) as (Hc1 & Hbid & _).
    destruct (add_brand d (req_url r)) as [d1 bid]. by intros [= <- <-].
  - by intros [= <- <-].
  - intros [= <- <-]. split; [by apply update_insight_core|done].
  - intros [= <- <-]. split; [by apply add_insight_core|done].
Qed.

(** C24: under any interleaving of [fetch_insights] requests, one database
    action at a time, brand URLs and ids stay unique and every insight row
    belongs to a brand (the unique constraint makes a second brand's
    commit fail). *)
Theorem sys_inv_preserved s s' : sys_inv s -> rtc sys_step s s' -> sys_inv s'.
Proof.
  intros Hinv Hrtc. induction Hrtc as [s|s1 s2 s3 Hstep _ IH]; [done|]. apply IH.
  destruct Hstep as [d rs i r d' pc' Hr Hs]. destruct Hinv as [Hc Hrs].
  assert (Hpc : pc_ok d (req_at r)) by (eapply Forall_lookup_1 in Hrs; [exact Hrs|exact Hr]).
  destruct (req_step_core d r d' pc' Hc Hpc Hs) as [Hc' Hpc'].
  destruct (req_step_brands _ _ _ _ Hs) as [extra Ebr]. split; [done|]. cbn.
  apply Forall_insert; [|done]. eapply Forall_impl; [exact Hrs|]. intros r'. by apply pc_ok_mono with extra.
Qed.

(** * Every interleaving ends *)

(** How many database actions a request still has to run, at most. *)
Definition pc_rank (pc : req_pc) : nat :=
  match pc with
  | PcStart => 4
  | PcCreate => 3
  | PcQueryInsight _ => 2
  | PcWrite _ _ => 1
  | PcDone | PcFailed => 0
  end.

Definition finished (r : req) : bool :=
  match req_at r with PcDone | PcFailed => true | _ => false end.

(** The variant: the actions left to all requests in flight. *)
Definition sys_rank (s : sys) : nat := sum_list ((fun r => pc_rank (req_at r)) <$> s.2).

Lemma req_step_rank d r d' pc' : req_step d r = Some (d', pc') -> pc_rank pc' < pc_rank (req_at r).
Proof.
  unfold req_step. destruct (req_at r) as [| |bid|bid [rid|]| |]; cbn; try done;
    try (intros [= _ <-]; cbn; lia).
  all: destruct (query_brand d (req_url r)); intros [= _ <-]; cbn; lia.
Qed.

(** An unfinished request can always take its next action. *)
Lemma req_step_progress d r : finished r = false -> exists d' pc', req_step d r = Some (d', pc').
Proof.
  unfold finished, req_step. destruct (req_at r) as [| |bid|bid [rid|]| |]; try done; eauto.
  destruct (query_brand d (req_url r)); eauto.
Qed.

Lemma sum_list_insert {A} (f : A -> nat) l i x y :
  l !! i = Some y -> sum_list (f <$> <[i := x]> l) + f y = sum_list (f <$> l) + f x.
Proof.
  revert i. induction l as [|z l IH]; intros [|i]; simpl; try done.
  - intros [= ->]. lia.
  - intros Hi. specialize (IH i Hi). unfold fmap in IH. lia.
Qed.

Lemma sys_step_rank s s' : sys_step s s' -> sys_rank s' < sys_rank s.
Proof.
  destruct 1 as [d rs i r d' pc' Hr Hs]. unfold sys_rank. cbn [snd].
  pose proof (sum_list_insert (fun r => pc_rank (req_at r)) rs i (mk_req (req_url r) (req_blob r) pc') r Hr).
  pose proof (req_step_rank _ _ _ _ Hs). cbn in *. lia.
Qed.

Lemma sys_sn s : sn sys_step s.
Proof.
  remember (sys_rank s) as n eqn:En. revert s En.
  induction (lt_wf n) as [n _ IH]; intros s ->.
  constructor. intros s' Hs. apply (IH (sys_rank s')); [by apply sys_step_rank|done].
Qed.

(** A state in which no step is possible has every request finished. *)
Lemma sys_nf_finished s : nf sys_step s -> Forall (fun r => finished r = true) s.2.
Proof.
  destruct s as [d rs]. intros Hnf. apply Forall_lookup. intros i r Hr.
  destruct (finished r) eqn:Ef; [done|]. destruct (req_step_progress d r Ef) as (d' & pc' & Hs).
  destruct Hnf. eexists. by eapply SysStep.
Qed.

(** Some interleaving runs every request to its end. *)
Lemma sys_finishes s : exists s', rtc sys_step s s' /\ Forall (fun r => finished r = true) s'.2.
Proof.
  remember (sys_rank s) as n eqn:En. revert s En.
  induction (lt_wf n) as [n _ IH]; intros [d rs] ->.
  destruct (decide (Forall (fun r => finished r = true) rs)) as [Hall|Hnot]; [by exists (d, rs)|].
  apply not_Forall_Exists in Hnot; [|apply _]. apply Exists_exists in Hnot as (r & Hr & Hf%not_true_is_false).
  apply list_elem_of_lookup in Hr as [i Hi].
  destruct (req_step_progress d r Hf) as (d' & pc' & Hs). pose proof (SysStep d rs i r d' pc' Hi Hs) as Hstep.
  destruct (IH _ (sys_step_rank _ _ Hstep) _ eq_refl) as (s' & Hrtc & Hfin).
  exists s'. split; [by eapply rtc_l|done].
Qed.

(** every interleaving of [fetch_insights] upserts ends: there is no
    infinite run, every run that cannot go on has all requests done or
    failed, and such a run exists.  No request waits for another. *)
Theorem sys_liveness s :
  sn sys_step s /\
  (forall s', rtc sys_step s s' -> nf sys_step s' -> Forall (fun r => finished r = true) s'.2) /\
  exists s', rtc sys_step s s' /\ Forall (fun r => finished r = true) s'.2.
Proof. split_and!; [apply sys_sn| intros s' _; apply sys_nf_finished | apply sys_finishes]. Qed.

(** * Two requests for the same new store *)

Lemma find_fmap_none {A B} (f : A -> B) (eqb : B -> B -> bool) (l : list A) y :
  (forall a b, eqb a b = true <-> a = b) ->
  y ∉ f <$> l -> List.find (fun x => eqb (f x) y) l = None.
Proof.
  intros Heqb. induction l as [|x l IH]; [done|].
  rewrite fmap_cons, not_elem_of_cons. intros [Hne Hl]. cbn.
  destruct (eqb (f x) y) eqn:E; [by apply Heqb in E|]. by apply IH.
Qed.

(** The steps of the race, one request at a time. *)
Lemma req_step_start_new d url blob :
  query_brand d url = None -> req_step d (mk_req url blob PcStart) = Some (d, PcCreate).
Proof. intros Hq. cbn. by rewrite Hq. Qed.

Lemma req_step_start_found d url blob b :
  query_brand d url = Some b -> req_step d (mk_req url blob PcStart) = Some (d, PcQueryInsight (brand_id b)).
Proof. intros Hq. cbn. by rewrite Hq. Qed.

Lemma req_step_create d url blob :
  query_brand d url = None ->
  req_step d (mk_req url blob PcCreate) = Some ((add_brand d url).1, PcQueryInsight (add_brand d url).2).
Proof. intros Hq. cbn. by rewrite Hq. Qed.

Lemma req_step_query_none d url blob bid :
  query_insight d bid = None -> req_step d (mk_req url blob (PcQueryInsight bid)) = Some (d, PcWrite bid None).
Proof. intros Hq. cbn. by rewrite Hq. Qed.

Lemma req_step_add d url blob bid :
  req_step d (mk_req url blob (PcWrite bid None)) = Some (add_insight d bid blob, PcDone).
Proof. done. Qed.

(** A fresh brand id has no insight row in a well-formed store. *)
Lemma query_insight_fresh d url :
  core_wf d -> query_insight (add_brand d url).1 (add_brand d url).2 = None.
Proof.
  intros (_ & _ & _ & Hfk). unfold query_insight. cbn [add_brand fst snd insight_rows].
  apply find_fmap_none; [intros; apply Nat.eqb_eq|].
  intros (i & Heq & Hi)%list_elem_of_fmap. apply (next_id_fresh (brand_id <$> brands d)).
  rewrite Heq. by eapply Forall_forall in Hfk.
Qed.

(** A brand added for a new URL is found by its URL and by its id, and
    has no insight row. *)
Lemma add_brand_fresh d url :
  core_wf d -> query_brand d url = None ->
  query_brand (add_brand d url).1 url = Some (mk_brand_row (add_brand d url).2 url) /\
  query_brand_id (add_brand d url).1 (add_brand d url).2 = Some (mk_brand_row (add_brand d url).2 url) /\
  query_insight (add_brand d url).1 (add_brand d url).2 = None.
Proof.
  intros Hc Hq. split_and!; [|clear Hq|by apply query_insight_fresh].
  - apply find_app_None; [exact Hq|apply String.eqb_refl].
  - apply find_app_None; [|apply Nat.eqb_refl].
    apply find_fmap_none; [intros; apply Nat.eqb_eq|apply next_id_fresh].
Qed.

#[local] Arguments add_brand : simpl never.
#[local] Arguments add_insight : simpl never.

(** One step of request [i] justified by [Hs]. *)
Ltac race_step i Hs :=
  eapply rtc_l; [eapply (SysStep _ _ i); [reflexivity|exact Hs]|]; cbn [insert list_insert req_url req_blob].

(** C25: two [fetch_insights] requests for the same new store, run
    concurrently (FastAPI serves [def] endpoints from a thread pool), can
    interleave, from any well-formed store without that site, so that
    both find no insight row and both add one: the brand then has two
    rows, the store loses its invariant, and [get_brand_insights] keeps
    returning the first request's insights although the second one wrote
    last. *)
Theorem race_duplicate_insights d url a b :
  db_wf d -> query_brand d url = None ->
  let '(d1, bid) := add_brand d url in
  let d' := add_insight (add_insight d1 bid a) bid b in
  rtc sys_step (d, [mk_req url a PcStart; mk_req url b PcStart]) (d', [mk_req url a PcDone; mk_req url b PcDone]) /\
  ~ db_wf d' /\ stored_insights d' bid = Ok a.
Proof.
  intros [Hc _] Hq. destruct (add_brand_fresh d url Hc Hq) as (Hq1 & Hid & Hi).
  destruct (add_brand d url) as [d1 bid] eqn:Ea. cbn [fst snd] in Hq1, Hid, Hi.
  split_and!.
  - race_step 0 (req_step_start_new d url a Hq).
    race_step 0 (req_step_create d url a Hq). rewrite Ea. cbn [fst snd].
    race_step 1 (req_step_start_found d1 url b _ Hq1). cbn [brand_id].
    race_step 0 (req_step_query_none d1 url a bid Hi).
    race_step 1 (req_step_query_none d1 url b bid Hi).
    race_step 0 (req_step_add d1 url a bid).
    race_step 1 (req_step_add (add_insight d1 bid a) url b bid).
    apply rtc_refl.
  - intros [_ Hnd]. unfold add_insight in Hnd. cbn in Hnd.
    rewrite <- app_assoc, fmap_app in Hnd. apply NoDup_app in Hnd as (_ & _ & Hnd). cbn in Hnd.
    apply NoDup_cons in Hnd as [Hn _]. set_solver.
  - unfold stored_insights. change (query_brand_id _ bid) with (query_brand_id d1 bid). rewrite Hid.
    unfold query_insight, add_insight. cbn [insight_rows].
    by erewrite find_app_Some by (apply find_app_None; [exact Hi|apply Nat.eqb_refl]).
Qed.

(** * Concrete runs *)

Definition race_url : string := "https://s.test".

Definition race_start : sys := (empty_db, [mk_req race_url "A" PcStart; mk_req race_url "B" PcStart]).

(** The database after the interleaving of the race. *)
Definition race_db : db :=
  mk_db [mk_brand_row 1 race_url] [mk_insight_row 1 1 "A"; mk_insight_row 2 1 "B"].

(** One step of request [i] in a concrete run. *)
Ltac sys_run i := eapply rtc_l; [eapply (SysStep _ _ i); reflexivity|].

Lemma race_duplicate_insights_witness :
  rtc sys_step race_start (race_db, [mk_req race_url "A" PcDone; mk_req race_url "B" PcDone]) /\
  ~ db_wf race_db /\ stored_insights race_db 1 = Ok "A".
Proof.
  apply (race_duplicate_insights empty_db race_url "A" "B"); [|reflexivity].
  split; [split_and!|]; vm_compute; constructor.
Defined.

Lemma save_insights_wf_witness : db_wf (save_insights race_url "A" true true empty_db).
Proof. apply save_insights_wf. split; [split_and!|]; vm_compute; constructor. Defined.

Lemma sys_inv_preserved_witness :
  sys_inv (race_db, [mk_req race_url "A" PcDone; mk_req race_url "B" PcDone]).
Proof.
  apply (sys_inv_preserved race_start).
  - split; [split_and!|]; vm_compute; repeat constructor.
  - sys_run 0. sys_run 0. sys_run 1. sys_run 0. sys_run 1. sys_run 0. sys_run 1. apply rtc_refl.
Defined.
