(* ===== verification/Api.v ===== *)
(** Api: the endpoints of [src/app/main.py].  [/fetch-insights]
    ([fetch_insights], lines 25-89) runs every resolver of one store in a
    fixed order, answers 401 when the product feed is empty, and upserts
    the result, serialised by [json.dumps], into the store ([Store.v]); [/fetch-competitors]
    ([fetch_competitors], lines 91-147) asks the model for competitor
    URLs, extracts them with [re.findall(r'https?://[\w\.-]+', ...)] and
    runs the same pipeline on each, skipping the stores that fail.  The
    record [brand_insights] is [BrandInsights] of [src/app/models.py]. *)

From S2P Require Import Prelude Html Json Web PyDict Faq Policy Hero Email Contact Social About Catalog Store.

(** * The competitor URL pattern *)

(** [s] without its prefix [p], if [s] starts with [p]. *)
Fixpoint strip_prefix (p s : string) : option string :=
  match p, s with
  | EmptyString, _ => Some s
  | String a p', String b s' => if Ascii.eqb a b then strip_prefix p' s' else None
  | _, _ => None
  end.

(** [[\w.-]] on ASCII. *)
Definition is_host_char (c : ascii) : bool :=
  is_alnum c || Ascii.eqb c "_" || Ascii.eqb c "." || Ascii.eqb c "-".

(** The match of [https?://[\w\.-]+] at the start of [s]: the optional
    [s] is taken when it is followed by [://] (when it is not, dropping it
    cannot help, since ['s'] is not [':']), then the longest run of host
    characters, which must not be empty. *)
Definition match_url (s : string) : option (string * string) :=
  match strip_prefix "http" s with
  | Some r =>
      let scheme :=
        match strip_prefix "s://" r with
        | Some r2 => Some ("https://", r2)
        | None => match strip_prefix "://" r with Some r2 => Some ("http://", r2) | None => None end
        end in
      match scheme with
      | Some (sch, r2) =>
          let '(host, r3) := span is_host_char r2 in
          if String.eqb host EmptyString then None else Some (sch +:+ host, r3)
      | None => None
      end
  | None => None
  end.

(** [re.findall(r'https?://[\w\.-]+', content)]. *)
Definition findall_urls : nat -> string -> list string := findall_fuel match_url.

Definition find_urls (s : string) : list string := findall_urls (String.length s) s.

(** * The insights record *)

Section Pipeline.
Context `{Platform} `{Builtins} `{Pydantic}.

(** [BrandInsights]. *)
Record brand_insights : Type := mk_brand_insights {
  bi_product_catalog : list product;
  bi_hero_products : list product;
  bi_privacy_policy : option string;
  bi_refund_policy : option string;
  bi_faqs : list json;
  bi_social_handles : pydict string;
  bi_contact_details : contact_details;
  bi_about : option string;
  bi_important_links : pydict string
}.

(** [BrandInsights(...)] (lines 55-65): the [List[Dict]] field [faqs] is
    validated entry by entry; the other fields get values of their types
    by construction (lists of [Product]s, optional strings, dicts). *)
Definition BrandInsights (products heroes : list product) (privacy refund : option string)
    (faqs : list json) (social : pydict string) (contact : contact_details) (about : option string)
    (links : pydict string) : pyres brand_insights :=
  match mapM validate_dict faqs with
  | Some kvss => Ok (mk_brand_insights products heroes privacy refund (JObj <$> kvss) social contact about links)
  | None => Raise ValidationError
  end.

(** Lines 31-65 (113-137 for a competitor): the product loop, then every
    other resolver in the order of the code; the first exception leaves. *)
Definition build_insights (site_url : string) (raw : json) : Fetch (pyres brand_insights) :=
  let self := mk_scraper site_url in
  products ?← mret (products_of site_url raw);
  heroes ?← fetch_ok (get_hero_products self);
  hero_products ?← mret (mapM hero_product heroes);
  privacy ?← fetch_ok (get_privacy_policy self);
  refund ?← fetch_ok (get_refund_policy self);
  faqs ?← fetch_ok (get_faqs self);
  social ?← fetch_ok (get_social_handles self);
  contact ?← get_contact_details self;
  about ?← get_about self;
  links ?← fetch_ok (get_important_links self);
  mret (BrandInsights products hero_products privacy refund faqs social contact about links).

(** Lines 27-65 of [fetch_insights]: the scrape, before the store. *)
Definition scrape_insights (site_url : string) : Fetch (pyres brand_insights) :=
  raw ← get_product_catalog (mk_scraper site_url);
  if json_truthy raw then build_insights site_url raw
  else mret (Raise (HTTPError 401 "Website not found or no products available.")).

(** Lines 111-138: one competitor, without the 401 test. *)
Definition competitor_insights (url : string) : Fetch (pyres brand_insights) :=
  raw ← get_product_catalog (mk_scraper url);
  build_insights url raw.

(** Lines 109-141: the loop that skips a competitor that raises. *)
Fixpoint competitor_loop (urls : list string) : Fetch (list brand_insights) :=
  match urls with
  | [] => mret []
  | u :: us =>
      r ← competitor_insights u;
      rest ← competitor_loop us;
      mret (match r with Ok i => i :: rest | Raise _ => rest end)
  end.

Definition competitor_prompt (site_url : string) : string :=
  "List 5 direct competitor Shopify store URLs for the brand at " +:+ site_url +:+
  ". Return only the URLs, one per line.".

(** [fetch_competitors]: everything is inside the outer [try], whose
    handler turns any exception, the 404 of an empty result included,
    into a 500 whose detail is [str(e)] ([exc_str]).  A failed model call
    and a null content both leave [llm_complete] as [None]; the first
    raises from the client, the second from [re.findall]. *)
Definition fetch_competitors (exc_str : pyexc -> string) (site_url : string)
    : Fetch (pyres (list brand_insights)) :=
  let fail e := Raise (HTTPError 500 ("Competitor analysis failed: " +:+ exc_str e)) in
  if openai_client_ok then
    match llm_complete (competitor_prompt site_url) 256 with
    | Some content =>
        l ← competitor_loop (find_urls content);
        mret (match l with
              | [] => fail (HTTPError 404 "No competitor insights found.")
              | _ => Ok l
              end)
    | None => mret (fail OpenAIError)
    end
  else mret (fail OpenAIError).
End Pipeline.

(** * [/fetch-insights] with the store *)

(** [json.dumps(insights_obj.dict())] and what [json.loads] gives back:
    the interface the store needs from the serialiser. *)
Class Serializer `{Platform} `{Builtins} : Type := {
  dumps : brand_insights -> string;
  encode : brand_insights -> json;
  loads_dumps : forall i, json_loads (dumps i) = Some (encode i)
}.

Section Endpoint.
Context `{Platform} `{Builtins} `{Pydantic} `{!Serializer}.

(** [fetch_insights]: the scrape, then the upsert under the request's own
    [website_url]; [ok1] and [ok2] are the outcomes of the two commits. *)
Definition fetch_insights (site_url : string) (ok1 ok2 : bool) (d : db) : Fetch (pyres brand_insights * db) :=
  r ← scrape_insights site_url;
  mret (match r with
        | Ok i => (Ok i, save_insights site_url (dumps i) ok1 ok2 d)
        | Raise e => (Raise e, d)
        end).

(** [get_brand_insights]: the two 404s, then [json.loads] of the text. *)
Definition get_brand_insights (bid : nat) (d : db) : pyres json :=
  blob ← stored_insights d bid;
  match json_loads blob with Some j => Ok j | None => Raise ValueError end.
End Endpoint.

(** * The competitor URL pattern: properties *)

Lemma strip_prefix_app p s r : strip_prefix p s = Some r -> s = p +:+ r.
Proof.
  revert s. induction p as [|a p IH]; intros s Hs; simpl in Hs; [by injection Hs as <-|].
  destruct s as [|b s]; [done|]. destruct (Ascii.eqb_spec a b) as [->|]; [|done].
  by rewrite (IH s Hs).
Qed.

(** What a match looks like: a scheme and a non-empty run of host
    characters. *)
Definition url_shape (x : string) : Prop :=
  exists sch host, (sch = "http://" \/ sch = "https://") /\ x = sch +:+ host /\
                   host <> EmptyString /\ all_chars is_host_char host = true.

Lemma match_url_sound s x r :
  match_url s = Some (x, r) ->
  url_shape x /\ s = x +:+ r.
Proof.
  unfold match_url. destruct (strip_prefix "http" s) as [r1|] eqn:E1; [|done].
  apply strip_prefix_app in E1 as ->.
  assert (Hsch : forall sch r2, (sch = "http://" \/ sch = "https://") ->
            ("http" +:+ r1 = sch +:+ r2) ->
            (let '(host, r3) := span is_host_char r2 in
             if String.eqb host EmptyString then None else Some (sch +:+ host, r3)) = Some (x, r) ->
            url_shape x /\ "http" +:+ r1 = x +:+ r).
  { intros sch r2 Hs Heq. destruct (span is_host_char r2) as [host r3] eqn:Es.
    destruct (String.eqb_spec host EmptyString); [done|]. intros [= <- <-].
    destruct (span_spec _ _ _ _ Es) as (-> & Hh & _).
    split; [by exists sch, host|]. rewrite Heq. by rewrite str_app_assoc. }
  destruct (strip_prefix "s://" r1) as [r2|] eqn:E2.
  - apply strip_prefix_app in E2 as ->. apply (Hsch "https://" r2); [by right|done].
  - destruct (strip_prefix "://" r1) as [r2|] eqn:E3; [|done].
    apply strip_prefix_app in E3 as ->. apply (Hsch "http://" r2); [by left|done].
Qed.

Lemma match_url_shorter s x r : match_url s = Some (x, r) -> String.length r < String.length s.
Proof.
  intros ((sch & host & Hs & -> & Hh & _) & ->)%match_url_sound.
  rewrite !str_length_app. destruct Hs as [->| ->]; simpl; lia.
Qed.

(** The scan terminates: the text's length is enough fuel. *)
Lemma findall_urls_enough_fuel f s : String.length s <= f -> findall_urls f s = find_urls s.
Proof. apply findall_fuel_enough, match_url_shorter. Qed.

(** every competitor URL the pattern extracts is [http://] or
    [https://] followed by a non-empty run of word characters, dots and
    hyphens. *)
Theorem find_urls_sound content x : x ∈ find_urls content -> url_shape x.
Proof.
  apply (findall_fuel_sound _ url_shape). intros s y r E.
  by destruct (match_url_sound _ _ _ E) as [? _].
Qed.

(** the spec's scenario: a model answer
    ["https://a.com, see also https://b.com"] gives the two URLs. *)
Example competitor_urls_example :
  find_urls "https://a.com, see also https://b.com" = ["https://a.com"; "https://b.com"].
Proof. vm_compute. reflexivity. Qed.

(** * The endpoints: properties *)

Section Endpoints.
Context `{Platform} `{Builtins} `{Pydantic}.

(** The [List[Dict]] validation keeps a list of dicts as it is. *)
Lemma mapM_validate_dict faqs :
  Forall (fun j => exists kvs, j = JObj kvs) faqs ->
  exists kvss, mapM validate_dict faqs = Some kvss /\ JObj <$> kvss = faqs.
Proof.
  induction 1 as [|j faqs [kvs ->] _ (kvss & Hm & Heq)]; [by exists []|].
  exists (kvs :: kvss). cbn. rewrite validate_dict_JObj, Hm. cbn. by rewrite Heq.
Qed.

Lemma BrandInsights_ok products heroes privacy refund faqs social contact about links :
  Forall (fun j => exists kvs, j = JObj kvs) faqs ->
  BrandInsights products heroes privacy refund faqs social contact about links =
    Ok (mk_brand_insights products heroes privacy refund faqs social contact about links).
Proof. intros (kvss & Hm & Heq)%mapM_validate_dict. unfold BrandInsights. by rewrite Hm, Heq. Qed.

(** The competitors whose pipeline succeeds, in order. *)
Definition competitor_successes (urls : list string) : list brand_insights :=
  omap (fun u => match result_of (competitor_insights u) with Ok i => Some i | Raise _ => None end) urls.

(** The loop skips exactly the competitors that raise, and runs the
    pipeline of every URL in turn. *)
Lemma competitor_loop_spec urls :
  result_of (competitor_loop urls) = competitor_successes urls /\
  fetched (competitor_loop urls) = mjoin ((fun u => fetched (competitor_insights u)) <$> urls).
Proof.
  induction urls as [|u us [IHr IHf]]; [done|]. cbn [competitor_loop].
  rewrite !result_of_bind, !fetched_bind, result_of_ret, fetched_ret, app_nil_r, IHr, IHf.
  split; [|done]. unfold competitor_successes. cbn [omap list_omap].
  by destruct (result_of (competitor_insights u)).
Qed.

(** C20: [/fetch-competitors] never answers 404: it returns the insights
    of the competitors whose pipeline succeeds, in the order the model
    named them, when there is at least one; every failure, the empty
    result included, becomes a 500. *)
Theorem fetch_competitors_result exc_str site_url :
  match result_of (fetch_competitors exc_str site_url) with
  | Ok l => exists content, llm_complete (competitor_prompt site_url) 256 = Some content /\
             l = competitor_successes (find_urls content) /\ l <> []
  | Raise e => exists d, e = HTTPError 500 d
  end.
Proof.
  unfold fetch_competitors. destruct openai_client_ok; [|by eexists].
  destruct (llm_complete _ _) as [content|]; [|by eexists].
  rewrite result_of_bind, result_of_ret, (proj1 (competitor_loop_spec _)).
  destruct (competitor_successes (find_urls content)) as [|i l] eqn:E; [by eexists|].
  by exists content.
Qed.

(** C16: when the product feed gives a falsy value, [/fetch-insights]
    answers 401 after the single feed request, before any other resolver
    runs. *)
Theorem scrape_insights_401 site_url :
  json_truthy (result_of (get_product_catalog (mk_scraper site_url))) = false ->
  result_of (scrape_insights site_url) = Raise (HTTPError 401 "Website not found or no products available.") /\
  fetched (scrape_insights site_url) = [base_url (mk_scraper site_url) +:+ "/products.json"].
Proof.
  intros Hf. unfold scrape_insights. rewrite result_of_bind, fetched_bind, Hf.
  rewrite result_of_ret, fetched_ret, app_nil_r. split; [done|].
  apply get_product_catalog_eq.
Qed.

(** The pipeline raises only what the product loop, the contact resolver
    or the about resolver raise. *)
Lemma build_insights_raise site_url raw e :
  result_of (build_insights site_url raw) = Raise e ->
  products_of site_url raw = Raise e \/ e = OpenAIError \/ e = TypeError \/ (e = KeyError /\ slices_hashable = true).
Proof.
  unfold build_insights. rewrite result_of_try_bind, result_of_ret.
  destruct (products_of site_url raw) as [ps|e'] eqn:Ep; [|intros [= ->]; by left].
  rewrite result_of_try_bind, result_of_fetch_ok. cbv beta iota.
  rewrite result_of_try_bind, result_of_ret, hero_products_ok. cbv beta iota.
  repeat (rewrite result_of_try_bind, ?result_of_fetch_ok; cbv beta iota).
  destruct (result_of (get_contact_details _)) as [c|e'] eqn:Ec.
  - cbv beta iota. rewrite result_of_try_bind.
    destruct (result_of (get_about (mk_scraper site_url))) as [a|e'] eqn:Ea.
    { cbv beta iota. rewrite result_of_try_bind, result_of_fetch_ok, result_of_ret, BrandInsights_ok;
        [done|apply get_faqs_dicts]. }
    intros [= ->]. right. apply get_about_raise_cases in Ea as (-> & _). by left.
  - intros [= ->]. right. by apply get_contact_details_raise_cases in Ec.
Qed.

(** C17: the exceptions that leave the scrape of [/fetch-insights] (and
    become a 500) are the 401 of an empty feed, what the product loop
    raises on a malformed record, the [OpenAIError] of the contact and
    about fallbacks without a key, and what slicing the contact model's
    answer raises: [TypeError], or [KeyError] on a dict under Python 3.12
    and later; the spec allows only the first. *)
Theorem scrape_insights_raise site_url e :
  result_of (scrape_insights site_url) = Raise e ->
  e = HTTPError 401 "Website not found or no products available." \/
  products_of site_url (result_of (get_product_catalog (mk_scraper site_url))) = Raise e \/
  e = OpenAIError \/ e = TypeError \/ (e = KeyError /\ slices_hashable = true).
Proof.
  unfold scrape_insights. rewrite result_of_bind.
  destruct (json_truthy _); [|rewrite result_of_ret; intros [= <-]; by left].
  intros He. right. by apply build_insights_raise in He.
Qed.
(** The scrape builds the scraper and the product URLs from
    [website_url.rstrip('/')]: it is the same for a URL and its stripped
    form. *)
Lemma build_insights_rstrip u raw : build_insights (rstrip_slash u) raw = build_insights u raw.
Proof. unfold build_insights. by rewrite mk_scraper_rstrip, products_of_rstrip. Qed.

Lemma scrape_insights_rstrip u : scrape_insights (rstrip_slash u) = scrape_insights u.
Proof. unfold scrape_insights. rewrite mk_scraper_rstrip. by setoid_rewrite build_insights_rstrip. Qed.

(** C18: Pydantic's [ValidationError] leaves [/fetch-insights] only from
    the product loop, on a feed record that is a dict whose title the
    [str] field of [Product] rejects, or whose first image [src] its
    [Optional[str]] field rejects; the hero products and the
    [BrandInsights] object always validate. *)
Theorem scrape_insights_validation site_url :
  result_of (scrape_insights site_url) = Raise ValidationError ->
  exists ps i kvs im, py_iter (result_of (get_product_catalog (mk_scraper site_url))) = Ok ps /\
    ps !! i = Some (JObj kvs) /\ image_of (JObj kvs) = Ok im /\
    (validate_str (default (JStr EmptyString) (obj_lookup "title" kvs)) = None \/
     validate_opt_str (default JNull im) = None).
Proof.
  unfold scrape_insights. rewrite result_of_bind.
  destruct (json_truthy _); [|rewrite result_of_ret; discriminate].
  intros [Hp|[?|[?|[? _]]]]%build_insights_raise; [|discriminate..].
  apply products_of_raise_iff in Hp as [Hi|(ps & i & p & Hi & Hl & Hp & _)].
  - by destruct (result_of (get_product_catalog _)).
  - apply product_of_validation in Hp as (kvs & im & -> & Him & Hv). by exists ps, i, kvs, im.
Qed.
End Endpoints.

Section StoreRoundTrip.
Context `{Platform} `{Builtins} `{Pydantic} `{!Serializer}.

(** C22: when the scrape succeeds and both commits go through,
    [get_brand_insights] on the store's brand returns the insights
    [fetch_insights] answered with, as [json.loads] decodes them; the
    store keeps its invariant. *)
Theorem fetch_insights_roundtrip site_url d i :
  db_wf d ->
  result_of (scrape_insights site_url) = Ok i ->
  (result_of (fetch_insights site_url true true d)).1 = Ok i /\
  db_wf (result_of (fetch_insights site_url true true d)).2 /\
  exists b, query_brand (result_of (fetch_insights site_url true true d)).2 site_url = Some b /\
            get_brand_insights (brand_id b) (result_of (fetch_insights site_url true true d)).2 = Ok (encode i).
Proof.
  intros Hwf Hs. unfold fetch_insights. rewrite result_of_bind, Hs, result_of_ret. cbn [fst snd].
  split_and!; [done|by apply save_insights_db_wf|].
  destruct (save_insights_latest site_url (dumps i) d) as (b & Hb & Hst).
  exists b. split; [done|]. unfold get_brand_insights. rewrite Hst. cbn. by rewrite loads_dumps.
Qed.
(** A successful scrape answers with its insights and upserts them. *)
Lemma fetch_insights_ok site_url ok1 ok2 d i :
  result_of (scrape_insights site_url) = Ok i ->
  result_of (fetch_insights site_url ok1 ok2 d) = (Ok i, save_insights site_url (dumps i) ok1 ok2 d).
Proof. intros Hs. unfold fetch_insights. by rewrite result_of_bind, Hs, result_of_ret. Qed.

(** C23: [https://s.test/] and [https://s.test] are the same store to the
    scraper, which strips the trailing slashes, but two stores to the
    database, which is keyed by the request's [website_url] as sent: the
    two requests run the same scrape, and after both the store has two
    brands with different ids, the second holding the insights. *)
Theorem fetch_insights_trailing_slash u d i :
  db_wf d -> u <> rstrip_slash u -> result_of (scrape_insights u) = Ok i ->
  let d1 := (result_of (fetch_insights u true true d)).2 in
  let d2 := (result_of (fetch_insights (rstrip_slash u) true true d1)).2 in
  scrape_insights (rstrip_slash u) = scrape_insights u /\
  (result_of (fetch_insights (rstrip_slash u) true true d1)).1 = Ok i /\
  exists b1 b2, query_brand d2 u = Some b1 /\ query_brand d2 (rstrip_slash u) = Some b2 /\
    brand_id b1 <> brand_id b2 /\ get_brand_insights (brand_id b2) d2 = Ok (encode i).
Proof.
  intros Hwf Hne Hs d1 d2. pose proof (scrape_insights_rstrip u) as Hr.
  assert (Hs' : result_of (scrape_insights (rstrip_slash u)) = Ok i) by by rewrite Hr.
  subst d1 d2. rewrite (fetch_insights_ok _ _ _ _ _ Hs'), (fetch_insights_ok _ _ _ _ _ Hs). cbn [fst snd].
  set (d1 := save_insights u (dumps i) true true d).
  destruct (save_insights_latest u (dumps i) d) as (b1 & Hb1 & _).
  destruct (save_insights_latest (rstrip_slash u) (dumps i) d1) as (b2 & Hb2 & Hst).
  split_and!; [done|done|]. exists b1, b2. split_and!; [by apply query_brand_save|done| |].
  - apply query_brand_save with (url' := rstrip_slash u) (blob := dumps i) (ok1 := true) (ok2 := true) in Hb1.
    apply query_brand_Some in Hb1 as [Hin1 Hu1], Hb2 as [Hin2 Hu2].
    apply (NoDup_fmap_ne brand_id (brands (save_insights (rstrip_slash u) (dumps i) true true d1)));
      [by apply save_insights_db_wf, save_insights_db_wf| done | done |].
    intros ->. by rewrite Hu1 in Hu2.
  - unfold get_brand_insights. rewrite Hst. cbn. by rewrite loads_dumps.
Qed.
End StoreRoundTrip.

(** * Concrete stores *)

(** A store with a one-product feed and nothing else, on a server whose
    OpenAI key is set but whose model calls fail. *)
Definition api_site (records : list json) : Platform :=
  table_platform
    [("https://c.test/products.json", mk_response 200 "feed")]
    []
    (fun s => if String.eqb s "feed" then Some (JObj [("products", JArr records)])
              else if String.eqb s "insights" then Some (JObj []) else None)
    (fun _ => []) true (fun _ _ => None).

(** A serialiser for [api_site]: every record is written as the text
    ["insights"], which that platform decodes as an empty object. *)
#[refine] Instance api_serializer : @Serializer (api_site [mug_record]) decimal_builtins := {
  dumps _ := "insights";
  encode _ := JObj []
}.
Proof. done. Defined.

Lemma fetch_insights_roundtrip_witness :
  exists i, @result_of _ (@scrape_insights (api_site [mug_record]) decimal_builtins strict_pydantic "https://c.test") = Ok i /\
  (result_of (@fetch_insights _ _ _ api_serializer "https://c.test" true true empty_db)).1 = Ok i /\
  db_wf (result_of (@fetch_insights _ _ _ api_serializer "https://c.test" true true empty_db)).2 /\
  exists b, query_brand (result_of (@fetch_insights _ _ _ api_serializer "https://c.test" true true empty_db)).2
                        "https://c.test" = Some b /\
            @get_brand_insights (api_site [mug_record]) (brand_id b)
              (result_of (@fetch_insights _ _ _ api_serializer "https://c.test" true true empty_db)).2 = Ok (JObj []).
Proof.
  destruct (@result_of _ (@scrape_insights (api_site [mug_record]) decimal_builtins strict_pydantic "https://c.test")) as [i|e] eqn:E;
    [|vm_compute in E; discriminate].
  exists i. split; [done|].
  apply (@fetch_insights_roundtrip _ _ _ api_serializer "https://c.test" empty_db i); [|exact E].
  split; [split_and!|]; vm_compute; constructor.
Defined.

(** The feed is empty: [/fetch-insights] answers 401. *)
Lemma scrape_insights_401_witness :
  result_of (@scrape_insights (api_site []) decimal_builtins strict_pydantic "https://c.test") =
    Raise (HTTPError 401 "Website not found or no products available.") /\
  fetched (@scrape_insights (api_site []) decimal_builtins strict_pydantic "https://c.test") =
    [base_url (mk_scraper "https://c.test") +:+ "/products.json"].
Proof. apply scrape_insights_401. vm_compute. reflexivity. Defined.

Lemma scrape_insights_raise_witness :
  let e := HTTPError 401 "Website not found or no products available." in
  e = HTTPError 401 "Website not found or no products available." \/
  products_of "https://c.test"
    (result_of (@get_product_catalog (api_site []) (mk_scraper "https://c.test"))) = Raise e \/
  e = OpenAIError \/ e = TypeError \/ (e = KeyError /\ @slices_hashable (api_site []) = true).
Proof. apply (@scrape_insights_raise (api_site []) decimal_builtins strict_pydantic). vm_compute. reflexivity. Defined.

Lemma fetch_insights_trailing_slash_witness :
  exists i, @result_of _ (@scrape_insights (api_site [mug_record]) decimal_builtins strict_pydantic "https://c.test/") = Ok i /\
  let d1 := (result_of (@fetch_insights _ _ _ api_serializer "https://c.test/" true true empty_db)).2 in
  let d2 := (result_of (@fetch_insights _ _ _ api_serializer "https://c.test" true true d1)).2 in
  @scrape_insights (api_site [mug_record]) decimal_builtins strict_pydantic "https://c.test" =
    @scrape_insights (api_site [mug_record]) decimal_builtins strict_pydantic "https://c.test/" /\
  (result_of (@fetch_insights _ _ _ api_serializer "https://c.test" true true d1)).1 = Ok i /\
  exists b1 b2, query_brand d2 "https://c.test/" = Some b1 /\ query_brand d2 "https://c.test" = Some b2 /\
    brand_id b1 <> brand_id b2 /\ @get_brand_insights (api_site [mug_record]) (brand_id b2) d2 = Ok (JObj []).
Proof.
  destruct (@result_of _ (@scrape_insights (api_site [mug_record]) decimal_builtins strict_pydantic "https://c.test/")) as [i|e] eqn:E;
    [|vm_compute in E; discriminate].
  exists i. split; [done|].
  apply (@fetch_insights_trailing_slash _ _ _ api_serializer "https://c.test/" empty_db i); [| by vm_compute | exact E].
  split; [split_and!|]; vm_compute; constructor.
Defined.

(** A feed record whose title is [null]. *)
Definition null_title_record : json :=
  JObj [("title", JNull); ("handle", JStr "mug")].

Lemma scrape_insights_validation_witness :
  exists ps i kvs im,
    py_iter (result_of (@get_product_catalog (api_site [null_title_record]) (mk_scraper "https://c.test"))) = Ok ps /\
    ps !! i = Some (JObj kvs) /\ image_of (JObj kvs) = Ok im /\
    (@validate_str strict_pydantic (default (JStr EmptyString) (obj_lookup "title" kvs)) = None \/
     @validate_opt_str strict_pydantic (default JNull im) = None).
Proof.
  apply (@scrape_insights_validation (api_site [null_title_record]) decimal_builtins strict_pydantic "https://c.test").
  vm_compute. reflexivity.
Defined.
