(* ===== verification/Session.v ===== *)
(** Session: the SQLAlchemy sessions of [src/app/main.py].  The upsert of
    [fetch_insights] (lines 66-88) opens [SessionLocal()], runs its
    queries, adds and commits inside [try], rolls back in
    [except SQLAlchemyError] and closes in [finally]; [list_brands] and
    [get_brand_insights] get their session from the generator [get_db]
    (lines 149-154), which FastAPI closes after the handler, whether it
    returned or raised.

    A session holds the committed database and its own view of it (the
    committed rows and its pending writes, which its queries see); a
    commit publishes the view or raises [SQLAlchemyError], a rollback and
    a close return the view to what is committed.  Whether each commit
    succeeds is not in the code: the session carries the outcomes of its
    next commits, and a commit past them succeeds.  Programs are in a
    state and exception monad of their own, [sess], where an exception
    keeps the state reached when it was raised, as in Python.  The
    theorems show that the session program commits exactly what
    [save_insights] of [Store.v] describes, for some outcomes of its two
    commits and for every one of them, and that every session is closed
    at the end of its request. *)

From S2P Require Import Prelude Html Json Web PyDict Faq Policy Hero Email Contact Social About Catalog Store Api.

(** * Sessions *)

Record session : Type := mk_session {
  committed : db;          (** the database as other sessions see it *)
  view : db;               (** what this session's queries see *)
  outcomes : list bool;    (** the outcomes of the next commits *)
  is_open : bool
}.

(** [SessionLocal()]. *)
Definition SessionLocal (d : db) (os : list bool) : session := mk_session d d os true.

Definition set_view (s : session) (v : db) : session :=
  mk_session (committed s) v (outcomes s) (is_open s).

(** * The session monad *)

Definition sess (A : Type) : Type := session -> pyres A * session.

#[export] Instance sess_ret : MRet sess := fun A a s => (Ok a, s).
#[export] Instance sess_bind : MBind sess := fun A B f m s =>
  match m s with
  | (Ok a, s') => f a s'
  | (Raise e, s') => (Raise e, s')
  end.

(** [try: m except <p>: h]: an exception [p] selects is handled by [h]
    in the state it was raised in; another one propagates. *)
Definition sess_except {A} (p : pyexc -> bool) (m : sess A) (h : sess A) : sess A := fun s =>
  match m s with
  | (Raise e, s') => if p e then h s' else (Raise e, s')
  | r => r
  end.

(** [try: m finally: fin]: [fin] runs on both outcomes; an exception of
    [fin] replaces the outcome of [m]. *)
Definition sess_finally {A} (m : sess A) (fin : sess unit) : sess A := fun s =>
  let '(r, s1) := m s in
  let '(r2, s2) := fin s1 in
  (match r2 with Raise e => Raise e | Ok _ => r end, s2).

Definition is_sqlalchemy_error (e : pyexc) : bool :=
  match e with SQLAlchemyError => true | _ => false end.

(** * Session operations *)

(** [db.query(Brand).filter(Brand.website_url == url).first()]. *)
Definition db_query_brand (url : string) : sess (option brand_row) := fun s =>
  (Ok (query_brand (view s) url), s).

(** [db.query(BrandInsight).filter(BrandInsight.brand_id == bid).first()]. *)
Definition db_query_insight (bid : nat) : sess (option insight_row) := fun s =>
  (Ok (query_insight (view s) bid), s).

(** [db.add(Brand(website_url=url))], then [brand.id] after the commit
    and [db.refresh(brand)]. *)
Definition db_add_brand (url : string) : sess nat := fun s =>
  let '(v, bid) := add_brand (view s) url in (Ok bid, set_view s v).

(** [db.add(BrandInsight(brand_id=bid, insights_json=blob))]. *)
Definition db_add_insight (bid : nat) (blob : string) : sess unit := fun s =>
  (Ok tt, set_view s (add_insight (view s) bid blob)).

(** [brand_insight.insights_json = blob]. *)
Definition db_set_insights_json (rid : nat) (blob : string) : sess unit := fun s =>
  (Ok tt, set_view s (update_insight (view s) rid blob)).

(** [db.commit()]: publish the view, or raise and keep it pending. *)
Definition db_commit : sess unit := fun s =>
  match outcomes s with
  | false :: os => (Raise SQLAlchemyError, mk_session (committed s) (view s) os (is_open s))
  | true :: os => (Ok tt, mk_session (view s) (view s) os (is_open s))
  | [] => (Ok tt, mk_session (view s) (view s) [] (is_open s))
  end.

(** [db.rollback()]. *)
Definition db_rollback : sess unit := fun s => (Ok tt, set_view s (committed s)).

(** [db.close()]: what is pending is rolled back. *)
Definition db_close : sess unit := fun s =>
  (Ok tt, mk_session (committed s) (committed s) (outcomes s) false).

(** * The upsert of [fetch_insights] *)

(** Lines 69-83, the body of the [try]. *)
Definition upsert (url blob : string) : sess unit :=
  b ← db_query_brand url;
  bid ← (match b with
         | Some b => mret (brand_id b)
         | None => bid ← db_add_brand url; _ ← db_commit; mret bid
         end : sess nat);
  bi ← db_query_insight bid;
  _ ← (match bi with
       | None => db_add_insight bid blob
       | Some r => db_set_insights_json (insight_id r) blob
       end : sess unit);
  db_commit.

(** Lines 67-88: [SessionLocal()], the [try], the rollback of
    [except SQLAlchemyError] and the [finally] that closes. *)
Definition save_session (url blob : string) : sess unit :=
  sess_finally (sess_except is_sqlalchemy_error (upsert url blob) db_rollback) db_close.

(** The database after the upsert, from a fresh session. *)
Definition persist (url blob : string) (d : db) (os : list bool) : pyres unit * session :=
  save_session url blob (SessionLocal d os).

(** * [get_db] *)

(** Lines 149-154: the session a handler runs in, closed after it. *)
Definition get_db {A} (handler : sess A) (d : db) : pyres A * session :=
  sess_finally handler db_close (SessionLocal d []).

(** [list_brands] (lines 156-159) on its session. *)
Definition list_brands_handler : sess (list (nat * string)) := fun s =>
  (Ok (list_brands (view s)), s).

Section Handlers.
Context `{Platform}.

(** [get_brand_insights] (lines 161-170) on its session. *)
Definition brand_insights_handler (bid : nat) : sess json := fun s =>
  (get_brand_insights bid (view s), s).
End Handlers.

Section FetchInsights.
Context `{Platform} `{Builtins} `{Pydantic} `{!Serializer}.

(** [fetch_insights] (lines 26-89) with its session: the scrape, then,
    when it succeeds, the upsert of lines 66-88 on a fresh session over
    [d] whose commits meet the outcomes [os]; the insights are returned
    unless the session program raises.  The value is the response and
    the committed database. *)
Definition fetch_insights_db (site_url : string) (d : db) (os : list bool)
    : Fetch (pyres brand_insights * db) :=
  r ← scrape_insights site_url;
  mret (match r with
        | Ok i =>
            let '(r', s) := persist site_url (dumps i) d os in
            (match r' with Ok _ => Ok i | Raise e => Raise e end, committed s)
        | Raise e => (Raise e, d)
        end).
End FetchInsights.

(** A closed session over [d] with the outcomes [os] left. *)
Definition closed_session (d : db) (os : list bool) : session := mk_session d d os false.

(** * The upsert refines [save_insights] *)

#[local] Arguments add_brand : simpl never.

(** Runs a session program: unfolds the monad and the operations. *)
Ltac sess_run :=
  cbv [fetch_insights_db persist save_session get_db sess_finally sess_except upsert mbind sess_bind mret sess_ret
       db_query_brand db_query_insight db_add_brand db_add_insight db_set_insights_json
       db_commit db_rollback db_close SessionLocal set_view list_brands_handler brand_insights_handler];
  cbn.

(** The upsert run from a fresh session: it never raises, it closes the
    session with nothing pending, and it commits what [save_insights]
    commits for the outcomes [ok1] (of the brand's commit) and [ok2] (of
    the insight's) that the session met. *)
Lemma persist_spec url blob d os :
  exists ok1 ok2 os', persist url blob d os = (Ok tt, closed_session (save_insights url blob ok1 ok2 d) os').
Proof.
  sess_run. unfold save_insights.
  destruct (query_brand d url) as [b|] eqn:Eq; cbn.
  - unfold write_insight. destruct (query_insight d (brand_id b)) as [r|]; destruct os as [|[] os]; cbn;
      first [by exists true, true, [] | by exists true, true, os | by exists true, false, os].
  - unfold write_insight. destruct (add_brand d url) as [d1 bid].
    destruct os as [|[] os]; cbn; [| |by exists false, true, os];
      destruct (query_insight d1 bid) as [r|]; cbn;
      try destruct os as [|[] os]; cbn;
      first [by exists true, true, [] | by exists true, true, os | by exists true, false, os].
Qed.

(** Every outcome of [save_insights] is met by some outcomes of the
    session's commits: [ok2] alone when the brand exists, [ok1] then
    [ok2] when it is created. *)
Lemma persist_complete url blob d ok1 ok2 :
  exists os os', persist url blob d os = (Ok tt, closed_session (save_insights url blob ok1 ok2 d) os').
Proof.
  unfold save_insights. destruct (query_brand d url) as [b|] eqn:Eq; [exists [ok2] | exists [ok1; ok2]];
    sess_run; rewrite Eq; cbn.
  - unfold write_insight. destruct (query_insight d (brand_id b)); destruct ok2; cbn; by eexists.
  - destruct (add_brand d url) as [d1 bid]. destruct ok1; cbn; [|by eexists].
    unfold write_insight. destruct (query_insight d1 bid); destruct ok2; cbn; by eexists.
Qed.

(** * The endpoints *)

Section Endpoints.
Context `{Platform} `{Builtins} `{Pydantic} `{!Serializer}.

(** [/fetch-insights] with its SQLAlchemy session implements the
    upsert of [fetch_insights] in [Api.v]: whatever its commits do, it
    answers and commits what [fetch_insights] answers and commits for
    some outcomes of its two commits, and every pair of outcomes is met
    by some behaviour of the session's commits. *)
Theorem fetch_insights_db_refines site_url d :
  (forall os, exists ok1 ok2, fetch_insights_db site_url d os = fetch_insights site_url ok1 ok2 d) /\
  (forall ok1 ok2, exists os, fetch_insights_db site_url d os = fetch_insights site_url ok1 ok2 d).
Proof.
  unfold fetch_insights_db, fetch_insights.
  destruct (scrape_insights site_url) as [[i|e] log]; split.
  - intros os. destruct (persist_spec site_url (dumps i) d os) as (ok1 & ok2 & os' & Hp).
    exists ok1, ok2. rewrite !fetch_pair_bind. cbn. by rewrite Hp.
  - intros ok1 ok2. destruct (persist_complete site_url (dumps i) d ok1 ok2) as (os & os' & Hp).
    exists os. rewrite !fetch_pair_bind. cbn. by rewrite Hp.
  - intros os. exists true, true. by rewrite !fetch_pair_bind.
  - intros ok1 ok2. exists []. by rewrite !fetch_pair_bind.
Qed.

(** every session is closed at the end of its request, with nothing
    left pending: [get_db] closes the session of any handler, whether it
    returned or raised, keeping what the handler committed; the two
    read endpoints answer from the committed database and leave it as
    it was, also when [get_brand_insights] raises its 404s; the upsert of
    [fetch_insights] never lets an exception out of its session. *)
Theorem sessions_closed {A} (h : sess A) d url blob os :
  get_db h d = ((h (SessionLocal d [])).1,
                closed_session (committed (h (SessionLocal d [])).2) (outcomes (h (SessionLocal d [])).2)) /\
  get_db list_brands_handler d = (Ok (list_brands d), closed_session d []) /\
  (forall bid, get_db (brand_insights_handler bid) d = (get_brand_insights bid d, closed_session d [])) /\
  exists d' os', persist url blob d os = (Ok tt, closed_session d' os').
Proof.
  split_and!; [|done|done|].
  - unfold get_db, sess_finally. by destruct (h (SessionLocal d [])) as [r s].
  - destruct (persist_spec url blob d os) as (ok1 & ok2 & os' & ->). by eexists _, _.
Qed.
End Endpoints.

(** * A failed insight commit *)

Section FailedCommit.
Context `{Platform} `{Builtins} `{Pydantic} `{!Serializer}.

(** C26: for a site not yet in a well-formed store, when the brand's
    commit succeeds and the insight's commit fails, [/fetch-insights]
    still answers with the scraped insights (the [SQLAlchemyError] is
    caught and printed), while the store keeps the new brand without any
    insight row, so [/brands/{id}/insights] on it answers 404. *)
Theorem fetch_insights_insight_commit_fails site_url d i :
  core_wf d -> query_brand d site_url = None -> result_of (scrape_insights site_url) = Ok i ->
  (result_of (fetch_insights_db site_url d [true; false])).1 = Ok i /\
  exists b, query_brand (result_of (fetch_insights_db site_url d [true; false])).2 site_url = Some b /\
    stored_insights (result_of (fetch_insights_db site_url d [true; false])).2 (brand_id b) =
      Raise (HTTPError 404 "No insights found for this brand").
Proof.
  intros Hc Hq Hs. destruct (add_brand_fresh d site_url Hc Hq) as (Hq1 & Hid & Hi).
  unfold fetch_insights_db. rewrite result_of_bind, Hs, result_of_ret. cbv beta iota.
  sess_run. rewrite Hq. cbn.
  destruct (add_brand d site_url) as [d1 bid] eqn:Ea. cbn [fst snd] in Hq1, Hid, Hi. cbn.
  rewrite Hi. cbn. split; [done|]. exists (mk_brand_row bid site_url).
  unfold stored_insights. cbn [brand_id]. by rewrite Hq1, Hid, Hi.
Qed.
End FailedCommit.

Lemma fetch_insights_insight_commit_fails_witness :
  exists i, @result_of _ (@scrape_insights (api_site [mug_record]) decimal_builtins strict_pydantic "https://c.test") = Ok i /\
  (result_of (@fetch_insights_db _ _ _ api_serializer "https://c.test" empty_db [true; false])).1 = Ok i /\
  exists b, query_brand (result_of (@fetch_insights_db _ _ _ api_serializer "https://c.test" empty_db [true; false])).2
              "https://c.test" = Some b /\
    stored_insights (result_of (@fetch_insights_db _ _ _ api_serializer "https://c.test" empty_db [true; false])).2
      (brand_id b) = Raise (HTTPError 404 "No insights found for this brand").
Proof.
  destruct (@result_of _ (@scrape_insights (api_site [mug_record]) decimal_builtins strict_pydantic "https://c.test"))
    as [i|e] eqn:E; [|vm_compute in E; discriminate].
  exists i. split; [done|].
  apply (@fetch_insights_insight_commit_fails _ _ _ api_serializer "https://c.test" empty_db i); [|reflexivity|exact E].
  split_and!; vm_compute; constructor.
Defined.
